(** * Aquasentinal dashboard: scan lifecycle, metrics, charts and layer control

    A shallow embedding of [src/app.js] (the dashboard script) and of
    [src/frontend_export/script.js] (the exported variant of the same page),
    with the properties of the scan/request lifecycle stated over it.

    Conventions of the embedding.
    - A JavaScript number is a binary64 value and arithmetic rounds as the
      browser does: the operations are those of the Standard Library's
      specification of IEEE 754 arithmetic.  A JSON number that is out of
      range arrives as an infinity.
    - The DOM is a record of the fields the scripts write: text contents,
      the one CSS class and the one style property that carry meaning.
      Purely cosmetic class changes and their timers are left out.
    - Leaflet's [LayerGroup] is its [_layers] object: a finite map from the
      stamp of a layer to the layer.
    - An [async] function is split at its [await]: the part before it runs in
      the event that calls the function, the rest runs in the event that
      settles the request. *)

From Stdlib Require Import ZArith Lia DecimalString.
From Corelib Require Import PrimFloat SpecFloat FloatOps.
From stdpp Require Import gmap strings list.

Local Open Scope Z_scope.
#[local] Set Warnings "-inexact-float".

(** ** JavaScript numbers

    A number is an IEEE 754 binary64 value, here in the representation
    of the Standard Library's specification of floating-point arithmetic
    ([prec = 53], [emax = 1024]): a signed zero, a signed infinity, NaN,
    or [(-1)^s * m * 2^e]. *)

Module Js.

Definition number : Type := spec_float.

(** A decimal literal of the script: the binary64 value nearest to it. *)
Definition lit (x : float) : number := Prim2SF x.

Definition NaN : number := S754_nan.
Definition Infinity : number := S754_infinity false.
Definition zero : number := S754_zero false.

Definition add : number -> number -> number := SFadd prec emax.
Definition mul : number -> number -> number := SFmul prec emax.
Definition div : number -> number -> number := SFdiv prec emax.

(** [a < b], [a > b], [a <= b] and [a === b]: false when either side is
    NaN; the two zeros are equal. *)
Definition ltb (a b : number) : bool := SFltb a b.
Definition gtb (a b : number) : bool := SFltb b a.
Definition leb (a b : number) : bool := SFleb a b.
Definition strict_eq (a b : number) : bool := SFeqb a b.

Definition is_NaN (x : number) : bool :=
  match x with S754_nan => true | _ => false end.

Definition is_finite (x : number) : bool :=
  match x with S754_zero _ | S754_finite _ _ _ => true | _ => false end.

(** Truthiness of a number: the zeros and NaN are falsy. *)
Definition truthy (x : number) : bool :=
  match x with S754_zero _ | S754_nan => false | _ => true end.

(** [x > 0] where [x] may be [undefined]: the comparison converts
    [undefined] to NaN and is false. *)
Definition opt_gt0 (x : option number) : bool :=
  match x with
  | Some m => gtb m zero
  | None => false
  end.

(** Truthiness of a possibly missing number. *)
Definition truthy_num (x : option number) : bool :=
  match x with
  | Some m => truthy m
  | None => false
  end.

(** Truthiness of a possibly missing string: [undefined] and [''] are falsy. *)
Definition truthy_str (x : option string) : bool :=
  match x with
  | Some s => negb (String.eqb s "")
  | None => false
  end.

(** The number with the integer value [n] (exact for [|n| <= 2^53]). *)
Definition of_Z (n : Z) : number := binary_normalize prec emax n 0 false.

(** [Math.round]: the integer nearest to [x], ties towards plus
    infinity; a result of zero has the sign of [x]; integers, the
    infinities and NaN are returned as they are.  For [e < 0] the value
    is [±m * 2^e] and [floor (x + 1/2)] is
    [floor ((±2m + 2^-e) / 2^(1-e))]. *)
Definition Math_round (x : number) : number :=
  match x with
  | S754_finite s m e =>
      if 0 <=? e then x else
      match Z.shiftr (2 * cond_Zopp s (Z.pos m) + 2 ^ (- e)) (1 - e) with
      | Z0 => S754_zero s
      | n => of_Z n
      end
  | _ => x
  end.

(** [Math.min(x, y)] and [Math.max(x, y)]: NaN when either is NaN;
    [-0] counts as smaller than [+0]. *)
Definition Math_min (x y : number) : number :=
  match SFcompare x y with
  | None => S754_nan
  | Some Lt => x
  | Some Gt => y
  | Some Eq => match x with S754_zero true => x | _ => y end
  end.

Definition Math_max (x y : number) : number :=
  match SFcompare x y with
  | None => S754_nan
  | Some Lt => y
  | Some Gt => x
  | Some Eq => match x with S754_zero false => x | _ => y end
  end.

(** [parseFloat(x)] for a number [x]: the number is converted to a
    string and read back, which gives [x] again, except that [-0] is
    written "0". *)
Definition parseFloat (x : number) : number :=
  match x with
  | S754_zero _ => S754_zero false
  | _ => x
  end.

(** Two numbers are written as the same text: they are equal, or both
    are zeros. *)
Definition same_text (x y : number) : Prop :=
  x = y \/ (exists s s', x = S754_zero s /\ y = S754_zero s').

(** *** [Number.prototype.toFixed] *)

(** The result of a conversion to a string: a text, or the exponential
    notation of a number of magnitude [1e21] or more, which is not
    spelled out. *)
Inductive Text : Type :=
| text (s : string)
| exponential (x : number).

Definition decimal (n : Z) : string :=
  NilZero.string_of_uint (N.to_uint (Z.to_N n)).

(** The digits of [n / 10^f] with [f] decimals. *)
Definition fixed_point (f : nat) (n : Z) : string :=
  let d := decimal n in
  let d := String.concat "" (replicate (S f - String.length d) "0")
           +:+ d in
  let k := (String.length d - f)%nat in
  if decide (f = 0%nat) then d
  else String.substring 0 k d +:+ "." +:+ String.substring k f d.

(** [x.toFixed(f)] for [f] from 0 to 100: with [n] the integer for
    which [n / 10^f] is nearest to [|x|], the larger one on a tie, the
    digits of [n / 10^f], after a minus sign when [x < 0]. *)
Definition toFixed (f : nat) (x : number) : Text :=
  match x with
  | S754_nan => text "NaN"
  | S754_infinity false => text "Infinity"
  | S754_infinity true => text "-Infinity"
  | S754_zero _ => text (fixed_point f 0)
  | S754_finite s m e =>
      if 0 <=? e then
        if 10 ^ 21 <=? Z.pos m * 2 ^ e then exponential x
        else text ((if s then "-" else "")
                   +:+ fixed_point f (Z.pos m * 2 ^ e * 10 ^ Z.of_nat f))
      else
        if 10 ^ 21 * 2 ^ (- e) <=? Z.pos m then exponential x
        else text ((if s then "-" else "")
                   +:+ fixed_point f
                         (Z.shiftr (2 * Z.pos m * 10 ^ Z.of_nat f
                                    + 2 ^ (- e)) (1 - e)))
  end.

End Js.

(** ** The response body of [POST /api/analyze] *)

Module Api.

Record Seasonal : Type := mkSeasonal {
  summer : Js.number;
  monsoon : Js.number;
  winter : Js.number
}.

(** A body whose [area], [volume] and [avg_elevation] are numbers.
    [max_volume], [layers], [seasonal] and [error] may be missing from
    the object ([None]; for [layers] also when it is [null]); a
    [layers] object maps the names the backend chose to tile URLs. *)
Record AnalysisData : Type := mkData {
  area : Js.number;
  volume : Js.number;
  avg_elevation : Js.number;
  max_volume : option Js.number;
  layers : option (gmap string string);
  seasonal : option Seasonal;
  error : option string
}.

(** A body that does not parse rejects [response.json()]. *)
Inductive Body : Type :=
| BadJson (message : string)
| Json (data : AnalysisData).

(** How a [fetch] settles: rejected by the network, or fulfilled with a
    response whose [ok] flag says whether the status was 2xx. *)
Inductive Outcome : Type :=
| NetworkError (message : string)
| Response (ok : bool) (statusText : string) (body : Body).

End Api.

(** ** The page *)

Module Dom.

(** [style.display] of the scanning overlay. *)
Inductive Display : Type := flex | none.

(** Second argument of [showToast]. *)
Inductive ToastType : Type := info | success | error.

(** The three classes the fill bar can get. *)
Inductive FillStyle : Type := bg_red_500 | bg_blue_500 | bg_cyan_500.

(** What [updateMetrics] writes: the two animated numbers, the width and
    label of the fill bar (one number), its class, and the elevation.
    Each number stands for the text the script makes of it. *)
Record Metrics : Type := mkMetrics {
  metricArea : Js.number;
  metricVolume : Js.number;
  fillPct : Js.number;
  fillBar : FillStyle;
  metricElev : Js.number
}.

End Dom.

(** [state.mode]. *)
Inductive Mode : Type := click | draw.

#[global] Instance Mode_eq_dec : EqDecision Mode.
Proof. solve_decision. Defined.

(** The six layer names the page knows. *)
Inductive LayerKey : Type :=
  analytics | depth | water_mask | winter | summer | monsoon.

Definition key_name (k : LayerKey) : string :=
  match k with
  | analytics => "analytics"
  | depth => "depth"
  | water_mask => "water_mask"
  | winter => "winter"
  | summer => "summer"
  | monsoon => "monsoon"
  end.

#[global] Instance LayerKey_eq_dec : EqDecision LayerKey.
Proof. solve_decision. Defined.

(** ** Leaflet

    The map library the page loads; only the parts the scripts use. *)

Module Leaflet.

Record Marker : Type := mkMarker {
  marker_lat : Js.number;
  marker_lng : Js.number
}.

(** A tile layer as [L.tileLayer(url, options)] builds it.  [made_for]
    is not a field of the JavaScript object: it records which toggle
    created the layer, so that properties can speak of the overlays of
    a key. *)
Record TileLayer : Type := mkTileLayer {
  url : string;
  opacity : Js.number;
  zIndex : option Z;
  made_for : LayerKey
}.

(** A polygon or rectangle drawn on the map, as far as the scripts look
    at it: the centre of its bounds. *)
Record Shape : Type := mkShape {
  center_lat : Js.number;
  center_lng : Js.number
}.

(** The argument of [onMapClick]: [e.latlng] and [e.isDraw]. *)
Record ClickEvent : Type := mkClick {
  latlng_lat : Js.number;
  latlng_lng : Js.number;
  isDraw : bool
}.

(** [LayerGroup.addLayer], [removeLayer] and [clearLayers] on the
    [_layers] object, keyed by the stamp of the layer. *)
Definition addLayer {A : Type} (id : nat) (l : A) (g : gmap nat A)
  : gmap nat A := <[id := l]> g.

Definition removeLayer {A : Type} (id : nat) (g : gmap nat A)
  : gmap nat A := delete id g.

Definition clearLayers {A : Type} (g : gmap nat A) : gmap nat A := ∅.

End Leaflet.

(** The derivation of the fill percentage as the specification words it,
    for comparison with the two scripts. *)
Module SpecWords.

Definition capacity (d : Api.AnalysisData) : Js.number :=
  match Api.max_volume d with
  | Some m =>
      if Js.gtb m Js.zero then m else Js.mul (Api.volume d) (Js.lit 1.5)
  | None => Js.mul (Api.volume d) (Js.lit 1.5)
  end.

Definition clamp (x lo hi : Js.number) : Js.number :=
  Js.Math_max lo (Js.Math_min hi x).

Definition fillPct (d : Api.AnalysisData) : Js.number :=
  if Js.gtb (capacity d) Js.zero
  then clamp
         (Js.Math_round
            (Js.mul (Js.div (Api.volume d) (capacity d)) (Js.lit 100)))
         Js.zero (Js.lit 100)
  else Js.zero.

End SpecWords.


(** ** Statements that may throw *)

Module Stmt.

Record JsError : Type := mkError {
  name : string;
  message : string
}.

Definition Error (msg : string) : JsError := mkError "Error" msg.
Definition TypeError (msg : string) : JsError := mkError "TypeError" msg.
Definition SyntaxError (msg : string) : JsError := mkError "SyntaxError" msg.
Definition AbortError : JsError :=
  mkError "AbortError" "The user aborted a request.".

Inductive Completion (A : Type) : Type :=
| Normal (a : A)
| Throw (e : JsError).
Arguments Normal {A} a.
Arguments Throw {A} e.

(** A statement runs on a page of type [S] and completes normally or
    throws; what it wrote before it threw stays written. *)
Definition M (S A : Type) : Type := S -> Completion A * S.

#[global] Instance M_ret {S : Type} : MRet (M S) := λ A a s, (Normal a, s).

#[global] Instance M_bind {S : Type} : MBind (M S) := λ A B f m s,
  match m s with
  | (Normal a, s') => f a s'
  | (Throw e, s') => (Throw e, s')
  end.

Section Statements.
Context {S : Type}.

Definition throw {A : Type} (e : JsError) : M S A := λ s, (Throw e, s).

Definition gets {A : Type} (f : S -> A) : M S A := λ s, (Normal (f s), s).

Definition modify (f : S -> S) : M S unit := λ s, (Normal tt, f s).

Definition skip : M S unit := mret tt.

(** [try { body } catch (err) { handler err } finally { final }]. *)
Definition try_catch_finally (body : M S unit)
    (handler : JsError -> M S unit) (final : M S unit) : M S unit :=
  λ s,
    let after :=
      match body s with
      | (Normal tt, s') => (Normal tt, s')
      | (Throw err, s') => handler err s'
      end in
    match final after.2 with
    | (Normal tt, s'') => (after.1, s'')
    | (Throw e, s'') => (Throw e, s'')
    end.

(** [Array.from({ length: n }, f)]. *)
Fixpoint Array_from {A : Type} (n : nat) (f : M S A) : M S (list A) :=
  match n with
  | O => mret []
  | Datatypes.S n' => x ← f; xs ← Array_from n' f; mret (x :: xs)
  end.

End Statements.

End Stmt.

(** ** [src/app.js] *)

Module App.

(** One child of [#layerControl] together with the variables its
    listener closes over: the [layers] argument of the
    [updateLayerControl] call that built it, and [activeLayer], the stamp
    of the tile layer it has put on the map. *)
Record Toggle : Type := mkToggle {
  key : LayerKey;
  label : string;
  color : string;
  checked : bool;
  activeLayer : option nat;
  closure_layers : gmap string string
}.

(** A request to [/api/analyze] in flight: its JSON body and the abort
    signal it was given, if any. *)
Record Request : Type := mkRequest {
  body_lat : Js.number;
  body_lng : Js.number;
  signal : option nat
}.

(** The callbacks handed to [setTimeout] (the delay is not modelled):
    the one that hides the overlay, and the simulated click of
    [triggerAI]. *)
Inductive Timer : Type := HideOverlay | SimulatedClick.

Record State : Type := mkState {
  mode : Mode;  (* [state.mode] *)
  currentLat : Js.number;  (* [state.currentLat] *)
  currentLng : Js.number;  (* [state.currentLng] *)
  currentArea : Js.number;  (* [state.currentArea] *)
  currentVol : Js.number;  (* [state.currentVol] *)
  isScanning : bool;  (* [state.isScanning] *)
  layers : option (gmap string string);  (* [state.layers]; [None] for [undefined] and [null] *)
  layerGroup : gmap nat Leaflet.Marker;  (* [state.layerGroup]: the selection marker *)
  drawnItems : gmap nat Leaflet.Shape;  (* [state.drawnItems] *)
  charts_trend : list (option Js.number);  (* [state.charts.trend.data.datasets[0].data] *)
  charts_seasonal : list Js.number;  (* [state.charts.seasonal.data.datasets[0].data] *)
  scanController : option nat;  (* [let scanController]: a reference to an AbortController *)
  overlayLayerGroup : option (gmap nat Leaflet.TileLayer);  (* [let overlayLayerGroup]: the group that is on the map *)
  drawControl_on_map : bool;  (* whether [state.drawControl] is added to the map *)
  scanning_overlay : Dom.Display;  (* [#scanning-overlay]: [style.display] *)
  scan_status : string;  (* [#scan-status]: [innerText] *)
  scan_status_red : bool;  (* [#scan-status]: has class [text-red-500] *)
  dispLat : option Js.Text;  (* [#dispLat]: [innerText], once set *)
  dispLon : option Js.Text;  (* [#dispLon] *)
  metrics : option Dom.Metrics;  (* the metric elements, [None] before the first result *)
  toast : list (Dom.ToastType * string);  (* every [showToast] so far, oldest first *)
  layerControl : list Toggle;  (* [#layerControl]: its children *)
  layerControlPanel_hidden : bool;  (* [#layerControlPanel]: has class [hidden] *)
  lastId : nat;  (* Leaflet's stamp counter *)
  aborted : gmap nat bool;  (* the AbortController objects: [signal.aborted] *)
  fetches : gmap nat Request;  (* the requests that have not settled *)
  nextFetch : nat;  (* name of the next request *)
  timers : list Timer;  (* the [setTimeout] callbacks that have not run *)
  random : nat -> Js.number;  (* the values [Math.random] returns, by call number *)
  randomCalls : nat  (* calls of [Math.random] so far *)
}.

(** One setter per field: [set_f v s] is [s] after the assignment [f = v]. *)
Definition set_mode (v : Mode) (s : State) : State :=
  mkState v (currentLat s) (currentLng s) (currentArea s) (currentVol s)
    (isScanning s) (layers s) (layerGroup s) (drawnItems s)
    (charts_trend s) (charts_seasonal s) (scanController s)
    (overlayLayerGroup s) (drawControl_on_map s) (scanning_overlay s)
    (scan_status s) (scan_status_red s) (dispLat s) (dispLon s) (metrics
    s) (toast s) (layerControl s) (layerControlPanel_hidden s) (lastId
    s) (aborted s) (fetches s) (nextFetch s) (timers s) (random s)
    (randomCalls s).
Definition set_currentLat (v : Js.number) (s : State) : State :=
  mkState (mode s) v (currentLng s) (currentArea s) (currentVol s)
    (isScanning s) (layers s) (layerGroup s) (drawnItems s)
    (charts_trend s) (charts_seasonal s) (scanController s)
    (overlayLayerGroup s) (drawControl_on_map s) (scanning_overlay s)
    (scan_status s) (scan_status_red s) (dispLat s) (dispLon s) (metrics
    s) (toast s) (layerControl s) (layerControlPanel_hidden s) (lastId
    s) (aborted s) (fetches s) (nextFetch s) (timers s) (random s)
    (randomCalls s).
Definition set_currentLng (v : Js.number) (s : State) : State :=
  mkState (mode s) (currentLat s) v (currentArea s) (currentVol s)
    (isScanning s) (layers s) (layerGroup s) (drawnItems s)
    (charts_trend s) (charts_seasonal s) (scanController s)
    (overlayLayerGroup s) (drawControl_on_map s) (scanning_overlay s)
    (scan_status s) (scan_status_red s) (dispLat s) (dispLon s) (metrics
    s) (toast s) (layerControl s) (layerControlPanel_hidden s) (lastId
    s) (aborted s) (fetches s) (nextFetch s) (timers s) (random s)
    (randomCalls s).
Definition set_currentArea (v : Js.number) (s : State) : State :=
  mkState (mode s) (currentLat s) (currentLng s) v (currentVol s)
    (isScanning s) (layers s) (layerGroup s) (drawnItems s)
    (charts_trend s) (charts_seasonal s) (scanController s)
    (overlayLayerGroup s) (drawControl_on_map s) (scanning_overlay s)
    (scan_status s) (scan_status_red s) (dispLat s) (dispLon s) (metrics
    s) (toast s) (layerControl s) (layerControlPanel_hidden s) (lastId
    s) (aborted s) (fetches s) (nextFetch s) (timers s) (random s)
    (randomCalls s).
Definition set_currentVol (v : Js.number) (s : State) : State :=
  mkState (mode s) (currentLat s) (currentLng s) (currentArea s) v
    (isScanning s) (layers s) (layerGroup s) (drawnItems s)
    (charts_trend s) (charts_seasonal s) (scanController s)
    (overlayLayerGroup s) (drawControl_on_map s) (scanning_overlay s)
    (scan_status s) (scan_status_red s) (dispLat s) (dispLon s) (metrics
    s) (toast s) (layerControl s) (layerControlPanel_hidden s) (lastId
    s) (aborted s) (fetches s) (nextFetch s) (timers s) (random s)
    (randomCalls s).
Definition set_isScanning (v : bool) (s : State) : State :=
  mkState (mode s) (currentLat s) (currentLng s) (currentArea s)
    (currentVol s) v (layers s) (layerGroup s) (drawnItems s)
    (charts_trend s) (charts_seasonal s) (scanController s)
    (overlayLayerGroup s) (drawControl_on_map s) (scanning_overlay s)
    (scan_status s) (scan_status_red s) (dispLat s) (dispLon s) (metrics
    s) (toast s) (layerControl s) (layerControlPanel_hidden s) (lastId
    s) (aborted s) (fetches s) (nextFetch s) (timers s) (random s)
    (randomCalls s).
Definition set_layers (v : option (gmap string string)) (s : State) : State :=
  mkState (mode s) (currentLat s) (currentLng s) (currentArea s)
    (currentVol s) (isScanning s) v (layerGroup s) (drawnItems s)
    (charts_trend s) (charts_seasonal s) (scanController s)
    (overlayLayerGroup s) (drawControl_on_map s) (scanning_overlay s)
    (scan_status s) (scan_status_red s) (dispLat s) (dispLon s) (metrics
    s) (toast s) (layerControl s) (layerControlPanel_hidden s) (lastId
    s) (aborted s) (fetches s) (nextFetch s) (timers s) (random s)
    (randomCalls s).
Definition set_layerGroup (v : gmap nat Leaflet.Marker) (s : State) : State :=
  mkState (mode s) (currentLat s) (currentLng s) (currentArea s)
    (currentVol s) (isScanning s) (layers s) v (drawnItems s)
    (charts_trend s) (charts_seasonal s) (scanController s)
    (overlayLayerGroup s) (drawControl_on_map s) (scanning_overlay s)
    (scan_status s) (scan_status_red s) (dispLat s) (dispLon s) (metrics
    s) (toast s) (layerControl s) (layerControlPanel_hidden s) (lastId
    s) (aborted s) (fetches s) (nextFetch s) (timers s) (random s)
    (randomCalls s).
Definition set_drawnItems (v : gmap nat Leaflet.Shape) (s : State) : State :=
  mkState (mode s) (currentLat s) (currentLng s) (currentArea s)
    (currentVol s) (isScanning s) (layers s) (layerGroup s) v
    (charts_trend s) (charts_seasonal s) (scanController s)
    (overlayLayerGroup s) (drawControl_on_map s) (scanning_overlay s)
    (scan_status s) (scan_status_red s) (dispLat s) (dispLon s) (metrics
    s) (toast s) (layerControl s) (layerControlPanel_hidden s) (lastId
    s) (aborted s) (fetches s) (nextFetch s) (timers s) (random s)
    (randomCalls s).
Definition set_charts_trend (v : list (option Js.number)) (s : State) : State :=
  mkState (mode s) (currentLat s) (currentLng s) (currentArea s)
    (currentVol s) (isScanning s) (layers s) (layerGroup s) (drawnItems
    s) v (charts_seasonal s) (scanController s) (overlayLayerGroup s)
    (drawControl_on_map s) (scanning_overlay s) (scan_status s)
    (scan_status_red s) (dispLat s) (dispLon s) (metrics s) (toast s)
    (layerControl s) (layerControlPanel_hidden s) (lastId s) (aborted s)
    (fetches s) (nextFetch s) (timers s) (random s) (randomCalls s).
Definition set_charts_seasonal (v : list Js.number) (s : State) : State :=
  mkState (mode s) (currentLat s) (currentLng s) (currentArea s)
    (currentVol s) (isScanning s) (layers s) (layerGroup s) (drawnItems
    s) (charts_trend s) v (scanController s) (overlayLayerGroup s)
    (drawControl_on_map s) (scanning_overlay s) (scan_status s)
    (scan_status_red s) (dispLat s) (dispLon s) (metrics s) (toast s)
    (layerControl s) (layerControlPanel_hidden s) (lastId s) (aborted s)
    (fetches s) (nextFetch s) (timers s) (random s) (randomCalls s).
Definition set_scanController (v : option nat) (s : State) : State :=
  mkState (mode s) (currentLat s) (currentLng s) (currentArea s)
    (currentVol s) (isScanning s) (layers s) (layerGroup s) (drawnItems
    s) (charts_trend s) (charts_seasonal s) v (overlayLayerGroup s)
    (drawControl_on_map s) (scanning_overlay s) (scan_status s)
    (scan_status_red s) (dispLat s) (dispLon s) (metrics s) (toast s)
    (layerControl s) (layerControlPanel_hidden s) (lastId s) (aborted s)
    (fetches s) (nextFetch s) (timers s) (random s) (randomCalls s).
Definition set_overlayLayerGroup (v : option (gmap nat Leaflet.TileLayer)) (s : State) : State :=
  mkState (mode s) (currentLat s) (currentLng s) (currentArea s)
    (currentVol s) (isScanning s) (layers s) (layerGroup s) (drawnItems
    s) (charts_trend s) (charts_seasonal s) (scanController s) v
    (drawControl_on_map s) (scanning_overlay s) (scan_status s)
    (scan_status_red s) (dispLat s) (dispLon s) (metrics s) (toast s)
    (layerControl s) (layerControlPanel_hidden s) (lastId s) (aborted s)
    (fetches s) (nextFetch s) (timers s) (random s) (randomCalls s).
Definition set_drawControl_on_map (v : bool) (s : State) : State :=
  mkState (mode s) (currentLat s) (currentLng s) (currentArea s)
    (currentVol s) (isScanning s) (layers s) (layerGroup s) (drawnItems
    s) (charts_trend s) (charts_seasonal s) (scanController s)
    (overlayLayerGroup s) v (scanning_overlay s) (scan_status s)
    (scan_status_red s) (dispLat s) (dispLon s) (metrics s) (toast s)
    (layerControl s) (layerControlPanel_hidden s) (lastId s) (aborted s)
    (fetches s) (nextFetch s) (timers s) (random s) (randomCalls s).
Definition set_scanning_overlay (v : Dom.Display) (s : State) : State :=
  mkState (mode s) (currentLat s) (currentLng s) (currentArea s)
    (currentVol s) (isScanning s) (layers s) (layerGroup s) (drawnItems
    s) (charts_trend s) (charts_seasonal s) (scanController s)
    (overlayLayerGroup s) (drawControl_on_map s) v (scan_status s)
    (scan_status_red s) (dispLat s) (dispLon s) (metrics s) (toast s)
    (layerControl s) (layerControlPanel_hidden s) (lastId s) (aborted s)
    (fetches s) (nextFetch s) (timers s) (random s) (randomCalls s).
Definition set_scan_status (v : string) (s : State) : State :=
  mkState (mode s) (currentLat s) (currentLng s) (currentArea s)
    (currentVol s) (isScanning s) (layers s) (layerGroup s) (drawnItems
    s) (charts_trend s) (charts_seasonal s) (scanController s)
    (overlayLayerGroup s) (drawControl_on_map s) (scanning_overlay s) v
    (scan_status_red s) (dispLat s) (dispLon s) (metrics s) (toast s)
    (layerControl s) (layerControlPanel_hidden s) (lastId s) (aborted s)
    (fetches s) (nextFetch s) (timers s) (random s) (randomCalls s).
Definition set_scan_status_red (v : bool) (s : State) : State :=
  mkState (mode s) (currentLat s) (currentLng s) (currentArea s)
    (currentVol s) (isScanning s) (layers s) (layerGroup s) (drawnItems
    s) (charts_trend s) (charts_seasonal s) (scanController s)
    (overlayLayerGroup s) (drawControl_on_map s) (scanning_overlay s)
    (scan_status s) v (dispLat s) (dispLon s) (metrics s) (toast s)
    (layerControl s) (layerControlPanel_hidden s) (lastId s) (aborted s)
    (fetches s) (nextFetch s) (timers s) (random s) (randomCalls s).
Definition set_dispLat (v : option Js.Text) (s : State) : State :=
  mkState (mode s) (currentLat s) (currentLng s) (currentArea s)
    (currentVol s) (isScanning s) (layers s) (layerGroup s) (drawnItems
    s) (charts_trend s) (charts_seasonal s) (scanController s)
    (overlayLayerGroup s) (drawControl_on_map s) (scanning_overlay s)
    (scan_status s) (scan_status_red s) v (dispLon s) (metrics s) (toast
    s) (layerControl s) (layerControlPanel_hidden s) (lastId s) (aborted
    s) (fetches s) (nextFetch s) (timers s) (random s) (randomCalls s).
Definition set_dispLon (v : option Js.Text) (s : State) : State :=
  mkState (mode s) (currentLat s) (currentLng s) (currentArea s)
    (currentVol s) (isScanning s) (layers s) (layerGroup s) (drawnItems
    s) (charts_trend s) (charts_seasonal s) (scanController s)
    (overlayLayerGroup s) (drawControl_on_map s) (scanning_overlay s)
    (scan_status s) (scan_status_red s) (dispLat s) v (metrics s) (toast
    s) (layerControl s) (layerControlPanel_hidden s) (lastId s) (aborted
    s) (fetches s) (nextFetch s) (timers s) (random s) (randomCalls s).
Definition set_metrics (v : option Dom.Metrics) (s : State) : State :=
  mkState (mode s) (currentLat s) (currentLng s) (currentArea s)
    (currentVol s) (isScanning s) (layers s) (layerGroup s) (drawnItems
    s) (charts_trend s) (charts_seasonal s) (scanController s)
    (overlayLayerGroup s) (drawControl_on_map s) (scanning_overlay s)
    (scan_status s) (scan_status_red s) (dispLat s) (dispLon s) v (toast
    s) (layerControl s) (layerControlPanel_hidden s) (lastId s) (aborted
    s) (fetches s) (nextFetch s) (timers s) (random s) (randomCalls s).
Definition set_toast (v : list (Dom.ToastType * string)) (s : State) : State :=
  mkState (mode s) (currentLat s) (currentLng s) (currentArea s)
    (currentVol s) (isScanning s) (layers s) (layerGroup s) (drawnItems
    s) (charts_trend s) (charts_seasonal s) (scanController s)
    (overlayLayerGroup s) (drawControl_on_map s) (scanning_overlay s)
    (scan_status s) (scan_status_red s) (dispLat s) (dispLon s) (metrics
    s) v (layerControl s) (layerControlPanel_hidden s) (lastId s)
    (aborted s) (fetches s) (nextFetch s) (timers s) (random s)
    (randomCalls s).
Definition set_layerControl (v : list Toggle) (s : State) : State :=
  mkState (mode s) (currentLat s) (currentLng s) (currentArea s)
    (currentVol s) (isScanning s) (layers s) (layerGroup s) (drawnItems
    s) (charts_trend s) (charts_seasonal s) (scanController s)
    (overlayLayerGroup s) (drawControl_on_map s) (scanning_overlay s)
    (scan_status s) (scan_status_red s) (dispLat s) (dispLon s) (metrics
    s) (toast s) v (layerControlPanel_hidden s) (lastId s) (aborted s)
    (fetches s) (nextFetch s) (timers s) (random s) (randomCalls s).
Definition set_layerControlPanel_hidden (v : bool) (s : State) : State :=
  mkState (mode s) (currentLat s) (currentLng s) (currentArea s)
    (currentVol s) (isScanning s) (layers s) (layerGroup s) (drawnItems
    s) (charts_trend s) (charts_seasonal s) (scanController s)
    (overlayLayerGroup s) (drawControl_on_map s) (scanning_overlay s)
    (scan_status s) (scan_status_red s) (dispLat s) (dispLon s) (metrics
    s) (toast s) (layerControl s) v (lastId s) (aborted s) (fetches s)
    (nextFetch s) (timers s) (random s) (randomCalls s).
Definition set_lastId (v : nat) (s : State) : State :=
  mkState (mode s) (currentLat s) (currentLng s) (currentArea s)
    (currentVol s) (isScanning s) (layers s) (layerGroup s) (drawnItems
    s) (charts_trend s) (charts_seasonal s) (scanController s)
    (overlayLayerGroup s) (drawControl_on_map s) (scanning_overlay s)
    (scan_status s) (scan_status_red s) (dispLat s) (dispLon s) (metrics
    s) (toast s) (layerControl s) (layerControlPanel_hidden s) v
    (aborted s) (fetches s) (nextFetch s) (timers s) (random s)
    (randomCalls s).
Definition set_aborted (v : gmap nat bool) (s : State) : State :=
  mkState (mode s) (currentLat s) (currentLng s) (currentArea s)
    (currentVol s) (isScanning s) (layers s) (layerGroup s) (drawnItems
    s) (charts_trend s) (charts_seasonal s) (scanController s)
    (overlayLayerGroup s) (drawControl_on_map s) (scanning_overlay s)
    (scan_status s) (scan_status_red s) (dispLat s) (dispLon s) (metrics
    s) (toast s) (layerControl s) (layerControlPanel_hidden s) (lastId
    s) v (fetches s) (nextFetch s) (timers s) (random s) (randomCalls s).
Definition set_fetches (v : gmap nat Request) (s : State) : State :=
  mkState (mode s) (currentLat s) (currentLng s) (currentArea s)
    (currentVol s) (isScanning s) (layers s) (layerGroup s) (drawnItems
    s) (charts_trend s) (charts_seasonal s) (scanController s)
    (overlayLayerGroup s) (drawControl_on_map s) (scanning_overlay s)
    (scan_status s) (scan_status_red s) (dispLat s) (dispLon s) (metrics
    s) (toast s) (layerControl s) (layerControlPanel_hidden s) (lastId
    s) (aborted s) v (nextFetch s) (timers s) (random s) (randomCalls s).
Definition set_nextFetch (v : nat) (s : State) : State :=
  mkState (mode s) (currentLat s) (currentLng s) (currentArea s)
    (currentVol s) (isScanning s) (layers s) (layerGroup s) (drawnItems
    s) (charts_trend s) (charts_seasonal s) (scanController s)
    (overlayLayerGroup s) (drawControl_on_map s) (scanning_overlay s)
    (scan_status s) (scan_status_red s) (dispLat s) (dispLon s) (metrics
    s) (toast s) (layerControl s) (layerControlPanel_hidden s) (lastId
    s) (aborted s) (fetches s) v (timers s) (random s) (randomCalls s).
Definition set_timers (v : list Timer) (s : State) : State :=
  mkState (mode s) (currentLat s) (currentLng s) (currentArea s)
    (currentVol s) (isScanning s) (layers s) (layerGroup s) (drawnItems
    s) (charts_trend s) (charts_seasonal s) (scanController s)
    (overlayLayerGroup s) (drawControl_on_map s) (scanning_overlay s)
    (scan_status s) (scan_status_red s) (dispLat s) (dispLon s) (metrics
    s) (toast s) (layerControl s) (layerControlPanel_hidden s) (lastId
    s) (aborted s) (fetches s) (nextFetch s) v (random s) (randomCalls
    s).
Definition set_random (v : nat -> Js.number) (s : State) : State :=
  mkState (mode s) (currentLat s) (currentLng s) (currentArea s)
    (currentVol s) (isScanning s) (layers s) (layerGroup s) (drawnItems
    s) (charts_trend s) (charts_seasonal s) (scanController s)
    (overlayLayerGroup s) (drawControl_on_map s) (scanning_overlay s)
    (scan_status s) (scan_status_red s) (dispLat s) (dispLon s) (metrics
    s) (toast s) (layerControl s) (layerControlPanel_hidden s) (lastId
    s) (aborted s) (fetches s) (nextFetch s) (timers s) v (randomCalls
    s).
Definition set_randomCalls (v : nat) (s : State) : State :=
  mkState (mode s) (currentLat s) (currentLng s) (currentArea s)
    (currentVol s) (isScanning s) (layers s) (layerGroup s) (drawnItems
    s) (charts_trend s) (charts_seasonal s) (scanController s)
    (overlayLayerGroup s) (drawControl_on_map s) (scanning_overlay s)
    (scan_status s) (scan_status_red s) (dispLat s) (dispLon s) (metrics
    s) (toast s) (layerControl s) (layerControlPanel_hidden s) (lastId
    s) (aborted s) (fetches s) (nextFetch s) (timers s) (random s) v.

Import Stmt.

(** The statements of this script. *)
Abbreviation M := (Stmt.M State).


(** *** Helpers *)

Definition showToast (msg : string) (type : Dom.ToastType) : M unit :=
  modify (λ s, set_toast (toast s ++ [(type, msg)]) s).

Definition setTimeout (callback : Timer) : M unit :=
  modify (λ s, set_timers (timers s ++ [callback]) s).

(** [L.stamp] on an object that has no stamp yet: [++lastId]. *)
Definition stamp : M nat :=
  λ s, (Normal (S (lastId s)), set_lastId (S (lastId s)) s).

Definition Math_random : M Js.number :=
  λ s, (Normal (random s (randomCalls s)),
        set_randomCalls (S (randomCalls s)) s).

(** [fetch(url, { ..., signal })]: the request leaves with the current
    coordinates as its body; the caller is suspended until it settles. *)
Definition fetch (sig : option nat) : M unit :=
  modify (λ s,
    set_nextFetch (S (nextFetch s))
      (set_fetches
         (<[nextFetch s := mkRequest (currentLat s) (currentLng s) sig]>
            (fetches s)) s)).

(** [controller.abort()]. *)
Definition abort (c : nat) : M unit :=
  modify (λ s, set_aborted (<[c := true]> (aborted s)) s).

(** [new AbortController()]. *)
Definition new_AbortController : M nat :=
  λ s, let c := fresh (dom (aborted s)) in
       (Normal c, set_aborted (<[c := false]> (aborted s)) s).

(** *** Interaction logic *)

Definition setMode (m : Mode) : M unit :=
  modify (set_mode m);;
  match m with
  | draw =>
      modify (set_drawControl_on_map true);;
      showToast "Draw Mode: Create a polygon to analyze the area." Dom.info
  | click =>
      modify (set_drawControl_on_map false);;
      showToast "Click Mode: Click anywhere to analyze." Dom.info
  end.

(** [onMapClick], with the function that the name [startScanning] is
    bound to as a parameter. *)
Definition onMapClick_calling (startScanning : M unit) (e : Leaflet.ClickEvent)
  : M unit :=
  scanning ← gets isScanning;
  if (scanning : bool) then skip else
  m ← gets mode;
  if bool_decide ((m : Mode) = draw) && negb (Leaflet.isDraw e) then skip else
  modify (set_currentLat (Leaflet.latlng_lat e));;
  modify (set_currentLng (Leaflet.latlng_lng e));;
  modify (λ s, set_dispLat (Some (Js.toFixed 5 (currentLat s))) s);;
  modify (λ s, set_dispLon (Some (Js.toFixed 5 (currentLng s))) s);;
  modify (λ s, set_layerGroup (Leaflet.clearLayers (layerGroup s)) s);;
  id ← stamp;
  modify (λ s, set_layerGroup
    (Leaflet.addLayer id (Leaflet.mkMarker (currentLat s) (currentLng s))
       (layerGroup s)) s);;
  startScanning.

(** *** Result application *)

Definition capacity (data : Api.AnalysisData) : Js.number :=
  if Js.opt_gt0 (Api.max_volume data)
  then default Js.NaN (Api.max_volume data)
  else Js.mul (Api.volume data) (Js.lit 1.5).

Definition fillPct (data : Api.AnalysisData) : Js.number :=
  if Js.gtb (capacity data) Js.zero
  then Js.Math_min (Js.lit 100)
         (Js.Math_round
            (Js.mul (Js.div (Api.volume data) (capacity data))
               (Js.lit 100)))
  else Js.zero.

Definition fillBar_className (fillPct : Js.number) : Dom.FillStyle :=
  if Js.ltb fillPct (Js.lit 30) then Dom.bg_red_500
  else if Js.gtb fillPct (Js.lit 80) then Dom.bg_blue_500
  else Dom.bg_cyan_500.

Definition updateMetrics (data : Api.AnalysisData) : M unit :=
  modify (set_metrics (Some
    (Dom.mkMetrics (Api.area data) (Api.volume data)
       (fillPct data) (fillBar_className (fillPct data))
       (Api.avg_elevation data)))).

Definition updateCharts (vol : Js.number) (seasonal : option Api.Seasonal)
  : M unit :=
  let base := Js.parseFloat vol in
  data ← Array_from 12
    (r ← Math_random;
     mret (Js.mul base (Js.add (Js.lit 0.8) (Js.mul r (Js.lit 0.4)))));
  modify (set_charts_trend (Some <$> data));;
  match seasonal with
  | Some se =>
      modify (set_charts_seasonal
        [Api.summer se; Api.monsoon se; Api.winter se])
  | None => skip
  end.

(** [overlayLayerGroup.m(...)]: a [TypeError] when the variable is null. *)
Definition on_overlayLayerGroup
    (m : gmap nat Leaflet.TileLayer -> gmap nat Leaflet.TileLayer) : M unit :=
  λ s, match overlayLayerGroup s with
       | Some g => (Normal tt, set_overlayLayerGroup (Some (m g)) s)
       | None => (Throw (TypeError "overlayLayerGroup is null"), s)
       end.

(** [layer.addTo(overlayLayerGroup)] for a layer just built: the group
    stamps it and files it under the stamp, which is returned as the
    reference to the layer. *)
Definition addTo_overlayLayerGroup (layer : Leaflet.TileLayer) : M nat :=
  λ s, match overlayLayerGroup s with
       | Some g =>
           let new := S (lastId s) in
           (Normal new,
            set_overlayLayerGroup (Some (Leaflet.addLayer new layer g))
              (set_lastId new s))
       | None => (Throw (TypeError "overlayLayerGroup is null"), s)
       end.

(** The closure [toggleLayer] of one [createToggle] call; [activeLayer]
    is passed in and the new value is returned. *)
Definition toggleLayer (layers : gmap string string) (key : LayerKey)
    (activeLayer : option nat) (isChecked : bool) : M (option nat) :=
  if isChecked then
    match activeLayer with
    | Some old => on_overlayLayerGroup (Leaflet.removeLayer old)
    | None => skip
    end;;
    let zIndex := if bool_decide (key = analytics) then 10 else 5 in
    new ← addTo_overlayLayerGroup
            (Leaflet.mkTileLayer (default "" (layers !! key_name key))
               (Js.lit 0.9) (Some zIndex) key);
    mret (Some new)
  else
    match activeLayer with
    | Some old =>
        on_overlayLayerGroup (Leaflet.removeLayer old);;
        mret None
    | None => mret None
    end.

(** [layers[key]] throws when [layers] is [undefined] or [null]; past
    the guard [layers] is an object, which the closure keeps. *)
Definition createToggle (layers : option (gmap string string))
    (key : LayerKey) (label color : string) (isDefault : bool) : M unit :=
  match layers with
  | None =>
      throw (TypeError ("Cannot read properties of undefined (reading '"
                        +:+ key_name key +:+ "')"))
  | Some layers =>
      if negb (Js.truthy_str (layers !! key_name key)) then skip else
      active ← (if isDefault then toggleLayer layers key None true
                else mret None);
      modify (λ s, set_layerControl
        (layerControl s
           ++ [mkToggle key label color isDefault active layers]) s)
  end.

Definition updateLayerControl (layers : option (gmap string string))
  : M unit :=
  modify (set_overlayLayerGroup (Some ∅));;
  modify (set_layerControl []);;
  createToggle layers analytics "Depth Contours" "#ffffff" true;;
  createToggle layers depth "Bathymetry" "#0077b6" true;;
  createToggle layers water_mask "Water Extent" "#00FFFF" false;;
  createToggle layers winter "Winter Spread" "#0891b2" false;;
  createToggle layers summer "Summer Spread" "#fb923c" false;;
  createToggle layers monsoon "Monsoon Spread" "#16a34a" false;;
  modify (set_layerControlPanel_hidden false).

(** The [change] listener of the checkbox [#chk-key]; nothing listens
    when the control has no such child. *)
Definition onChange (k : LayerKey) (isChecked : bool) : M unit :=
  controls ← gets layerControl;
  match list_find (λ t, key t = k) (controls : list Toggle) with
  | Some (i, t) =>
      active ← toggleLayer (closure_layers t) (key t) (activeLayer t)
                 isChecked;
      modify (λ s, set_layerControl
        (<[i := mkToggle (key t) (label t) (color t) isChecked active
                  (closure_layers t)]> (layerControl s)) s)
  | None => skip
  end.

(** *** The scan

    The script declares [startScanning] twice at the top level.  Function
    declarations are hoisted and the later one replaces the earlier, so
    every call of [startScanning] runs the second declaration; the first
    is kept here under the name [startScanning_1].  Each is split at its
    [await]: the part that issues the request, and the rest, which runs
    when the request settles.  The two [await]s of the [try] block are
    taken together, since nothing is read or written between them. *)

(** What the [await]ed [fetch] yields for a request with signal [sig]:
    a rejection with an [AbortError] when the signal has been aborted,
    otherwise what the network delivers. *)
Definition settled (sig : option nat) (o : Api.Outcome) (s : State)
  : Api.Outcome + JsError :=
  match sig with
  | Some c => if default false (aborted s !! c) then inr AbortError else inl o
  | None => inl o
  end.

(** [const response = await fetch(...); if (!response.ok) throw ...;
    const data = await response.json(); if (data.error) throw ...]. *)
Definition await_data (not_ok : string -> JsError)
    (r : Api.Outcome + JsError) : M Api.AnalysisData :=
  match r with
  | inr e => throw e
  | inl (Api.NetworkError msg) => throw (TypeError msg)
  | inl (Api.Response ok statusText body) =>
      if negb ok then throw (not_ok statusText) else
      match body with
      | Api.BadJson msg => throw (SyntaxError msg)
      | Api.Json data =>
          if Js.truthy_str (Api.error data)
          then throw (Error (default "" (Api.error data)))
          else mret data
      end
  end.

(** [startScanning], second declaration (lines 353-399): up to the
    [await]. *)
Definition startScanning : M unit :=
  modify (set_isScanning true);;
  modify (set_scanning_overlay Dom.flex);;
  modify (set_scan_status "Analyzing Satellite Data...");;
  fetch None.

(** The callback of the [setTimeout] in [startScanning]. *)
Definition hideOverlay : M unit :=
  modify (set_scanning_overlay Dom.none);;
  modify (set_isScanning false).

Definition apply_result (data : Api.AnalysisData) : M unit :=
  modify (set_currentArea (Api.area data));;
  modify (set_currentVol (Api.volume data));;
  modify (set_layers (Api.layers data));;
  updateMetrics data;;
  updateCharts (Api.volume data) (Api.seasonal data);;
  updateLayerControl (Api.layers data).

Definition report_failure (err : JsError) : M unit :=
  let errMsg :=
    if String.eqb (message err) "" then "Unknown Error" else message err in
  showToast ("Analysis Failed: " +:+ errMsg) Dom.error;;
  modify (set_scan_status "Error.");;
  modify (set_scan_status_red true).

(** [startScanning], second declaration: from the [await] on. *)
Definition startScanning_rest (r : Api.Outcome + JsError) : M unit :=
  try_catch_finally
    (data ← await_data (λ _, Error "Analysis Service Failed") r;
     apply_result data;;
     modify (set_scan_status "Complete.");;
     showToast "Analysis Complete." Dom.success)
    report_failure
    (setTimeout HideOverlay).

(** [startScanning], first declaration (lines 165-234), which no call
    reaches: up to the [await]. *)
Definition startScanning_1 : M unit :=
  modify (set_isScanning true);;
  modify (set_scanning_overlay Dom.flex);;
  modify (set_scan_status "Analyzing Satellite Data...");;
  modify (set_scan_status_red false);;
  old ← gets scanController;
  match old : option nat with
  | Some c => abort c
  | None => skip
  end;;
  c ← new_AbortController;
  modify (set_scanController (Some c));;
  fetch (Some c).

(** [startScanning], first declaration: from the [await] on.  Its
    [finally] block holds only comments. *)
Definition startScanning_1_rest (r : Api.Outcome + JsError) : M unit :=
  try_catch_finally
    (data ← await_data (λ _, Error "Analysis Service Failed") r;
     apply_result data;;
     modify (set_scan_status "Complete.");;
     showToast "Analysis Complete." Dom.success;;
     setTimeout HideOverlay)
    (λ err,
       if String.eqb (name err) "AbortError"
       then showToast "Analysis Cancelled" Dom.info
       else report_failure err)
    skip.

Definition cancelScanning : M unit :=
  ctl ← gets scanController;
  match ctl : option nat with
  | Some c => abort c;; modify (set_scanController None)
  | None => skip
  end;;
  modify (set_scanning_overlay Dom.none);;
  modify (set_isScanning false);;
  modify (λ s, set_layerGroup (Leaflet.clearLayers (layerGroup s)) s);;
  showToast "Cancelled." Dom.info.

(** [triggerAI]: the map flies to the current point, then a click a
    little to the north-east of it is simulated. *)
Definition triggerAI : M unit := setTimeout SimulatedClick.

(** [x || 12.4244] and [x || 76.5761]. *)
Definition or_default (x d : Js.number) : Js.number :=
  if Js.truthy x then x else d.

(** *** The event loop *)

(** Which declaration the name [startScanning] is bound to. *)
Inductive Binding : Type := first_declaration | last_declaration.

Definition startScanning_of (b : Binding) : M unit :=
  match b with
  | first_declaration => startScanning_1
  | last_declaration => startScanning
  end.

Definition startScanning_rest_of (b : Binding)
  : Api.Outcome + JsError -> M unit :=
  match b with
  | first_declaration => startScanning_1_rest
  | last_declaration => startScanning_rest
  end.

Inductive Event : Type :=
| MapClick (lat lng : Js.number)          (* [click] on the map *)
| DrawCreated (layer : Leaflet.Shape)             (* [L.Draw.Event.CREATED] *)
| ModeButton (m : Mode)                   (* a [.mode-btn] *)
| CancelButton                            (* the cancel button *)
| AiButton                                (* the button of [triggerAI] *)
| Change (k : LayerKey) (isChecked : bool)  (* [change] on [#chk-k] *)
| Settle (request : nat) (o : Api.Outcome)  (* a request settles *)
| Timeout (i : nat).                      (* the [i]-th timer is due *)

Definition handle (b : Binding) (ev : Event) : M unit :=
  let onMapClick := onMapClick_calling (startScanning_of b) in
  match ev with
  | MapClick lat lng => onMapClick (Leaflet.mkClick lat lng false)
  | DrawCreated layer =>
      modify (λ s, set_drawnItems (Leaflet.clearLayers (drawnItems s)) s);;
      id ← stamp;
      modify (λ s, set_drawnItems
        (Leaflet.addLayer id layer (drawnItems s)) s);;
      onMapClick (Leaflet.mkClick (Leaflet.center_lat layer) (Leaflet.center_lng layer) true)
  | ModeButton m => setMode m
  | CancelButton => cancelScanning
  | AiButton => triggerAI
  | Change k isChecked => onChange k isChecked
  | Settle request o =>
      pending ← gets fetches;
      match (pending : gmap nat Request) !! request with
      | Some rq =>
          modify (λ s, set_fetches (delete request (fetches s)) s);;
          r ← gets (settled (signal rq) o);
          startScanning_rest_of b r
      | None => skip
      end
  | Timeout i =>
      due ← gets timers;
      match (due : list Timer) !! i with
      | Some HideOverlay =>
          modify (λ s, set_timers (delete i (timers s)) s);;
          hideOverlay
      | Some SimulatedClick =>
          modify (λ s, set_timers (delete i (timers s)) s);;
          lat ← gets currentLat;
          lng ← gets currentLng;
          onMapClick
            (Leaflet.mkClick
               (Js.add (or_default lat (Js.lit 12.4244)) (Js.lit 0.005))
               (Js.add (or_default lng (Js.lit 76.5761)) (Js.lit 0.005))
               false)
      | None => skip
      end
  end.

(** An event runs its handler to completion; an exception that escapes
    the handler is reported on the console and changes nothing more. *)
Definition step (b : Binding) (s : State) (ev : Event) : State :=
  (handle b ev s).2.

Definition run (b : Binding) (s : State) (evs : list Event) : State :=
  foldl (step b) s evs.

(** The page once [DOMContentLoaded] has run [initMap], [initCharts],
    [setupDropzones] and [setMode('click')].  The overlay and the layer
    panel start hidden and the status text empty. *)
Definition loaded (rnd : nat -> Js.number) : State :=
  mkState click Js.zero Js.zero Js.zero Js.zero false (Some ∅) ∅ ∅
    (replicate 12 None) [Js.zero; Js.zero; Js.zero]
    None None false Dom.none "" false None None None
    [(Dom.info, "Click Mode: Click anywhere to analyze.")] [] true
    0%nat ∅ ∅ 0%nat [] rnd 0%nat.

End App.

(** ** [src/frontend_export/script.js]

    The exported page: no charts, no abort controller ([let scanController]
    is declared and never used), and the overlays share [state.layerGroup]
    with the selection marker.  [state.layers] is never assigned and is
    left out. *)

Module FrontendExport.

Import Stmt.

(** What [state.layerGroup] holds. *)
Inductive MapLayer : Type :=
| marker (m : Leaflet.Marker)
| tile (t : Leaflet.TileLayer).

(** One child of [#layerControl] with the [layer] its listener closes
    over.  The tile layer is built when the toggle is; its stamp stands
    for the object from then on. *)
Record Toggle : Type := mkToggle {
  id : string;
  name : string;
  color : string;
  checked : bool;
  layer_stamp : nat;
  layer : Leaflet.TileLayer
}.

Record Request : Type := mkRequest {
  body_lat : Js.number;
  body_lng : Js.number
}.

Record State : Type := mkState {
  mode : Mode;  (* [state.mode] *)
  currentLat : Js.number;  (* [state.currentLat] *)
  currentLng : Js.number;  (* [state.currentLng] *)
  isScanning : bool;  (* [state.isScanning] *)
  layerGroup : gmap nat MapLayer;  (* [state.layerGroup]: marker and overlays *)
  drawnItems : gmap nat Leaflet.Shape;  (* [state.drawnItems] *)
  drawControl_on_map : bool;  (* whether [state.drawControl] is added to the map *)
  scanning_overlay : Dom.Display;  (* [#scanning-overlay]: [style.display] *)
  scan_status : string;  (* [#scan-status]: [innerText] *)
  dispLat : option Js.Text;  (* [#dispLat]: [innerText], once set *)
  dispLon : option Js.Text;  (* [#dispLon] *)
  metrics : option Dom.Metrics;  (* the metric elements, [None] before the first result *)
  toast : list (Dom.ToastType * string);  (* every [showToast] so far, oldest first *)
  layerControl : list Toggle;  (* [#layerControl]: its children *)
  layerControlPanel_hidden : bool;  (* [#layerControlPanel]: has class [hidden] *)
  lastId : nat;  (* Leaflet's stamp counter *)
  fetches : gmap nat Request;  (* the requests that have not settled *)
  nextFetch : nat;  (* name of the next request *)
  timers : nat  (* [setTimeout] callbacks that have not run; all hide the overlay *)
}.

(** One setter per field: [set_f v s] is [s] after the assignment [f = v]. *)
Definition set_mode (v : Mode) (s : State) : State :=
  mkState v (currentLat s) (currentLng s) (isScanning s) (layerGroup s)
    (drawnItems s) (drawControl_on_map s) (scanning_overlay s)
    (scan_status s) (dispLat s) (dispLon s) (metrics s) (toast s)
    (layerControl s) (layerControlPanel_hidden s) (lastId s) (fetches s)
    (nextFetch s) (timers s).
Definition set_currentLat (v : Js.number) (s : State) : State :=
  mkState (mode s) v (currentLng s) (isScanning s) (layerGroup s)
    (drawnItems s) (drawControl_on_map s) (scanning_overlay s)
    (scan_status s) (dispLat s) (dispLon s) (metrics s) (toast s)
    (layerControl s) (layerControlPanel_hidden s) (lastId s) (fetches s)
    (nextFetch s) (timers s).
Definition set_currentLng (v : Js.number) (s : State) : State :=
  mkState (mode s) (currentLat s) v (isScanning s) (layerGroup s)
    (drawnItems s) (drawControl_on_map s) (scanning_overlay s)
    (scan_status s) (dispLat s) (dispLon s) (metrics s) (toast s)
    (layerControl s) (layerControlPanel_hidden s) (lastId s) (fetches s)
    (nextFetch s) (timers s).
Definition set_isScanning (v : bool) (s : State) : State :=
  mkState (mode s) (currentLat s) (currentLng s) v (layerGroup s)
    (drawnItems s) (drawControl_on_map s) (scanning_overlay s)
    (scan_status s) (dispLat s) (dispLon s) (metrics s) (toast s)
    (layerControl s) (layerControlPanel_hidden s) (lastId s) (fetches s)
    (nextFetch s) (timers s).
Definition set_layerGroup (v : gmap nat MapLayer) (s : State) : State :=
  mkState (mode s) (currentLat s) (currentLng s) (isScanning s) v
    (drawnItems s) (drawControl_on_map s) (scanning_overlay s)
    (scan_status s) (dispLat s) (dispLon s) (metrics s) (toast s)
    (layerControl s) (layerControlPanel_hidden s) (lastId s) (fetches s)
    (nextFetch s) (timers s).
Definition set_drawnItems (v : gmap nat Leaflet.Shape) (s : State) : State :=
  mkState (mode s) (currentLat s) (currentLng s) (isScanning s)
    (layerGroup s) v (drawControl_on_map s) (scanning_overlay s)
    (scan_status s) (dispLat s) (dispLon s) (metrics s) (toast s)
    (layerControl s) (layerControlPanel_hidden s) (lastId s) (fetches s)
    (nextFetch s) (timers s).
Definition set_drawControl_on_map (v : bool) (s : State) : State :=
  mkState (mode s) (currentLat s) (currentLng s) (isScanning s)
    (layerGroup s) (drawnItems s) v (scanning_overlay s) (scan_status s)
    (dispLat s) (dispLon s) (metrics s) (toast s) (layerControl s)
    (layerControlPanel_hidden s) (lastId s) (fetches s) (nextFetch s)
    (timers s).
Definition set_scanning_overlay (v : Dom.Display) (s : State) : State :=
  mkState (mode s) (currentLat s) (currentLng s) (isScanning s)
    (layerGroup s) (drawnItems s) (drawControl_on_map s) v (scan_status
    s) (dispLat s) (dispLon s) (metrics s) (toast s) (layerControl s)
    (layerControlPanel_hidden s) (lastId s) (fetches s) (nextFetch s)
    (timers s).
Definition set_scan_status (v : string) (s : State) : State :=
  mkState (mode s) (currentLat s) (currentLng s) (isScanning s)
    (layerGroup s) (drawnItems s) (drawControl_on_map s)
    (scanning_overlay s) v (dispLat s) (dispLon s) (metrics s) (toast s)
    (layerControl s) (layerControlPanel_hidden s) (lastId s) (fetches s)
    (nextFetch s) (timers s).
Definition set_dispLat (v : option Js.Text) (s : State) : State :=
  mkState (mode s) (currentLat s) (currentLng s) (isScanning s)
    (layerGroup s) (drawnItems s) (drawControl_on_map s)
    (scanning_overlay s) (scan_status s) v (dispLon s) (metrics s)
    (toast s) (layerControl s) (layerControlPanel_hidden s) (lastId s)
    (fetches s) (nextFetch s) (timers s).
Definition set_dispLon (v : option Js.Text) (s : State) : State :=
  mkState (mode s) (currentLat s) (currentLng s) (isScanning s)
    (layerGroup s) (drawnItems s) (drawControl_on_map s)
    (scanning_overlay s) (scan_status s) (dispLat s) v (metrics s)
    (toast s) (layerControl s) (layerControlPanel_hidden s) (lastId s)
    (fetches s) (nextFetch s) (timers s).
Definition set_metrics (v : option Dom.Metrics) (s : State) : State :=
  mkState (mode s) (currentLat s) (currentLng s) (isScanning s)
    (layerGroup s) (drawnItems s) (drawControl_on_map s)
    (scanning_overlay s) (scan_status s) (dispLat s) (dispLon s) v
    (toast s) (layerControl s) (layerControlPanel_hidden s) (lastId s)
    (fetches s) (nextFetch s) (timers s).
Definition set_toast (v : list (Dom.ToastType * string)) (s : State) : State :=
  mkState (mode s) (currentLat s) (currentLng s) (isScanning s)
    (layerGroup s) (drawnItems s) (drawControl_on_map s)
    (scanning_overlay s) (scan_status s) (dispLat s) (dispLon s)
    (metrics s) v (layerControl s) (layerControlPanel_hidden s) (lastId
    s) (fetches s) (nextFetch s) (timers s).
Definition set_layerControl (v : list Toggle) (s : State) : State :=
  mkState (mode s) (currentLat s) (currentLng s) (isScanning s)
    (layerGroup s) (drawnItems s) (drawControl_on_map s)
    (scanning_overlay s) (scan_status s) (dispLat s) (dispLon s)
    (metrics s) (toast s) v (layerControlPanel_hidden s) (lastId s)
    (fetches s) (nextFetch s) (timers s).
Definition set_layerControlPanel_hidden (v : bool) (s : State) : State :=
  mkState (mode s) (currentLat s) (currentLng s) (isScanning s)
    (layerGroup s) (drawnItems s) (drawControl_on_map s)
    (scanning_overlay s) (scan_status s) (dispLat s) (dispLon s)
    (metrics s) (toast s) (layerControl s) v (lastId s) (fetches s)
    (nextFetch s) (timers s).
Definition set_lastId (v : nat) (s : State) : State :=
  mkState (mode s) (currentLat s) (currentLng s) (isScanning s)
    (layerGroup s) (drawnItems s) (drawControl_on_map s)
    (scanning_overlay s) (scan_status s) (dispLat s) (dispLon s)
    (metrics s) (toast s) (layerControl s) (layerControlPanel_hidden s)
    v (fetches s) (nextFetch s) (timers s).
Definition set_fetches (v : gmap nat Request) (s : State) : State :=
  mkState (mode s) (currentLat s) (currentLng s) (isScanning s)
    (layerGroup s) (drawnItems s) (drawControl_on_map s)
    (scanning_overlay s) (scan_status s) (dispLat s) (dispLon s)
    (metrics s) (toast s) (layerControl s) (layerControlPanel_hidden s)
    (lastId s) v (nextFetch s) (timers s).
Definition set_nextFetch (v : nat) (s : State) : State :=
  mkState (mode s) (currentLat s) (currentLng s) (isScanning s)
    (layerGroup s) (drawnItems s) (drawControl_on_map s)
    (scanning_overlay s) (scan_status s) (dispLat s) (dispLon s)
    (metrics s) (toast s) (layerControl s) (layerControlPanel_hidden s)
    (lastId s) (fetches s) v (timers s).
Definition set_timers (v : nat) (s : State) : State :=
  mkState (mode s) (currentLat s) (currentLng s) (isScanning s)
    (layerGroup s) (drawnItems s) (drawControl_on_map s)
    (scanning_overlay s) (scan_status s) (dispLat s) (dispLon s)
    (metrics s) (toast s) (layerControl s) (layerControlPanel_hidden s)
    (lastId s) (fetches s) (nextFetch s) v.

(** The statements of this script. *)
Abbreviation M := (Stmt.M State).

Definition showToast (msg : string) (type : Dom.ToastType) : M unit :=
  modify (λ s, set_toast (toast s ++ [(type, msg)]) s).

Definition stamp : M nat :=
  λ s, (Normal (S (lastId s)), set_lastId (S (lastId s)) s).

Definition fetch : M unit :=
  modify (λ s,
    set_nextFetch (S (nextFetch s))
      (set_fetches
         (<[nextFetch s := mkRequest (currentLat s) (currentLng s)]>
            (fetches s)) s)).

Definition setMode (m : Mode) : M unit :=
  modify (set_mode m);;
  match m with
  | draw =>
      modify (set_drawControl_on_map true);;
      showToast "Draw Mode: Create a polygon to scan." Dom.info
  | click =>
      modify (set_drawControl_on_map false);;
      showToast "Click Mode: Click to target location." Dom.info
  end.

(** [L.marker([state.currentLat, state.currentLng]).addTo(state.layerGroup)]. *)
Definition add_marker : M unit :=
  new ← stamp;
  modify (λ s, set_layerGroup
    (Leaflet.addLayer new
       (marker (Leaflet.mkMarker (currentLat s) (currentLng s)))
       (layerGroup s)) s).

Definition startAnalysis : M unit :=
  modify (set_isScanning true);;
  modify (set_scanning_overlay Dom.flex);;
  modify (set_scan_status "Connecting to Satellite Network...");;
  modify (set_scan_status "Acquiring Multispectral Imagery...");;
  fetch.

Definition onMapClick (e : Leaflet.ClickEvent) : M unit :=
  scanning ← gets isScanning;
  if (scanning : bool) then skip else
  m ← gets mode;
  if bool_decide ((m : Mode) = draw) && negb (Leaflet.isDraw e) then skip else
  modify (set_currentLat (Leaflet.latlng_lat e));;
  modify (set_currentLng (Leaflet.latlng_lng e));;
  modify (λ s, set_dispLat (Some (Js.toFixed 5 (currentLat s))) s);;
  modify (λ s, set_dispLon (Some (Js.toFixed 5 (currentLng s))) s);;
  modify (λ s, set_layerGroup (Leaflet.clearLayers (layerGroup s)) s);;
  add_marker;;
  startAnalysis.

Definition capacity (data : Api.AnalysisData) : Js.number :=
  if Js.truthy_num (Api.max_volume data)
  then default Js.NaN (Api.max_volume data)
  else Js.mul (Api.volume data) (Js.lit 1.5).

Definition fillPct (data : Api.AnalysisData) : Js.number :=
  Js.Math_min (Js.lit 100)
    (Js.Math_round
       (Js.mul (Js.div (Api.volume data) (capacity data)) (Js.lit 100))).

Definition fillBar_className (fillPct : Js.number) : Dom.FillStyle :=
  if Js.ltb fillPct (Js.lit 30) then Dom.bg_red_500
  else if Js.gtb fillPct (Js.lit 80) then Dom.bg_blue_500
  else Dom.bg_cyan_500.

Definition updateMetrics (data : Api.AnalysisData) : M unit :=
  modify (set_metrics (Some
    (Dom.mkMetrics (Api.area data) (Api.volume data)
       (fillPct data) (fillBar_className (fillPct data))
       (Api.avg_elevation data)))).

(** [if (layers.k) addLayerToggle(id, name, layers.k, color)]: the
    toggle starts unchecked and its layer off the map. *)
Definition addLayerToggle (layers : gmap string string) (k : LayerKey)
    (id name color : string) : M unit :=
  if negb (Js.truthy_str (layers !! key_name k)) then skip else
  new ← stamp;
  modify (λ s, set_layerControl
    (layerControl s ++
       [mkToggle id name color false new
          (Leaflet.mkTileLayer (default "" (layers !! key_name k))
             (Js.lit 0.8) None k)]) s).

Definition updateLayers (layers : option (gmap string string)) : M unit :=
  match layers with
  | None => skip                              (* [if (!layers) return] *)
  | Some layers =>
      modify (λ s, set_layerGroup (Leaflet.clearLayers (layerGroup s)) s);;
      add_marker;;
      modify (set_layerControl []);;
      addLayerToggle layers water_mask
        "water" "Current Water Extent" "#00FFFF";;
      addLayerToggle layers depth "depth" "Bathymetry (Depth)" "#08519c";;
      addLayerToggle layers analytics "contour" "Depth Contours" "#ffffff";;
      addLayerToggle layers winter "winter" "Winter Extent" "#0891b2";;
      addLayerToggle layers summer "summer" "Summer Extent" "#ea580c";;
      addLayerToggle layers monsoon "monsoon" "Monsoon Extent" "#16a34a";;
      modify (set_layerControlPanel_hidden false)
  end.

(** The [change] listener of the checkbox [#toggle-id]. *)
Definition onChange (i : string) (isChecked : bool) : M unit :=
  controls ← gets layerControl;
  match list_find (λ t, id t = i) (controls : list Toggle) with
  | Some (n, t) =>
      modify (λ s, set_layerControl
        (<[n := mkToggle (id t) (name t) (color t) isChecked
                  (layer_stamp t) (layer t)]> (layerControl s)) s);;
      if isChecked
      then modify (λ s, set_layerGroup
             (Leaflet.addLayer (layer_stamp t) (tile (layer t))
                (layerGroup s)) s)
      else modify (λ s, set_layerGroup
             (Leaflet.removeLayer (layer_stamp t) (layerGroup s)) s)
  | None => skip
  end.

(** [startAnalysis] from its first [await] on. *)
Definition startAnalysis_rest (o : Api.Outcome) : M unit :=
  try_catch_finally
    (data ← match o with
            | Api.NetworkError msg => throw (TypeError msg)
            | Api.Response ok statusText body =>
                modify (set_scan_status "Processing GEE Algorithms...");;
                if negb ok
                then throw (Error ("Analysis Failed: " +:+ statusText))
                else
                  match body with
                  | Api.BadJson msg => throw (SyntaxError msg)
                  | Api.Json data =>
                      if Js.truthy_str (Api.error data)
                      then throw (Error (default "" (Api.error data)))
                      else mret data
                  end
            end;
     modify (set_scan_status "Finalizing Report...");;
     updateMetrics data;;
     updateLayers (Api.layers data);;
     showToast "Analysis Complete" Dom.success)
    (λ err,
       showToast ("Error: " +:+ Stmt.message err) Dom.error;;
       modify (set_scan_status "ERROR"))
    (modify (λ s, set_timers (S (timers s)) s)).

(** The callback of the [setTimeout] in [startAnalysis]. *)
Definition hideOverlay : M unit :=
  modify (set_scanning_overlay Dom.none);;
  modify (set_isScanning false).

Definition cancelScanning : M unit :=
  modify (set_scanning_overlay Dom.none);;
  modify (set_isScanning false);;
  showToast "Cancelled." Dom.info.

Inductive Event : Type :=
| MapClick (lat lng : Js.number)
| DrawCreated (layer : Leaflet.Shape)
| ModeButton (m : Mode)
| CancelButton
| Change (id : string) (isChecked : bool)
| Settle (request : nat) (o : Api.Outcome)
| Timeout.

Definition handle (ev : Event) : M unit :=
  match ev with
  | MapClick lat lng => onMapClick (Leaflet.mkClick lat lng false)
  | DrawCreated layer =>
      modify (λ s, set_drawnItems (Leaflet.clearLayers (drawnItems s)) s);;
      new ← stamp;
      modify (λ s, set_drawnItems
        (Leaflet.addLayer new layer (drawnItems s)) s);;
      onMapClick (Leaflet.mkClick (Leaflet.center_lat layer)
                    (Leaflet.center_lng layer) true)
  | ModeButton m => setMode m
  | CancelButton => cancelScanning
  | Change i isChecked => onChange i isChecked
  | Settle request o =>
      pending ← gets fetches;
      match (pending : gmap nat Request) !! request with
      | Some _ =>
          modify (λ s, set_fetches (delete request (fetches s)) s);;
          startAnalysis_rest o
      | None => skip
      end
  | Timeout =>
      due ← gets timers;
      match due : nat with
      | S n => modify (set_timers n);; hideOverlay
      | O => skip
      end
  end.

Definition step (s : State) (ev : Event) : State := (handle ev s).2.

Definition run (s : State) (evs : list Event) : State := foldl step s evs.

Definition loaded : State :=
  mkState click Js.zero Js.zero false ∅ ∅ false Dom.none "" None None None
    [(Dom.info, "Click Mode: Click to target location.")] [] true
    0%nat ∅ 0%nat 0%nat.

End FrontendExport.

(** ** Example inputs *)

(** A body with a negative volume and a positive capacity. *)
Definition negative_volume : Api.AnalysisData :=
  Api.mkData (Js.lit 1) (Js.lit (-5)) (Js.lit 300) (Some (Js.lit 10))
    (Some ∅) None None.

(** A body whose volume is out of range, such as [1e999], which
    [response.json()] reads as [Infinity]; no [max_volume]. *)
Definition infinite_volume : Api.AnalysisData :=
  Api.mkData (Js.lit 1) Js.Infinity (Js.lit 300) None (Some ∅) None None.

(** A body with a negative volume and no [max_volume]. *)
Definition negative_without_capacity : Api.AnalysisData :=
  Api.mkData (Js.lit 1) (Js.lit (-5)) (Js.lit 300) None (Some ∅)
    None None.

(** Bodies without [max_volume] whose volume is near the top and at the
    bottom of the range of finite numbers. *)
Definition huge_volume : Api.AnalysisData :=
  Api.mkData (Js.lit 1) (Js.lit 1.5e308) (Js.lit 300) None (Some ∅)
    None None.

Definition tiny_volume : Api.AnalysisData :=
  Api.mkData (Js.lit 1) (Js.lit 5e-324) (Js.lit 300) None (Some ∅)
    None None.

(** The two examples of the specification. *)
Definition example_layers : gmap string string :=
  {[ "analytics" := "https://tiles/analytics";
     "depth" := "https://tiles/depth" ]}.

Definition example_with_capacity : Api.AnalysisData :=
  Api.mkData (Js.lit 2.5) (Js.lit 12.8) (Js.lit 700) (Some (Js.lit 15.0))
    (Some example_layers) None None.

Definition example_without_capacity : Api.AnalysisData :=
  Api.mkData (Js.lit 1.1) (Js.lit 4.52) (Js.lit 650) None
    (Some example_layers) None None.

(** A result whose quotient times 100 falls just below a half. *)
Definition just_below_half : Api.AnalysisData :=
  Api.mkData (Js.lit 1) (Js.lit 0.145) (Js.lit 700) (Some (Js.lit 1))
    (Some ∅) None None.

(** A result with a volume slightly below zero. *)
Definition slightly_negative : Api.AnalysisData :=
  Api.mkData (Js.lit 1) (Js.lit (-0.001)) (Js.lit 700) (Some (Js.lit 10))
    (Some ∅) None None.


(** A source of random numbers for the examples. *)
Definition zeros : nat -> Js.number := λ _, Js.zero.



(** A 2xx response that carries [data]. *)
Definition ok_response (data : Api.AnalysisData) : Api.Outcome :=
  Api.Response true "OK" (Api.Json data).

(** A 2xx response whose body is [{ error: "no water body found" }]. *)
Definition error_body : Api.AnalysisData :=
  Api.mkData Js.zero Js.zero Js.zero None (Some ∅) None
    (Some "no water body found").

Definition http_500 : Api.Outcome :=
  Api.Response false "Internal Server Error" (Api.BadJson "Unexpected token <").

(** The dashboard after one click on the map: a scan is active. *)
Definition scanning_page : App.State :=
  App.run App.last_declaration (App.loaded zeros)
    [App.MapClick (Js.lit 1) (Js.lit 2)].

(** ... after the scan was cancelled while its request was in flight. *)
Definition cancelled_page : App.State :=
  App.run App.last_declaration (App.loaded zeros)
    [App.MapClick (Js.lit 1) (Js.lit 2); App.CancelButton].

(** ... after a second click started a new scan, the first request still
    being in flight. *)
Definition superseded_page : App.State :=
  App.run App.last_declaration (App.loaded zeros)
    [App.MapClick (Js.lit 1) (Js.lit 2); App.CancelButton;
     App.MapClick (Js.lit 3) (Js.lit 4)].

(** ... after a scan that completed and whose overlay has been hidden. *)
Definition idle_page : App.State :=
  App.run App.last_declaration (App.loaded zeros)
    [App.MapClick (Js.lit 1) (Js.lit 2);
     App.Settle 0 (ok_response example_with_capacity);
     App.Timeout 0].

(** The same gestures on a page where [startScanning] would be the first
    declaration. *)
Definition cancelled_page_1 : App.State :=
  App.run App.first_declaration (App.loaded zeros)
    [App.MapClick (Js.lit 1) (Js.lit 2); App.CancelButton].

(** * Properties *)

(** ** Invariants *)

(** [m] keeps the invariant [I]. *)
Definition preserves {S A : Type} (I : S -> Prop) (m : Stmt.M S A) : Prop :=
  forall s, I s -> I (m s).2.

(** [m] ends in a page where [I] holds, from whatever page it starts and
    whether it completes or throws. *)
Definition ends_in {S A : Type} (I : S -> Prop) (m : Stmt.M S A) : Prop :=
  forall s, I (m s).2.

(** [x] is a zero, a finite number or an infinity of sign [s] ([true] for
    minus). *)
Definition has_sign (s : bool) (x : Js.number) : Prop :=
  match x with
  | S754_zero s' | S754_infinity s' | S754_finite s' _ _ => s' = s
  | S754_nan => False
  end.

(** [0 <= x]: a zero of either sign, or a positive number or infinity. *)
Definition nonneg (x : Js.number) : Prop := Js.leb Js.zero x = true.

(** The metric elements show [m]. *)
Definition shows (m : Dom.Metrics) (s : App.State) : Prop :=
  App.metrics s = Some m.

(** No abort controller exists and no request carries a signal. *)
Definition no_controller (s : App.State) : Prop :=
  App.scanController s = None
  /\ App.aborted s = ∅
  /\ forall r rq, App.fetches s !! r = Some rq -> App.signal rq = None.

(** At most one layer of a group was made for any one key. *)
Definition one_overlay_per_key (g : gmap nat Leaflet.TileLayer) : Prop :=
  forall i j li lj,
    g !! i = Some li -> g !! j = Some lj ->
    Leaflet.made_for li = Leaflet.made_for lj -> i = j.

(** Every overlay of the group [g] is the [activeLayer] of a toggle of
    its key among [c]. *)
Definition owned (g : gmap nat Leaflet.TileLayer) (c : list App.Toggle)
  : Prop :=
  forall i l, g !! i = Some l ->
    exists t, t ∈ c /\ App.key t = Leaflet.made_for l
      /\ App.activeLayer t = Some i.

(** The group once a toggle has dropped its active layer. *)
Definition without (active : option nat) (g : gmap nat Leaflet.TileLayer)
  : gmap nat Leaflet.TileLayer :=
  match active with
  | Some old => Leaflet.removeLayer old g
  | None => g
  end.

(** The invariant of the layer control: the overlays on the map belong to
    the toggles, no two toggles have the same key, there are toggles only
    once there is a group, and the stamps the toggles hold have been
    handed out. *)
Record layer_invariant (s : App.State) : Prop := mk_layer_invariant {
  inv_owned :
    forall g, App.overlayLayerGroup s = Some g -> owned g (App.layerControl s);
  inv_keys : NoDup (App.key <$> App.layerControl s);
  inv_group : App.overlayLayerGroup s = None -> App.layerControl s = [];
  inv_stamps :
    forall t i, t ∈ App.layerControl s -> App.activeLayer t = Some i ->
      (i <= App.lastId s)%nat
}.

(** The same for the exported script, whose toggles hold one layer each
    for as long as they live. *)
Definition export_owned (g : gmap nat FrontendExport.MapLayer)
    (c : list FrontendExport.Toggle) : Prop :=
  forall i l, g !! i = Some (FrontendExport.tile l) ->
    exists t, t ∈ c /\ FrontendExport.layer_stamp t = i
      /\ FrontendExport.layer t = l.

Record export_layer_invariant (s : FrontendExport.State) : Prop :=
  mk_export_layer_invariant {
  export_inv_owned :
    export_owned (FrontendExport.layerGroup s) (FrontendExport.layerControl s);
  export_inv_keys :
    NoDup ((λ t, Leaflet.made_for (FrontendExport.layer t))
             <$> FrontendExport.layerControl s)
}.

(** At most one overlay of a key in the group of the exported script. *)
Definition export_one_overlay_per_key
    (g : gmap nat FrontendExport.MapLayer) : Prop :=
  forall i j li lj,
    g !! i = Some (FrontendExport.tile li) ->
    g !! j = Some (FrontendExport.tile lj) ->
    Leaflet.made_for li = Leaflet.made_for lj -> i = j.

(** The page after the [catch] and [finally] blocks of [startScanning] have
    reported a failure with the notification [msg]. *)
Definition failure_page (msg : string) (s : App.State) : App.State :=
  App.set_timers (App.timers s ++ [App.HideOverlay])
    (App.set_scan_status_red true
       (App.set_scan_status "Error."
          (App.set_toast (App.toast s ++ [(Dom.error, msg)]) s))).

(** The same for [startAnalysis] of the exported script. *)
Definition export_failure_page (msg : string) (s : FrontendExport.State)
  : FrontendExport.State :=
  FrontendExport.set_timers (S (FrontendExport.timers s))
    (FrontendExport.set_scan_status "ERROR"
       (FrontendExport.set_toast
          (FrontendExport.toast s ++ [(Dom.error, msg)]) s)).

(** The tile layer the toggle of key [k] puts on the map. *)
Definition overlay_of (layers : gmap string string) (k : LayerKey)
  : Leaflet.TileLayer :=
  Leaflet.mkTileLayer (default "" (layers !! key_name k)) (Js.lit 0.9)
    (Some (if bool_decide (k = analytics) then 10 else 5)) k.

(** While [updateLayerControl layers] builds the control: the invariant
    holds, the new group exists, and the toggles made so far have keys in
    [ks] with a URL in [layers], and are checked, with their layer on the
    map, exactly when they are those of analytics and depth. *)
Record building (layers : gmap string string) (ks : list LayerKey)
    (s : App.State) : Prop := mk_building {
  building_inv : layer_invariant s;
  building_group : is_Some (App.overlayLayerGroup s);
  building_keys : forall t, t ∈ App.layerControl s -> App.key t ∈ ks;
  building_present :
    forall t, t ∈ App.layerControl s ->
      App.closure_layers t = layers
      /\ Js.truthy_str (layers !! key_name (App.key t)) = true;
  building_checked :
    forall t, t ∈ App.layerControl s ->
      (App.checked t = true <-> App.key t = analytics \/ App.key t = depth)
      /\ (App.checked t = true <-> is_Some (App.activeLayer t))
}.

(** While [updateLayers] of the exported script builds the control. *)
Record export_building (ks : list LayerKey) (s : FrontendExport.State)
  : Prop := mk_export_building {
  export_building_inv : export_layer_invariant s;
  export_building_keys :
    forall t, t ∈ FrontendExport.layerControl s ->
      Leaflet.made_for (FrontendExport.layer t) ∈ ks
}.

(** ** [src/app.js]: the narrative summary

    [generateAIReport] and [closeAIModal], on a page that extends the
    dashboard with the button, the modal and the requests to
    [/api/gemini]. *)

Module Report.

Import Stmt.

(** A parsed JSON text. *)
#[local] Unset Elimination Schemes.
Inductive Json : Type :=
| JNull
| JBool (b : bool)
| JNum (x : Js.number)
| JStr (s : string)
| JArr (items : list Json)
| JObj (members : gmap string Json).
#[local] Set Elimination Schemes.

(** A property name: an identifier or the index [0]. *)
Inductive Key : Type := name (k : string) | zero.

(** [v.k] and [v[0]] for a value that is neither [null] nor [undefined]:
  own members of an object, the first item of an array, the first
  character of a string (here its first byte; the script only reads
  members of it, which a string has not); [None] stands for
  [undefined].  None of the names the script reads is a method of
  arrays, strings, numbers or booleans. *)
Definition prop (v : Json) (k : Key) : option Json :=
match v, k with
| JObj members, name k => members !! k
| JObj members, zero => members !! "0"
| JArr items, zero => head items
| JStr (String c _), zero => Some (JStr (String c ""))
| _, _ => None
end.

(** [v?.k] and [v?.[0]]. *)
Definition opt_prop (v : option Json) (k : Key) : option Json :=
match v with
| None | Some JNull => None
| Some v => prop v k
end.

(** Truthiness of a value that may be [undefined]. *)
Definition truthy (v : option Json) : bool :=
match v with
| None | Some JNull | Some (JBool false) | Some (JStr "") => false
| Some (JNum x) => Js.truthy x
| Some _ => true
end.

(** The numbers the prompt is built from; the text around them is fixed
  and the formatting of the numbers is not modelled. *)
Record Prompt : Type := mkPrompt {
prompt_lat : Js.number;
prompt_lng : Js.number;
prompt_area : Js.number;
prompt_volume : Js.number
}.

(** How the request settles: rejected by the network, or fulfilled with a
  response whose body parses or does not.  The script never reads the
  status. *)
Inductive Outcome : Type :=
| NetworkError (message : string)
| Response (ok : bool) (body : Json + string).

(** [innerHTML] of the button, as far as the script sets it. *)
Inductive Label : Type := as_loaded | connecting | ai_analysis.

Record Page : Type := mkPage {
dashboard : App.State;
aiBtn_disabled : bool;            (* [#aiBtn]: [disabled] *)
aiBtn_label : Label;              (* [#aiBtn]: [innerHTML] *)
aiModal_hidden : bool;            (* [#aiModal]: has class [hidden] *)
aiModal_flex : bool;              (* [#aiModal]: has class [flex] *)
aiContent : option string;        (* [#aiContent]: [innerHTML], once set *)
requests : gmap nat Prompt;       (* requests that have not settled *)
nextRequest : nat
}.

Definition set_dashboard (v : App.State) (p : Page) : Page :=
mkPage v (aiBtn_disabled p) (aiBtn_label p) (aiModal_hidden p)
  (aiModal_flex p) (aiContent p) (requests p) (nextRequest p).
Definition set_aiBtn_disabled (v : bool) (p : Page) : Page :=
mkPage (dashboard p) v (aiBtn_label p) (aiModal_hidden p)
  (aiModal_flex p) (aiContent p) (requests p) (nextRequest p).
Definition set_aiBtn_label (v : Label) (p : Page) : Page :=
mkPage (dashboard p) (aiBtn_disabled p) v (aiModal_hidden p)
  (aiModal_flex p) (aiContent p) (requests p) (nextRequest p).
Definition set_aiModal_hidden (v : bool) (p : Page) : Page :=
mkPage (dashboard p) (aiBtn_disabled p) (aiBtn_label p) v
  (aiModal_flex p) (aiContent p) (requests p) (nextRequest p).
Definition set_aiModal_flex (v : bool) (p : Page) : Page :=
mkPage (dashboard p) (aiBtn_disabled p) (aiBtn_label p) (aiModal_hidden p)
  v (aiContent p) (requests p) (nextRequest p).
Definition set_aiContent (v : option string) (p : Page) : Page :=
mkPage (dashboard p) (aiBtn_disabled p) (aiBtn_label p) (aiModal_hidden p)
  (aiModal_flex p) v (requests p) (nextRequest p).
Definition set_requests (v : gmap nat Prompt) (p : Page) : Page :=
mkPage (dashboard p) (aiBtn_disabled p) (aiBtn_label p) (aiModal_hidden p)
  (aiModal_flex p) (aiContent p) v (nextRequest p).
Definition set_nextRequest (v : nat) (p : Page) : Page :=
mkPage (dashboard p) (aiBtn_disabled p) (aiBtn_label p) (aiModal_hidden p)
  (aiModal_flex p) (aiContent p) (requests p) v.

Abbreviation M := (Stmt.M Page).

(** A statement of the dashboard, run on the extended page. *)
Definition on_dashboard {A : Type} (m : Stmt.M App.State A) : M A :=
λ p, let r := m (dashboard p) in (r.1, set_dashboard r.2 p).

Definition showToast (msg : string) (type : Dom.ToastType) : M unit :=
on_dashboard (App.showToast msg type).

(** [fetch(apiURL, ...)] with the prompt made from the current state. *)
Definition fetch : M unit :=
modify (λ p,
  let s := dashboard p in
  set_nextRequest (S (nextRequest p))
    (set_requests
       (<[nextRequest p
          := mkPrompt (App.currentLat s) (App.currentLng s)
               (App.currentArea s) (App.currentVol s)]> (requests p)) p)).

(** [generateAIReport] up to its [await]. *)
Definition generateAIReport : M unit :=
vol ← gets (λ p, App.currentVol (dashboard p));
if Js.strict_eq vol Js.zero
then showToast "Select a water body first!" Dom.error
else
  modify (set_aiBtn_disabled true);;
  modify (set_aiBtn_label connecting);;
  fetch.

(** [data.candidates?.[0]?.content?.parts?.[0]?.text]: the first access is
  a plain one and throws on [null]. *)
Definition generated_text (data : Json) : M (option Json) :=
match data with
| JNull =>
    throw (TypeError
             "Cannot read properties of null (reading 'candidates')")
| _ =>
    mret (opt_prop
            (opt_prop
               (opt_prop
                  (opt_prop
                     (opt_prop (prop data (name "candidates")) zero)
                     (name "content"))
                  (name "parts"))
               zero)
            (name "text"))
end.

(** [x || "AI Processing Error."]. *)
Definition or_fallback (x : option Json) : Json :=
if truthy x then default JNull x else JStr "AI Processing Error.".

Section Marked.

(** [marked.parse] of the Markdown library the page loads: the HTML for
a text, or the error it throws. *)
Variable marked_parse : Json -> string + JsError.

(** [generateAIReport] from its first [await] on. *)
Definition generateAIReport_rest (o : Outcome) : M unit :=
try_catch_finally
(data ← match o with
        | NetworkError msg => throw (TypeError msg)
        | Response _ (inr msg) => throw (SyntaxError msg)
        | Response _ (inl data) => mret data
        end;
 found ← generated_text data;
 let text := or_fallback found in
 html ← match marked_parse text with
        | inl html => mret html
        | inr e => throw e
        end;
 modify (set_aiContent (Some html));;
 modify (set_aiModal_hidden false);;
 modify (set_aiModal_flex true))
(λ e, showToast ("AI Error: " +:+ message e) Dom.error)
(modify (set_aiBtn_disabled false);;
 modify (set_aiBtn_label ai_analysis)).

Definition closeAIModal : M unit :=
modify (set_aiModal_hidden true);;
modify (set_aiModal_flex false).

Inductive Event : Type :=
| Dashboard (ev : App.Event)        (* an event of the dashboard *)
| AiButton                          (* the button of [generateAIReport] *)
| CloseButton                       (* the button of [closeAIModal] *)
| Settle (request : nat) (o : Outcome).

Definition handle (ev : Event) : M unit :=
match ev with
| Dashboard ev => on_dashboard (App.handle App.last_declaration ev)
| AiButton => generateAIReport
| CloseButton => closeAIModal
| Settle request o =>
  pending ← gets requests;
  match (pending : gmap nat Prompt) !! request with
  | Some _ =>
      modify (λ p, set_requests (delete request (requests p)) p);;
      generateAIReport_rest o
  | None => skip
  end
end.

Definition step (p : Page) (ev : Event) : Page := (handle ev p).2.

Definition run (p : Page) (evs : list Event) : Page := foldl step p evs.

End Marked.

(** The page once loaded: the modal hidden, the button enabled. *)
Definition loaded (rnd : nat -> Js.number) : Page :=
mkPage (App.loaded rnd) false as_loaded true false None ∅ 0%nat.

End Report.

(** ** [navTo]

    The document as the list of its elements, each with its tag, its id
    if it has one, and its classes. *)

Module Nav.

Import Stmt.

Record Element : Type := mkElement {
tag : string;
id : option string;
classList : gset string
}.

Definition add (classes : list string) (el : Element) : Element :=
mkElement (tag el) (id el) (classList el ∪ list_to_set classes).

Definition remove (classes : list string) (el : Element) : Element :=
mkElement (tag el) (id el) (classList el ∖ list_to_set classes).

Abbreviation M := (Stmt.M (list Element)).

(** [document.querySelectorAll(q).forEach(f)] for a query by tag or by
  class. *)
Definition forEach (matches : Element -> bool) (f : Element -> Element)
: M unit :=
modify (fmap (λ el, if matches el then f el else el)).

Definition is_section (el : Element) : bool := String.eqb (tag el) "section".

Definition is_nav_link (el : Element) : bool :=
bool_decide ("nav-link" ∈ classList el).

(** [document.getElementById(i).classList.m(...)]: the first element
  with the id, and a [TypeError] when there is none. *)
Definition on_element (i : string) (f : Element -> Element) : M unit :=
doc ← gets (λ doc : list Element, doc);
match list_find (λ el, id el = Some i) (doc : list Element) with
| Some (n, el) => modify (λ doc, <[n := f el]> doc)
| None =>
    throw (TypeError "Cannot read properties of null (reading 'classList')")
end.

Definition highlight : list string :=
["text-cyan-400"; "border-b-2"; "border-cyan-400"].

(** [navTo(id)].  For the dashboard it also asks the map, a little later,
  to measure itself again, which changes nothing here. *)
Definition navTo (i : string) : M unit :=
forEach is_section (add ["hidden"]);;
on_element i (remove ["hidden"]);;
forEach is_nav_link (remove highlight);;
on_element ("nav-" +:+ i) (add highlight).

End Nav.

(** ** Further invariants and descriptions *)

(** The message of the error that the outcome of a request makes the [try]
    block of [startScanning] throw; [None] for a 2xx response with a body
    that has no error. *)
Definition failure_message (o : Api.Outcome) : option string :=
  match o with
  | Api.NetworkError msg => Some msg
  | Api.Response false _ _ => Some "Analysis Service Failed"
  | Api.Response true _ (Api.BadJson msg) => Some msg
  | Api.Response true _ (Api.Json data) =>
      if Js.truthy_str (Api.error data)
      then Some (default "" (Api.error data))
      else None
  end.

(** [err.message || "Unknown Error"]. *)
Definition reported (msg : string) : string :=
  if String.eqb msg "" then "Unknown Error" else msg.

(** The page right after a click that starts a scan at [(lat, lng)]. *)
Definition scan_started (lat lng : Js.number) (s : App.State) : App.State :=
  App.set_nextFetch (S (App.nextFetch s))
    (App.set_fetches
       (<[App.nextFetch s := App.mkRequest lat lng None]> (App.fetches s))
       (App.set_scan_status "Analyzing Satellite Data..."
          (App.set_scanning_overlay Dom.flex
             (App.set_isScanning true
                (App.set_layerGroup
                   {[ S (App.lastId s) := Leaflet.mkMarker lat lng ]}
                   (App.set_lastId (S (App.lastId s))
                      (App.set_dispLon (Some (Js.toFixed 5 lng))
                         (App.set_dispLat (Some (Js.toFixed 5 lat))
                            (App.set_currentLng lng
                               (App.set_currentLat lat s)))))))))).

(** The overlay is shown exactly while [isScanning] is set. *)
Definition overlay_follows_flag (s : App.State) : Prop :=
  App.isScanning s = true <-> App.scanning_overlay s = Dom.flex.

Definition export_overlay_follows_flag (s : FrontendExport.State) : Prop :=
  FrontendExport.isScanning s = true
  <-> FrontendExport.scanning_overlay s = Dom.flex.

(** The marker group is empty or holds one marker, at the current
    coordinates. *)
Definition marker_at_point (s : App.State) : Prop :=
  App.layerGroup s = ∅
  \/ exists i,
       App.layerGroup s
       = {[ i := Leaflet.mkMarker (App.currentLat s) (App.currentLng s) ]}.

(** The draw control is on the map exactly in draw mode. *)
Definition control_follows_mode (s : App.State) : Prop :=
  App.drawControl_on_map s = true <-> App.mode s = draw.

(** The status line carries the class [text-red-500]. *)
Definition status_red (s : App.State) : Prop :=
  App.scan_status_red s = true.

(** [x] is [s] except, possibly, for the layer control, the overlay
    group, the stamp counter and the visibility of the layer panel. *)
Definition same_outside_layer_control (s x : App.State) : Prop :=
  App.mode x = App.mode s
  /\ App.currentLat x = App.currentLat s
  /\ App.currentLng x = App.currentLng s
  /\ App.currentArea x = App.currentArea s
  /\ App.currentVol x = App.currentVol s
  /\ App.isScanning x = App.isScanning s
  /\ App.layers x = App.layers s
  /\ App.layerGroup x = App.layerGroup s
  /\ App.drawnItems x = App.drawnItems s
  /\ App.charts_trend x = App.charts_trend s
  /\ App.charts_seasonal x = App.charts_seasonal s
  /\ App.scanController x = App.scanController s
  /\ App.drawControl_on_map x = App.drawControl_on_map s
  /\ App.scanning_overlay x = App.scanning_overlay s
  /\ App.scan_status x = App.scan_status s
  /\ App.scan_status_red x = App.scan_status_red s
  /\ App.dispLat x = App.dispLat s
  /\ App.dispLon x = App.dispLon s
  /\ App.metrics x = App.metrics s
  /\ App.toast x = App.toast s
  /\ App.aborted x = App.aborted s
  /\ App.fetches x = App.fetches s
  /\ App.nextFetch x = App.nextFetch s
  /\ App.timers x = App.timers s
  /\ App.random x = App.random s
  /\ App.randomCalls x = App.randomCalls s.

(** The layer of every toggle that holds one is in the overlay group,
    under the stamp the toggle holds, and is the tile layer of the
    toggle's URL; a toggle is checked exactly when it holds a layer. *)
Record toggles_rendered (s : App.State) : Prop := mk_toggles_rendered {
  rendered_checked :
    forall t, t ∈ App.layerControl s ->
      (App.checked t = true <-> is_Some (App.activeLayer t));
  rendered_active :
    forall t i, t ∈ App.layerControl s -> App.activeLayer t = Some i ->
      exists g, App.overlayLayerGroup s = Some g
        /\ g !! i = Some (overlay_of (App.closure_layers t) (App.key t))
}.

Definition control_and_map_agree (s : App.State) : Prop :=
  layer_invariant s /\ toggles_rendered s.

(** While [updateLayers] of the exported script has handled the keys
    [handled], in that order: the group holds the marker alone, under
    [m0]; there is one unchecked toggle for each handled key that has a
    URL, in the same order, and its layer has a later stamp. *)
Record export_built (layers : gmap string string) (m0 : nat)
    (mk : FrontendExport.MapLayer) (handled : list LayerKey)
    (s : FrontendExport.State) : Prop := mk_export_built {
  built_group : FrontendExport.layerGroup s = {[ m0 := mk ]};
  built_stamp : (m0 <= FrontendExport.lastId s)%nat;
  built_keys :
    (λ t, Leaflet.made_for (FrontendExport.layer t))
      <$> FrontendExport.layerControl s
    = filter (λ k, Js.truthy_str (layers !! key_name k) = true) handled;
  built_toggles :
    forall t, t ∈ FrontendExport.layerControl s ->
      FrontendExport.checked t = false
      /\ (m0 < FrontendExport.layer_stamp t)%nat
      /\ Leaflet.url (FrontendExport.layer t)
         = default ""
             (layers !! key_name (Leaflet.made_for (FrontendExport.layer t)))
}.

(** A body of the shape the text endpoint documents:
    [{ candidates: [{ content: { parts: [{ text }] } }] }]. *)
Definition gemini_body (text : Report.Json) : Report.Json :=
  Report.JObj {[ "candidates" :=
    Report.JArr
      [Report.JObj {[ "content" :=
         Report.JObj {[ "parts" :=
           Report.JArr [Report.JObj {[ "text" := text ]}] ]} ]}] ]}.

(** A Markdown renderer for the examples: text is passed through and
    anything else is refused. *)
Definition plain_marked (v : Report.Json) : string + Stmt.JsError :=
  match v with
  | Report.JStr s => inl s
  | _ => inr (Stmt.Error "marked(): input parameter is of type object")
  end.

(** The dashboard after a scan with the first example result. *)
Definition report_page : Report.Page :=
  Report.run plain_marked (Report.loaded zeros)
    [Report.Dashboard (App.MapClick (Js.lit 1) (Js.lit 2));
     Report.Dashboard (App.Settle 0 (ok_response example_with_capacity));
     Report.Dashboard (App.Timeout 0)].

(** A document with two sections and their two links. *)
Definition two_sections : list Nav.Element :=
  [Nav.mkElement "section" (Some "dashboard") ∅;
   Nav.mkElement "section" (Some "about") {[ "hidden" ]};
   Nav.mkElement "a" (Some "nav-dashboard")
     {[ "nav-link"; "text-cyan-400"; "border-b-2"; "border-cyan-400" ]};
   Nav.mkElement "a" (Some "nav-about") {[ "nav-link" ]}].

(** The same document without the link of the second section. *)
Definition about_without_link : list Nav.Element :=
  [Nav.mkElement "section" (Some "dashboard") ∅;
   Nav.mkElement "section" (Some "about") {[ "hidden" ]};
   Nav.mkElement "a" (Some "nav-dashboard")
     {[ "nav-link"; "text-cyan-400"; "border-b-2"; "border-cyan-400" ]}].

(** What [navTo] makes of the element at position [j], when the section
    to show is at position [n] and its link at position [m]. *)
Definition switched (n m j : nat) (el : Nav.Element) : Nav.Element :=
  let el1 := if Nav.is_section el then Nav.add ["hidden"] el else el in
  let el2 := if decide (j = n) then Nav.remove ["hidden"] el1 else el1 in
  let el3 := if Nav.is_nav_link el2 then Nav.remove Nav.highlight el2
             else el2 in
  if decide (j = m) then Nav.add Nav.highlight el3 else el3.

(** The timers that are queued are [l]. *)
Definition timers_are (l : list App.Timer) (s : App.State) : Prop :=
  App.timers s = l.
(** ** Binary64 arithmetic *)

(** The literals of the scripts, as values. *)
Ltac lits :=
  repeat match goal with
         | |- context [Js.lit ?x] =>
             let v := eval vm_compute in (Js.lit x) in
             change (Js.lit x) with v
         | H : context [Js.lit ?x] |- _ =>
             let v := eval vm_compute in (Js.lit x) in
             change (Js.lit x) with v in H
         end.

Section Rounding.

(** Rounding never turns a mantissa that is not negative into NaN, and
    it keeps the sign it is given. *)
Lemma shr_1_nonneg mrs : 0 <= shr_m mrs -> 0 <= shr_m (shr_1 mrs).
Proof.
  destruct mrs as [m r s]. cbn [shr_m]. intros Hm.
  destruct m as [|[p|p|]|p]; cbn; lia.
Qed.

Lemma iter_shr_1_nonneg p mrs :
  0 <= shr_m mrs -> 0 <= shr_m (SpecFloat.iter_pos shr_1 p mrs).
Proof.
  revert mrs. induction p as [p IH|p IH|]; intros mrs Hm; cbn [SpecFloat.iter_pos].
  - apply IH, IH, shr_1_nonneg, Hm.
  - apply IH, IH, Hm.
  - apply shr_1_nonneg, Hm.
Qed.

Lemma shr_fexp_nonneg m e l :
  0 <= m -> 0 <= shr_m (shr_fexp prec emax m e l).1.
Proof.
  intros Hm. unfold shr_fexp, shr.
  assert (H0 : 0 <= shr_m (shr_record_of_loc m l))
    by (destruct l as [|[]]; exact Hm).
  destruct (fexp prec emax (Zdigits2 m + e) - e) as [|p|p]; cbn [fst];
    [exact H0 | apply iter_shr_1_nonneg, H0 | exact H0].
Qed.

Lemma round_nearest_even_nonneg m l :
  0 <= m -> 0 <= round_nearest_even m l.
Proof.
  intros Hm. destruct l as [|[]]; cbn; try lia.
  destruct (Z.even m); lia.
Qed.

Lemma binary_round_aux_sign (sx : bool) mx ex lx :
  0 <= mx ->
  has_sign sx (binary_round_aux prec emax sx mx ex lx).
Proof.
  intros Hm. unfold binary_round_aux.
  pose proof (shr_fexp_nonneg mx ex lx Hm) as H1.
  destruct (shr_fexp prec emax mx ex lx) as [mrs' e']. cbn [fst] in H1.
  pose proof (shr_fexp_nonneg _ e' loc_Exact
                (round_nearest_even_nonneg _ (loc_of_shr_record mrs') H1))
    as H2.
  destruct (shr_fexp prec emax _ e' loc_Exact) as [mrs'' e''].
  cbn [fst] in H2.
  destruct (shr_m mrs'') as [|p|p]; [reflexivity | | lia].
  destruct (e'' <=? emax - prec); reflexivity.
Qed.

Lemma binary_round_sign (sx : bool) mx ex :
  has_sign sx (binary_round prec emax sx mx ex).
Proof.
  unfold binary_round. destruct (shl_align _ _ _) as [mz ez].
  apply binary_round_aux_sign. lia.
Qed.

Lemma of_Z_pos (p : positive) : has_sign false (Js.of_Z (Z.pos p)).
Proof. apply binary_round_sign. Qed.

End Rounding.

Section Signs.

Implicit Types (x y v c : Js.number).

Lemma has_sign_nonneg x : has_sign false x -> nonneg x.
Proof. destruct x as [[]|[]| |[] m e]; cbn; intros H; try discriminate; try contradiction; reflexivity. Qed.

Lemma nonneg_cases x :
  nonneg x <->
  (exists s, x = S754_zero s) \/ x = S754_infinity false
  \/ exists m e, x = S754_finite false m e.
Proof.
  split.
  - destruct x as [s|[]| |[] m e]; cbn; intros H; try discriminate;
      eauto.
  - intros [[s ->]|[->|(m & e & ->)]]; reflexivity.
Qed.

Lemma positive_cases c :
  Js.gtb c Js.zero = true <->
  c = S754_infinity false \/ exists m e, c = S754_finite false m e.
Proof.
  split.
  - destruct c as [s|[]| |[] m e]; cbn; intros H; try discriminate; eauto.
  - intros [->|(m & e & ->)]; reflexivity.
Qed.

Lemma div_core_nonneg m1 e1 m2 e2 :
  0 <= (SFdiv_core_binary prec emax (Z.pos m1) e1 (Z.pos m2) e2).1.1.
Proof.
  unfold SFdiv_core_binary.
  set (s := e1 - e2 - _).
  set (m' := match s with
             | 0 => Z.pos m1
             | Z.pos _ => Z.shiftl (Z.pos m1) s
             | Z.neg _ => 0
             end).
  assert (Hm' : 0 <= m').
  { subst m'. destruct s; [lia | apply Z.shiftl_nonneg; lia | lia]. }
  pose proof (Z.div_pos m' (Z.pos m2) Hm' ltac:(lia)) as Hq.
  unfold Z.div in Hq.
  destruct (Z.div_eucl m' (Z.pos m2)) as [q r]. exact Hq.
Qed.

(** A quotient of a number that is not negative by a positive one is
    not negative; it is NaN only for infinity by infinity. *)
Lemma div_nonneg v c :
  nonneg v -> Js.gtb c Js.zero = true ->
  nonneg (Js.div v c)
  \/ (Js.div v c = Js.NaN
      /\ Js.is_finite v = false /\ Js.is_finite c = false).
Proof.
  intros Hv Hc. apply nonneg_cases in Hv. apply positive_cases in Hc.
  destruct Hv as [[s ->]|[->|(m & e & ->)]],
           Hc as [->|(m' & e' & ->)];
    try (left; reflexivity); try (right; repeat split; reflexivity).
  left. apply has_sign_nonneg. unfold Js.div, SFdiv.
  pose proof (div_core_nonneg m e m' e') as H.
  destruct (SFdiv_core_binary _ _ _ _ _ _) as [[mz ez] lz].
  apply binary_round_aux_sign, H.
Qed.

Lemma mul_100_nonneg x : nonneg x -> nonneg (Js.mul x (Js.lit 100)).
Proof.
  intros Hx. apply nonneg_cases in Hx. lits.
  destruct Hx as [[s ->]|[->|(m & e & ->)]]; try (destruct s; reflexivity).
  - reflexivity.
  - apply has_sign_nonneg. apply binary_round_aux_sign. lia.
Qed.

Lemma not_NaN_of_sign (s : bool) x : has_sign s x -> Js.is_NaN x = false.
Proof. destruct x; cbn; [reflexivity | reflexivity | contradiction | reflexivity]. Qed.

Lemma mul_finite_NaN x m e :
  Js.is_NaN (Js.mul x (S754_finite false m e)) = true -> x = Js.NaN.
Proof.
  destruct x as [s|s| |s m' e']; try discriminate; [reflexivity|].
  unfold Js.mul, SFmul.
  rewrite (not_NaN_of_sign _ _
             (binary_round_aux_sign (xorb s false) (Z.pos (m' * m))
                (e' + e) loc_Exact ltac:(lia))).
  discriminate.
Qed.

Lemma Math_round_nonneg x : nonneg x -> nonneg (Js.Math_round x).
Proof.
  intros Hx. pose proof Hx as Hx'. apply nonneg_cases in Hx'.
  destruct Hx' as [[s ->]|[->|(m & e & ->)]]; try exact Hx.
  unfold Js.Math_round. destruct (0 <=? e) eqn:He; [exact Hx|].
  apply Z.leb_gt in He. cbn [cond_Zopp].
  assert (Hn : 0 <= Z.shiftr (2 * Z.pos m + 2 ^ (- e)) (1 - e)).
  { apply Z.shiftr_nonneg.
    pose proof (Z.pow_pos_nonneg 2 (- e) ltac:(lia) ltac:(lia)). lia. }
  destruct (Z.shiftr _ _) as [|p|p]; [reflexivity | | lia].
  apply has_sign_nonneg, of_Z_pos.
Qed.

Lemma Math_round_NaN x : Js.is_NaN (Js.Math_round x) = true -> x = Js.NaN.
Proof.
  destruct x as [s|s| |s m e]; try discriminate; [reflexivity|].
  unfold Js.Math_round. destruct (0 <=? e); [discriminate|].
  destruct (Z.shiftr _ _) as [|p|p]; [discriminate| |].
  - rewrite (not_NaN_of_sign _ _ (of_Z_pos p)). discriminate.
  - change (Js.of_Z (Z.neg p)) with (binary_round prec emax true p 0).
    rewrite (not_NaN_of_sign _ _ (binary_round_sign true p 0)).
    discriminate.
Qed.

Lemma SFcompare_antisym x y :
  SFcompare y x = CompOpp <$> SFcompare x y.
Proof.
  destruct x as [[]|[]| |[] m e], y as [[]|[]| |[] m' e']; try reflexivity;
    cbn; rewrite (Z.compare_antisym e e');
    destruct (e ?= e'); cbn; try reflexivity;
    rewrite !Pos.compare_cont_spec, (Pos.compare_antisym m m');
    destruct (m ?= m')%positive; reflexivity.
Qed.

(** [Math.min(100, y)] is NaN exactly when [y] is, and is at most 100
    otherwise; it is not negative when [y] is not. *)
Lemma Math_min_NaN x y :
  Js.is_NaN (Js.Math_min x y) = true -> x = Js.NaN \/ y = Js.NaN.
Proof.
  unfold Js.Math_min.
  destruct x as [[]|[]| |[] m e], y as [[]|[]| |[] m' e']; cbn;
    try discriminate; auto;
    destruct (e ?= e'); cbn; try discriminate;
    destruct (Pos.compare_cont _ _ _); discriminate.
Qed.

Lemma Math_min_le x y :
  Js.is_NaN (Js.Math_min x y) = false -> Js.leb (Js.Math_min x y) x = true.
Proof.
  unfold Js.Math_min, Js.leb, SFleb.
  destruct (SFcompare x y) as [[]|] eqn:Hc; cbn; try discriminate.
  - intros _. pose proof (SFcompare_antisym x y) as H. rewrite Hc in H.
    destruct x as [[]|[]| |[] m e]; try discriminate;
      try (cbn in H; rewrite H; reflexivity);
      destruct y; try discriminate; try reflexivity.
  - intros _. pose proof (SFcompare_antisym x x) as H.
    destruct (SFcompare x x) as [[]|] eqn:Hxx; try reflexivity.
    + cbn in H. discriminate.
    + destruct x; discriminate.
  - intros _. pose proof (SFcompare_antisym x y) as H. rewrite Hc in H.
    cbn in H. rewrite H. reflexivity.
Qed.

Lemma Math_min_nonneg x y : nonneg x -> nonneg y -> nonneg (Js.Math_min x y).
Proof.
  intros Hx Hy. unfold Js.Math_min.
  destruct (SFcompare x y) as [[]|] eqn:Hc.
  - destruct x as [[]| | |]; assumption.
  - exact Hx.
  - exact Hy.
  - destruct x, y; cbn in *; discriminate.
Qed.

(** The lower clamp changes nothing on a number that is not negative
    or is NaN, up to the sign of a zero. *)
Lemma Math_max_0 x :
  nonneg x \/ x = Js.NaN -> Js.same_text (Js.Math_max Js.zero x) x.
Proof.
  intros [Hx| ->]; [|left; reflexivity].
  apply nonneg_cases in Hx.
  destruct Hx as [[s ->]|[->|(m & e & ->)]]; try (left; reflexivity).
  right. exists false, s. split; reflexivity.
Qed.

End Signs.
(** ** Arithmetic of the fill percentage *)

Section FillPercentage.

Implicit Types (v c : Js.number) (data : Api.AnalysisData).

(** [Math.min(100, Math.round(v / c * 100))]. *)
Let pct v c : Js.number :=
  Js.Math_min (Js.lit 100)
    (Js.Math_round (Js.mul (Js.div v c) (Js.lit 100))).

Lemma nonneg_100 : nonneg (Js.lit 100).
Proof. reflexivity. Qed.

Lemma nonneg_not_NaN x : nonneg x -> Js.is_NaN x = false.
Proof. destruct x; (discriminate || reflexivity). Qed.

(** For a volume that is not negative and a positive capacity the
    percentage is between 0 and 100, or it is NaN, which takes an
    infinite volume and an infinite capacity. *)
Lemma pct_bounds v c :
  nonneg v -> Js.gtb c Js.zero = true ->
  (nonneg (pct v c) /\ Js.leb (pct v c) (Js.lit 100) = true)
  \/ (pct v c = Js.NaN /\ Js.is_finite v = false /\ Js.is_finite c = false).
Proof.
  intros Hv Hc. subst pct. cbv beta.
  destruct (div_nonneg v c Hv Hc) as [Hq|(Hq & Hfv & Hfc)].
  - left.
    pose proof (Math_min_nonneg _ _ nonneg_100
                  (Math_round_nonneg _ (mul_100_nonneg _ Hq))) as Hr.
    split; [exact Hr|]. apply Math_min_le, nonneg_not_NaN, Hr.
  - right. rewrite Hq. repeat split; assumption.
Qed.

(** With a positive capacity the percentage is NaN only for a volume
    that is not finite. *)
Lemma pct_NaN v c :
  Js.gtb c Js.zero = true -> Js.is_NaN (pct v c) = true ->
  Js.is_finite v = false.
Proof.
  intros Hc H. subst pct. cbv beta in H.
  apply Math_min_NaN in H as [H|H]; [discriminate|].
  assert (Hq : Js.div v c = Js.NaN).
  { apply (mul_finite_NaN _ 7036874417766400 (-46)).
    change (S754_finite false 7036874417766400 (-46)) with (Js.lit 100).
    rewrite (Math_round_NaN _ ltac:(rewrite H; reflexivity)).
    reflexivity. }
  apply positive_cases in Hc.
  destruct v as [s|s| |s m e]; try reflexivity;
    destruct Hc as [->|(m' & e' & ->)]; try discriminate.
  exfalso. unfold Js.div, SFdiv in Hq.
  pose proof (div_core_nonneg m e m' e') as Hz.
  destruct (SFdiv_core_binary _ _ _ _ _ _) as [[mz ez] lz].
  pose proof (not_NaN_of_sign _ _
                (binary_round_aux_sign (xorb s false) mz ez lz Hz)) as Hn.
  rewrite Hq in Hn. discriminate.
Qed.

Lemma pct_le_100 v c :
  Js.is_NaN (pct v c) = true \/ Js.leb (pct v c) (Js.lit 100) = true.
Proof.
  destruct (Js.is_NaN (pct v c)) eqn:Hn; [left; reflexivity|].
  right. apply Math_min_le, Hn.
Qed.

(** [app.js] computes the capacity the specification describes. *)
Lemma App_capacity_spec data : App.capacity data = SpecWords.capacity data.
Proof.
  unfold App.capacity, SpecWords.capacity.
  destruct (Api.max_volume data) as [m|]; reflexivity.
Qed.

(** So does the exported script whenever its capacity is positive. *)
Lemma Export_capacity_spec data :
  Js.gtb (FrontendExport.capacity data) Js.zero = true ->
  FrontendExport.capacity data = SpecWords.capacity data.
Proof.
  unfold FrontendExport.capacity, SpecWords.capacity.
  destruct (Api.max_volume data) as [m|]; [|reflexivity]. cbn.
  destruct (Js.truthy m) eqn:Ht.
  - cbn. intros ->. reflexivity.
  - intros _. destruct m as [s|s| |s m e]; try discriminate; reflexivity.
Qed.

Lemma App_fillPct_bounds data :
  (Js.is_NaN (App.fillPct data) = true
   \/ Js.leb (App.fillPct data) (Js.lit 100) = true)
  /\ (Js.is_NaN (App.fillPct data) = true ->
      Js.is_finite (Api.volume data) = false)
  /\ (nonneg (Api.volume data) -> Js.is_finite (Api.volume data) = true ->
      nonneg (App.fillPct data)
      /\ Js.leb (App.fillPct data) (Js.lit 100) = true).
Proof.
  unfold App.fillPct.
  destruct (Js.gtb (App.capacity data) Js.zero) eqn:Hc.
  - split; [apply pct_le_100|]. split; [apply pct_NaN, Hc|].
    intros Hv Hf.
    destruct (pct_bounds _ _ Hv Hc) as [H|(_ & Hf' & _)]; [exact H|].
    rewrite Hf in Hf'. discriminate.
  - split; [right; reflexivity|]. split; [discriminate|].
    intros _ _. split; reflexivity.
Qed.

Lemma Export_fillPct_bounds data :
  nonneg (Api.volume data) -> Js.is_finite (Api.volume data) = true ->
  Js.gtb (FrontendExport.capacity data) Js.zero = true ->
  nonneg (FrontendExport.fillPct data)
  /\ Js.leb (FrontendExport.fillPct data) (Js.lit 100) = true.
Proof.
  intros Hv Hf Hc. unfold FrontendExport.fillPct.
  destruct (pct_bounds _ _ Hv Hc) as [H|(_ & Hf' & _)]; [exact H|].
  rewrite Hf in Hf'. discriminate.
Qed.

(** Where the volume is not negative, the lower clamp of the
    specification changes nothing that is displayed. *)
Lemma clamp_pct v c :
  nonneg v -> Js.gtb c Js.zero = true ->
  Js.same_text (pct v c)
    (SpecWords.clamp
       (Js.Math_round (Js.mul (Js.div v c) (Js.lit 100)))
       Js.zero (Js.lit 100)).
Proof.
  intros Hv Hc. unfold SpecWords.clamp.
  assert (H : Js.same_text (Js.Math_max Js.zero (pct v c)) (pct v c)).
  { apply Math_max_0.
    destruct (pct_bounds v c Hv Hc) as [[H _]|[H _]]; auto. }
  destruct H as [H|(s & s' & H1 & H2)]; [left; symmetry; exact H|].
  right. exists s', s. split; assumption.
Qed.

Lemma App_fillPct_spec data :
  nonneg (Api.volume data) ->
  Js.same_text (App.fillPct data) (SpecWords.fillPct data).
Proof.
  intros Hv. unfold App.fillPct, SpecWords.fillPct.
  rewrite App_capacity_spec.
  destruct (Js.gtb (SpecWords.capacity data) Js.zero) eqn:Hc;
    [|left; reflexivity].
  apply clamp_pct; assumption.
Qed.

Lemma Export_fillPct_spec data :
  nonneg (Api.volume data) ->
  Js.gtb (FrontendExport.capacity data) Js.zero = true ->
  Js.same_text (FrontendExport.fillPct data) (SpecWords.fillPct data).
Proof.
  intros Hv Hc. unfold FrontendExport.fillPct, SpecWords.fillPct.
  rewrite <- (Export_capacity_spec data Hc), Hc.
  apply clamp_pct; assumption.
Qed.

End FillPercentage.

(** C3, as stated, fails.  For a negative volume with a positive capacity
    the script shows the rounded ratio itself, where the clamped formula
    gives 0; and for volume 4.52 without max_volume the capacity is the
    binary64 product 4.52 * 1.5, which is 6.7799999999999994 and not
    6.78. *)
Lemma fillPct_is_not_clamped_below :
  (Dom.fillPct
     <$> App.metrics (App.updateMetrics negative_volume (App.loaded zeros)).2
   = Some (Js.lit (-50))
   /\ SpecWords.fillPct negative_volume = Js.zero)
  /\ App.capacity example_without_capacity = Js.lit 6.7799999999999994
  /\ Js.strict_eq (App.capacity example_without_capacity) (Js.lit 6.78)
     = false.
Proof. vm_compute. repeat split. Qed.

(** C3, amended: [updateMetrics] of [app.js] shows
    [min(100, round(volume / capacity * 100))], computed in binary64, when
    [capacity > 0] and [0] otherwise, with [capacity = max_volume] if
    [max_volume > 0] and [volume * 1.5] if not; [updateMetrics] of the
    exported script shows the same expression without the test of the
    capacity, with [capacity = max_volume] if that is truthy and
    [volume * 1.5] if not.  There is no lower clamp; what is displayed is
    what the clamped formula gives whenever the volume is not negative
    (and, in the exported script, the capacity is positive).  For volume
    12.8 and max_volume 15.0 both scripts show 85; for volume 4.52 without
    max_volume the capacity is 4.52 * 1.5 and both show 67. *)
Theorem updateMetrics_fillPct
    (data : Api.AnalysisData) (s : App.State) (x : FrontendExport.State) :
  (exists m, App.metrics (App.updateMetrics data s).2 = Some m
     /\ Dom.fillPct m =
          (if Js.gtb (SpecWords.capacity data) Js.zero
           then Js.Math_min (Js.lit 100)
                  (Js.Math_round
                     (Js.mul
                        (Js.div (Api.volume data) (SpecWords.capacity data))
                        (Js.lit 100)))
           else Js.zero)
     /\ (nonneg (Api.volume data) ->
         Js.same_text (Dom.fillPct m) (SpecWords.fillPct data)))
  /\ (exists m,
        FrontendExport.metrics (FrontendExport.updateMetrics data x).2
        = Some m
        /\ (let capacity :=
              match Api.max_volume data with
              | Some max_volume =>
                  if Js.truthy max_volume then max_volume
                  else Js.mul (Api.volume data) (Js.lit 1.5)
              | None => Js.mul (Api.volume data) (Js.lit 1.5)
              end in
            Dom.fillPct m =
              Js.Math_min (Js.lit 100)
                (Js.Math_round
                   (Js.mul (Js.div (Api.volume data) capacity)
                      (Js.lit 100))))
        /\ (nonneg (Api.volume data) ->
            Js.gtb (FrontendExport.capacity data) Js.zero = true ->
            Js.same_text (Dom.fillPct m) (SpecWords.fillPct data)))
  /\ App.fillPct example_with_capacity = Js.lit 85
  /\ App.capacity example_without_capacity
     = Js.mul (Js.lit 4.52) (Js.lit 1.5)
  /\ App.fillPct example_without_capacity = Js.lit 67
  /\ FrontendExport.fillPct example_with_capacity = Js.lit 85
  /\ FrontendExport.fillPct example_without_capacity = Js.lit 67.
Proof.
  split; [|split; [|vm_compute; repeat split]].
  - eexists; split; [reflexivity|]. cbn [Dom.fillPct].
    split; [|apply App_fillPct_spec].
    unfold App.fillPct. rewrite App_capacity_spec. reflexivity.
  - eexists; split; [reflexivity|]. cbn [Dom.fillPct].
    split; [|apply Export_fillPct_spec].
    unfold FrontendExport.fillPct, FrontendExport.capacity.
    destruct (Api.max_volume data) as [m|]; [|reflexivity].
    cbn. destruct (Js.truthy m); reflexivity.
Qed.

Lemma updateMetrics_fillPct_witness :
  (exists m, App.metrics
               (App.updateMetrics example_with_capacity (App.loaded zeros)).2
             = Some m
     /\ Js.same_text (Dom.fillPct m) (SpecWords.fillPct example_with_capacity))
  /\ (exists m, FrontendExport.metrics
                  (FrontendExport.updateMetrics example_without_capacity
                     FrontendExport.loaded).2
                = Some m
        /\ Js.same_text (Dom.fillPct m)
             (SpecWords.fillPct example_without_capacity)).
Proof.
  split.
  - destruct (updateMetrics_fillPct example_with_capacity (App.loaded zeros)
                FrontendExport.loaded) as [(m & Hm & _ & Hspec) _].
    exists m. split; [exact Hm|]. apply Hspec. reflexivity.
  - destruct (updateMetrics_fillPct example_without_capacity
                (App.loaded zeros) FrontendExport.loaded)
      as (_ & (m & Hm & _ & Hspec) & _).
    exists m. split; [exact Hm|]. apply Hspec; reflexivity.
Defined.

(** C4, as stated, fails: a negative volume is shown as a negative
    percentage, and a volume that is out of range, read as [Infinity], is
    shown as [NaN%]. *)
Lemma fillPct_below_zero :
  (exists m,
     App.metrics (App.updateMetrics negative_volume (App.loaded zeros)).2
       = Some m
     /\ Js.leb Js.zero (Dom.fillPct m) = false)
  /\ (exists m,
        App.metrics (App.updateMetrics infinite_volume (App.loaded zeros)).2
          = Some m
        /\ Dom.fillPct m = Js.NaN
        /\ Js.leb Js.zero (Dom.fillPct m) && Js.leb (Dom.fillPct m) (Js.lit 100)
           = false).
Proof.
  split; eexists; (split; [reflexivity|]); vm_compute; repeat split.
Qed.

(** C4, amended: the percentage [updateMetrics] of [app.js] shows is NaN or
    at most 100 for every result, NaN only for a volume that is not
    finite, and between 0 and 100 for every result whose volume is finite
    and not negative; in the exported script it is between 0 and 100 when
    moreover the capacity it computes is positive. *)
Theorem displayed_fillPct_bounds (data : Api.AnalysisData) :
  (forall s : App.State,
     exists m, App.metrics (App.updateMetrics data s).2 = Some m
       /\ (Js.is_NaN (Dom.fillPct m) = true
           \/ Js.leb (Dom.fillPct m) (Js.lit 100) = true)
       /\ (Js.is_NaN (Dom.fillPct m) = true ->
           Js.is_finite (Api.volume data) = false)
       /\ (Js.leb Js.zero (Api.volume data) = true ->
           Js.is_finite (Api.volume data) = true ->
           Js.leb Js.zero (Dom.fillPct m) = true
           /\ Js.leb (Dom.fillPct m) (Js.lit 100) = true))
  /\ (forall x : FrontendExport.State,
        Js.leb Js.zero (Api.volume data) = true ->
        Js.is_finite (Api.volume data) = true ->
        Js.gtb (FrontendExport.capacity data) Js.zero = true ->
        exists m,
          FrontendExport.metrics (FrontendExport.updateMetrics data x).2
            = Some m
          /\ Js.leb Js.zero (Dom.fillPct m) = true
          /\ Js.leb (Dom.fillPct m) (Js.lit 100) = true).
Proof.
  split.
  - intros s. eexists; split; [reflexivity|]. cbn [Dom.fillPct].
    apply App_fillPct_bounds.
  - intros x Hv Hf Hc. eexists; split; [reflexivity|]. cbn [Dom.fillPct].
    apply Export_fillPct_bounds; assumption.
Qed.

Lemma displayed_fillPct_bounds_witness :
  (exists m,
     App.metrics
       (App.updateMetrics example_without_capacity (App.loaded zeros)).2
     = Some m
     /\ Js.leb Js.zero (Dom.fillPct m) = true
     /\ Js.leb (Dom.fillPct m) (Js.lit 100) = true)
  /\ (exists m,
        FrontendExport.metrics
          (FrontendExport.updateMetrics example_without_capacity
             FrontendExport.loaded).2
        = Some m
        /\ Js.leb Js.zero (Dom.fillPct m) = true
        /\ Js.leb (Dom.fillPct m) (Js.lit 100) = true).
Proof.
  destruct (displayed_fillPct_bounds example_without_capacity)
    as [Happ Hexp].
  split.
  - destruct (Happ (App.loaded zeros)) as (m & Hm & _ & _ & Hb).
    exists m. split; [exact Hm|]. apply Hb; reflexivity.
  - apply Hexp; reflexivity.
Defined.

(** ** Reasoning about statements *)

Section Statements.
Context {S : Type}.
Implicit Types (I : S -> Prop).

Lemma preserves_ret {A : Type} I (a : A) : preserves I (mret a).
Proof. intros s Hs. exact Hs. Qed.

Lemma preserves_skip I : preserves I Stmt.skip.
Proof. intros s Hs. exact Hs. Qed.

Lemma preserves_throw {A : Type} I e : preserves I (@Stmt.throw S A e).
Proof. intros s Hs. exact Hs. Qed.

Lemma preserves_gets {A : Type} I (f : S -> A) : preserves I (Stmt.gets f).
Proof. intros s Hs. exact Hs. Qed.

Lemma preserves_modify I (f : S -> S) :
  (forall s, I s -> I (f s)) -> preserves I (Stmt.modify f).
Proof. intros Hf s Hs. apply Hf, Hs. Qed.

Lemma preserves_bind {A B : Type} I (m : Stmt.M S A) (f : A -> Stmt.M S B) :
  preserves I m -> (forall a, preserves I (f a)) -> preserves I (m ≫= f).
Proof.
  intros Hm Hf s Hs. unfold mbind, Stmt.M_bind.
  specialize (Hm s Hs). destruct (m s) as [[a|e] s']; cbn in *.
  - apply Hf, Hm.
  - exact Hm.
Qed.

Lemma preserves_try_catch_finally I body handler final :
  preserves I body -> (forall e, preserves I (handler e)) ->
  preserves I final ->
  preserves I (Stmt.try_catch_finally body handler final).
Proof.
  intros Hb Hh Hf s Hs. unfold Stmt.try_catch_finally.
  specialize (Hb s Hs). destruct (body s) as [[[]|e] s']; cbn in *.
  - specialize (Hf s' Hb). destruct (final s') as [[[]|e] s'']; exact Hf.
  - specialize (Hh e s' Hb). destruct (handler e s') as [c s'']; cbn in *.
    specialize (Hf s'' Hh). destruct (final s'') as [[[]|e'] s3]; exact Hf.
Qed.

Lemma preserves_Array_from {A : Type} I n (f : Stmt.M S A) :
  preserves I f -> preserves I (Stmt.Array_from n f).
Proof.
  intros Hf. induction n as [|n IH]; cbn [Stmt.Array_from].
  - apply preserves_ret.
  - apply preserves_bind; [exact Hf|]. intros x.
    apply preserves_bind; [exact IH|]. intros xs. apply preserves_ret.
Qed.

End Statements.

(** Breaks a goal [preserves I m] down along the structure of [m]: the
    goals left are the assignments. *)
Ltac preserves_step :=
  lazymatch goal with
  | |- preserves _ (mbind _ _) => apply preserves_bind; [|intros ?]
  | |- preserves _ (mret _) => apply preserves_ret
  | |- preserves _ Stmt.skip => apply preserves_skip
  | |- preserves _ (Stmt.throw _) => apply preserves_throw
  | |- preserves _ (Stmt.gets _) => apply preserves_gets
  | |- preserves _ (Stmt.try_catch_finally _ _ _) =>
      apply preserves_try_catch_finally; [|intros ?|]
  | |- preserves _ (Stmt.Array_from _ _) => apply preserves_Array_from
  | |- preserves _ (Stmt.modify _) => apply preserves_modify; intros ? ?
  | |- preserves _ (match ?x with _ => _ end) => destruct x
  | |- preserves _ (let _ := _ in _) => cbv zeta
  end.

Ltac preserves_struct := repeat preserves_step.

Section Ends.
Context {S : Type}.
Implicit Types (I : S -> Prop).

Lemma ends_in_bind {A B : Type} I (m : Stmt.M S A) (f : A -> Stmt.M S B) :
  ends_in I m -> (forall a, preserves I (f a)) -> ends_in I (m ≫= f).
Proof.
  intros Hm Hf s. unfold mbind, Stmt.M_bind.
  specialize (Hm s). destruct (m s) as [[a|e] s']; cbn in *.
  - apply Hf, Hm.
  - exact Hm.
Qed.

Lemma ends_in_after_ret {A B : Type} I (a : A) (f : A -> Stmt.M S B) :
  ends_in I (f a) -> ends_in I (mret a ≫= f).
Proof. intros Hf s. apply Hf. Qed.

Lemma ends_in_after_modify {B : Type} I (g : S -> S) (rest : Stmt.M S B) :
  ends_in I rest -> ends_in I (Stmt.modify g;; rest).
Proof. intros Hr s. apply Hr. Qed.

Lemma ends_in_try_catch_finally I body handler final :
  ends_in I body -> (forall e, preserves I (handler e)) ->
  preserves I final ->
  ends_in I (Stmt.try_catch_finally body handler final).
Proof.
  intros Hb Hh Hf s. unfold Stmt.try_catch_finally.
  specialize (Hb s). destruct (body s) as [[[]|e] s']; cbn in *.
  - specialize (Hf s' Hb). destruct (final s') as [[[]|e] s'']; exact Hf.
  - specialize (Hh e s' Hb). destruct (handler e s') as [c s'']; cbn in *.
    specialize (Hf s'' Hh). destruct (final s'') as [[[]|e'] s3]; exact Hf.
Qed.

End Ends.

(** ** Map gestures during a scan *)

Lemma onMapClick_returns (start : Stmt.M App.State unit) e (s : App.State) :
  App.isScanning s = true ->
  App.onMapClick_calling start e s = (Stmt.Normal tt, s).
Proof.
  intros Hs. unfold App.onMapClick_calling.
  cbv [mbind Stmt.M_bind Stmt.gets]. rewrite Hs. reflexivity.
Qed.


(** A gesture that [onMapClick] does not ignore starts a scan. *)
Lemma onMapClick_starts (e : Leaflet.ClickEvent) (s : App.State) :
  App.isScanning s = false ->
  (App.mode s = click \/ Leaflet.isDraw e = true) ->
  App.onMapClick_calling App.startScanning e s
  = (Stmt.Normal tt,
     scan_started (Leaflet.latlng_lat e) (Leaflet.latlng_lng e) s).
Proof.
  intros Hs Hm. unfold App.onMapClick_calling.
  cbv [mbind Stmt.M_bind Stmt.gets]. rewrite Hs.
  assert (Hc : bool_decide (App.mode s = draw) && negb (Leaflet.isDraw e)
               = false).
  { destruct Hm as [Hm|Hm]; [rewrite Hm | rewrite Hm, andb_false_r];
      reflexivity. }
  rewrite Hc.
  unfold App.startScanning, App.fetch, App.stamp, scan_started,
    Leaflet.addLayer, Leaflet.clearLayers.
  cbv [mbind Stmt.M_bind Stmt.gets Stmt.modify].
  cbn [fst snd]. reflexivity.
Qed.





(** ** The abort controller is never created *)

(** An assignment to a field that [no_controller] does not read. *)
Ltac frame_assignment :=
  lazymatch goal with
  | H : ?I ?s |- ?I _ => exact H
  end.

Lemma stamp_no_controller : preserves no_controller App.stamp.
Proof. intros s H. exact H. Qed.

Lemma Math_random_no_controller : preserves no_controller App.Math_random.
Proof. intros s H. exact H. Qed.

Lemma on_overlayLayerGroup_no_controller m :
  preserves no_controller (App.on_overlayLayerGroup m).
Proof.
  intros s H. unfold App.on_overlayLayerGroup.
  destruct (App.overlayLayerGroup s); exact H.
Qed.

Lemma addTo_overlayLayerGroup_no_controller l :
  preserves no_controller (App.addTo_overlayLayerGroup l).
Proof.
  intros s H. unfold App.addTo_overlayLayerGroup.
  destruct (App.overlayLayerGroup s); exact H.
Qed.

Lemma fetch_no_controller : preserves no_controller (App.fetch None).
Proof.
  intros s (Hc & Ha & Hf). split; [exact Hc|]. split; [exact Ha|].
  intros r rq. cbn. rewrite lookup_insert.
  case_decide; [intros [= <-]; reflexivity | apply Hf].
Qed.

Lemma showToast_no_controller msg type :
  preserves no_controller (App.showToast msg type).
Proof. intros s H. exact H. Qed.

Lemma setTimeout_no_controller cb :
  preserves no_controller (App.setTimeout cb).
Proof. intros s H. exact H. Qed.

Lemma toggleLayer_no_controller layers k active isChecked :
  preserves no_controller (App.toggleLayer layers k active isChecked).
Proof.
  unfold App.toggleLayer.
  destruct isChecked, active; preserves_struct;
    auto using on_overlayLayerGroup_no_controller,
               addTo_overlayLayerGroup_no_controller.
Qed.

Lemma createToggle_no_controller layers k lbl col dflt :
  preserves no_controller (App.createToggle layers k lbl col dflt).
Proof.
  unfold App.createToggle. preserves_struct;
    auto using toggleLayer_no_controller; frame_assignment.
Qed.

Lemma updateLayerControl_no_controller layers :
  preserves no_controller (App.updateLayerControl layers).
Proof.
  unfold App.updateLayerControl. preserves_struct;
    auto using createToggle_no_controller; frame_assignment.
Qed.

Lemma updateCharts_no_controller vol seasonal :
  preserves no_controller (App.updateCharts vol seasonal).
Proof.
  unfold App.updateCharts. preserves_struct;
    auto using Math_random_no_controller; frame_assignment.
Qed.

Lemma apply_result_no_controller data :
  preserves no_controller (App.apply_result data).
Proof.
  unfold App.apply_result, App.updateMetrics. preserves_struct;
    auto using updateCharts_no_controller, updateLayerControl_no_controller;
    frame_assignment.
Qed.

Lemma await_data_no_controller f r :
  preserves no_controller (App.await_data f r).
Proof. unfold App.await_data. preserves_struct. Qed.

Lemma startScanning_rest_no_controller r :
  preserves no_controller (App.startScanning_rest r).
Proof.
  unfold App.startScanning_rest, App.report_failure. preserves_struct;
    auto using await_data_no_controller, apply_result_no_controller,
               showToast_no_controller, setTimeout_no_controller;
    frame_assignment.
Qed.

Lemma startScanning_no_controller : preserves no_controller App.startScanning.
Proof.
  unfold App.startScanning. preserves_struct;
    auto using fetch_no_controller; frame_assignment.
Qed.

Lemma onMapClick_no_controller e :
  preserves no_controller (App.onMapClick_calling App.startScanning e).
Proof.
  unfold App.onMapClick_calling. preserves_struct;
    auto using stamp_no_controller, startScanning_no_controller;
    frame_assignment.
Qed.

Lemma cancelScanning_no_controller : preserves no_controller App.cancelScanning.
Proof.
  intros s H. pose proof H as (Hc & _).
  unfold App.cancelScanning. cbv [mbind Stmt.M_bind Stmt.gets].
  rewrite Hc. exact H.
Qed.

Lemma onChange_no_controller k isChecked :
  preserves no_controller (App.onChange k isChecked).
Proof.
  unfold App.onChange. preserves_struct;
    auto using toggleLayer_no_controller; frame_assignment.
Qed.

Lemma handle_no_controller ev :
  preserves no_controller (App.handle App.last_declaration ev).
Proof.
  destruct ev; cbn [App.handle App.startScanning_of App.startScanning_rest_of].
  - apply onMapClick_no_controller.
  - preserves_struct;
      auto using stamp_no_controller, onMapClick_no_controller;
      frame_assignment.
  - unfold App.setMode. preserves_struct;
      auto using showToast_no_controller; frame_assignment.
  - apply cancelScanning_no_controller.
  - apply setTimeout_no_controller.
  - apply onChange_no_controller.
  - preserves_struct; auto using startScanning_rest_no_controller.
    destruct H as (Hc & Ha & Hf). split; [exact Hc|]. split; [exact Ha|].
    intros r' rq'. cbn. intros Hr. apply lookup_delete_Some in Hr as [_ Hr].
    eapply Hf, Hr.
  - unfold App.hideOverlay. preserves_struct;
      auto using onMapClick_no_controller; frame_assignment.
Qed.

Lemma loaded_no_controller rnd : no_controller (App.loaded rnd).
Proof. repeat split. intros r rq Hr. cbn in Hr. rewrite lookup_empty in Hr. discriminate. Qed.

Lemma step_no_controller s ev :
  no_controller s -> no_controller (App.step App.last_declaration s ev).
Proof. apply handle_no_controller. Qed.

Lemma run_no_controller evs s :
  no_controller s -> no_controller (App.run App.last_declaration s evs).
Proof.
  revert s. induction evs as [|ev evs IH]; intros s Hs; [exact Hs|].
  apply IH, step_no_controller, Hs.
Qed.

(** ** Failures *)

Lemma truthy_str_Some (X : string) :
  X <> "" -> Js.truthy_str (Some X) = true.
Proof.
  intros HX. cbn. apply negb_true_iff, String.eqb_neq, HX.
Qed.

(** What the [catch] and [finally] blocks of [startScanning] make of an
    error thrown by the [try] block. *)
Lemma startScanning_rest_failure r e (x : App.State) :
  App.await_data (λ _, Stmt.Error "Analysis Service Failed") r x
  = (Stmt.Throw e, x) ->
  (App.startScanning_rest r x).2
  = failure_page ("Analysis Failed: " +:+ reported (Stmt.message e)) x.
Proof.
  intros H. unfold App.startScanning_rest, Stmt.try_catch_finally.
  cbv [mbind Stmt.M_bind]. rewrite H.
  unfold App.report_failure, App.showToast, App.setTimeout, failure_page,
    reported.
  cbv [mbind Stmt.M_bind Stmt.modify]. cbn [fst snd]. reflexivity.
Qed.

(** A settled request whose body carries an error is reported and nothing
    of it is applied. *)
Lemma settle_error_body (s : App.State) r rq st data X :
  App.fetches s !! r = Some rq -> App.signal rq = None ->
  Api.error data = Some X -> X <> "" ->
  App.step App.last_declaration s
    (App.Settle r (Api.Response true st (Api.Json data)))
  = failure_page ("Analysis Failed: " +:+ X)
      (App.set_fetches (delete r (App.fetches s)) s).
Proof.
  intros Hr Hsig Herr HX.
  unfold App.step, App.handle.
  cbv [mbind Stmt.M_bind Stmt.gets Stmt.modify]. rewrite Hr.
  unfold App.settled. rewrite Hsig.
  cbn [App.startScanning_rest_of].
  rewrite (startScanning_rest_failure _ (Stmt.Error X)).
  - unfold reported. cbn [Stmt.message Stmt.Error].
    apply String.eqb_neq in HX. rewrite HX. reflexivity.
  - cbn [App.await_data negb]. rewrite Herr, (truthy_str_Some X HX).
    reflexivity.
Qed.

(** A response that is not 2xx is reported in the same way. *)
Lemma settle_not_ok (s : App.State) r rq st body :
  App.fetches s !! r = Some rq -> App.signal rq = None ->
  App.step App.last_declaration s
    (App.Settle r (Api.Response false st body))
  = failure_page "Analysis Failed: Analysis Service Failed"
      (App.set_fetches (delete r (App.fetches s)) s).
Proof.
  intros Hr Hsig.
  unfold App.step, App.handle.
  cbv [mbind Stmt.M_bind Stmt.gets Stmt.modify]. rewrite Hr.
  unfold App.settled. rewrite Hsig.
  cbn [App.startScanning_rest_of].
  rewrite (startScanning_rest_failure _
             (Stmt.Error "Analysis Service Failed")); reflexivity.
Qed.

Lemma export_settle_error_body (s : FrontendExport.State) r rq st data X :
  FrontendExport.fetches s !! r = Some rq ->
  Api.error data = Some X -> X <> "" ->
  FrontendExport.step s
    (FrontendExport.Settle r (Api.Response true st (Api.Json data)))
  = export_failure_page ("Error: " +:+ X)
      (FrontendExport.set_scan_status "Processing GEE Algorithms..."
         (FrontendExport.set_fetches
            (delete r (FrontendExport.fetches s)) s)).
Proof.
  intros Hr Herr HX.
  unfold FrontendExport.step, FrontendExport.handle.
  cbv [mbind Stmt.M_bind Stmt.gets Stmt.modify]. rewrite Hr.
  unfold FrontendExport.startAnalysis_rest, Stmt.try_catch_finally.
  cbv [mbind Stmt.M_bind Stmt.gets Stmt.modify negb Stmt.throw].
  rewrite Herr, (truthy_str_Some X HX). reflexivity.
Qed.

Lemma export_settle_not_ok (s : FrontendExport.State) r rq st body :
  FrontendExport.fetches s !! r = Some rq ->
  FrontendExport.step s (FrontendExport.Settle r (Api.Response false st body))
  = export_failure_page ("Error: " +:+ ("Analysis Failed: " +:+ st))
      (FrontendExport.set_scan_status "Processing GEE Algorithms..."
         (FrontendExport.set_fetches
            (delete r (FrontendExport.fetches s)) s)).
Proof.
  intros Hr.
  unfold FrontendExport.step, FrontendExport.handle.
  cbv [mbind Stmt.M_bind Stmt.gets Stmt.modify]. rewrite Hr. reflexivity.
Qed.

(** C5: when the request of a scan settles with a 2xx response whose body
    has a non-empty [error] field, the page ends exactly as it does for a
    response that is not 2xx, up to the text of the notification: an error
    notification is shown, the status line reads "Error." and is marked
    red, and the metrics, the charts, the layer control, the overlays and
    the stored result are those from before.  The exported script behaves
    alike, with status text "ERROR". *)
Theorem error_field_takes_failure_path
    (s : App.State) (r : nat) (rq : App.Request)
    (st st' : string) (body : Api.Body) (data : Api.AnalysisData)
    (X : string) :
  App.fetches s !! r = Some rq -> App.signal rq = None ->
  Api.error data = Some X -> X <> "" ->
  let a := App.step App.last_declaration s
             (App.Settle r (Api.Response true st (Api.Json data))) in
  let b := App.step App.last_declaration s
             (App.Settle r (Api.Response false st' body)) in
  App.toast a = App.toast s ++ [(Dom.error, "Analysis Failed: " +:+ X)]
  /\ App.toast b
     = App.toast s ++ [(Dom.error, "Analysis Failed: Analysis Service Failed")]
  /\ App.set_toast (App.toast s) a = App.set_toast (App.toast s) b
  /\ App.scan_status a = "Error." /\ App.scan_status_red a = true
  /\ App.metrics a = App.metrics s
  /\ App.charts_trend a = App.charts_trend s
  /\ App.charts_seasonal a = App.charts_seasonal s
  /\ App.layerControl a = App.layerControl s
  /\ App.overlayLayerGroup a = App.overlayLayerGroup s
  /\ App.layers a = App.layers s
  /\ App.currentArea a = App.currentArea s
  /\ App.currentVol a = App.currentVol s
  /\ (forall (x : FrontendExport.State) q,
        FrontendExport.fetches x !! r = Some q ->
        let a' := FrontendExport.step x
                    (FrontendExport.Settle r
                       (Api.Response true st (Api.Json data))) in
        let b' := FrontendExport.step x
                    (FrontendExport.Settle r (Api.Response false st' body)) in
        FrontendExport.toast a'
          = FrontendExport.toast x ++ [(Dom.error, "Error: " +:+ X)]
        /\ FrontendExport.toast b'
           = FrontendExport.toast x
               ++ [(Dom.error, "Error: " +:+ ("Analysis Failed: " +:+ st'))]
        /\ FrontendExport.set_toast (FrontendExport.toast x) a'
           = FrontendExport.set_toast (FrontendExport.toast x) b'
        /\ FrontendExport.scan_status a' = "ERROR"
        /\ FrontendExport.metrics a' = FrontendExport.metrics x
        /\ FrontendExport.layerControl a' = FrontendExport.layerControl x
        /\ FrontendExport.layerGroup a' = FrontendExport.layerGroup x).
Proof.
  intros Hr Hsig Herr HX a b. subst a b.
  rewrite (settle_error_body s r rq st data X Hr Hsig Herr HX).
  rewrite (settle_not_ok s r rq st' body Hr Hsig).
  repeat (split; [reflexivity|]).
  intros x q Hq a' b'. subst a' b'.
  rewrite (export_settle_error_body x r q st data X Hq Herr HX).
  rewrite (export_settle_not_ok x r q st' body Hq).
  repeat split; reflexivity.
Qed.

Lemma error_field_takes_failure_path_witness :
  let a := App.step App.last_declaration scanning_page
             (App.Settle 0 (ok_response error_body)) in
  let b := App.step App.last_declaration scanning_page
             (App.Settle 0 http_500) in
  App.set_toast (App.toast scanning_page) a
    = App.set_toast (App.toast scanning_page) b
  /\ App.metrics a = App.metrics scanning_page.
Proof.
  pose proof (error_field_takes_failure_path scanning_page 0%nat
                (App.mkRequest (Js.lit 1) (Js.lit 2) None) "OK" "Internal Server Error"
                (Api.BadJson "Unexpected token <") error_body
                "no water body found") as H.
  cbv zeta in H.
  destruct H as (_ & _ & Hsame & _ & _ & Hmetrics & _);
    [reflexivity | reflexivity | reflexivity | discriminate |].
  split; [exact Hsame | exact Hmetrics].
Defined.

(** ** Cancelling *)

(** What [cancelScanning] does on a page that has no abort controller,
    whether or not a scan is active. *)
Lemma cancelScanning_effects (b : App.Binding) (s : App.State) :
  App.scanController s = None ->
  App.step b s App.CancelButton
  = App.set_toast (App.toast s ++ [(Dom.info, "Cancelled.")])
      (App.set_layerGroup ∅
         (App.set_isScanning false
            (App.set_scanning_overlay Dom.none s))).
Proof.
  intros Hc. unfold App.step, App.handle, App.cancelScanning.
  cbv [mbind Stmt.M_bind Stmt.gets]. rewrite Hc. reflexivity.
Qed.

(** C8, as stated, fails: after a scan has completed and its overlay has
    been hidden, no scan is active, and [cancelScanning] still removes the
    selection marker and shows a notification. *)
Lemma idle_cancel_is_not_a_noop :
  App.isScanning idle_page = false
  /\ App.layerGroup idle_page !! 1%nat = Some (Leaflet.mkMarker (Js.lit 1) (Js.lit 2))
  /\ App.layerGroup (App.step App.last_declaration idle_page App.CancelButton)
       !! 1%nat = None
  /\ App.toast (App.step App.last_declaration idle_page App.CancelButton)
     = App.toast idle_page ++ [(Dom.info, "Cancelled.")]
  /\ App.step App.last_declaration idle_page App.CancelButton <> idle_page.
Proof.
  repeat split; try (vm_compute; reflexivity).
  intros H. apply (f_equal (λ s, length (App.toast s))) in H.
  vm_compute in H. discriminate.
Qed.

(** C8, amended: on every page the dashboard can reach, [cancelScanning]
    called while no scan is active leaves [isScanning] false and creates or
    aborts no controller, and it changes neither metrics, charts, layer
    control nor status line; but it is not a no-op: it sets the overlay to
    hidden, empties the marker group and shows the notification
    "Cancelled.".  In the exported script it sets the overlay to hidden and
    shows the notification. *)
Theorem cancelScanning_when_idle (rnd : nat -> Js.number) (evs : list App.Event) :
  let s := App.run App.last_declaration (App.loaded rnd) evs in
  App.isScanning s = false ->
  App.step App.last_declaration s App.CancelButton
  = App.set_toast (App.toast s ++ [(Dom.info, "Cancelled.")])
      (App.set_layerGroup ∅ (App.set_scanning_overlay Dom.none s))
  /\ (forall x : FrontendExport.State,
        FrontendExport.isScanning x = false ->
        FrontendExport.step x FrontendExport.CancelButton
        = FrontendExport.set_toast
            (FrontendExport.toast x ++ [(Dom.info, "Cancelled.")])
            (FrontendExport.set_scanning_overlay Dom.none x)).
Proof.
  intros s Hs. split.
  - destruct (run_no_controller evs _ (loaded_no_controller rnd)) as (Hc & _).
    fold s in Hc. rewrite (cancelScanning_effects _ s Hc).
    destruct s; cbn in Hs; subst; reflexivity.
  - intros x Hx. unfold FrontendExport.step, FrontendExport.handle.
    destruct x; cbn in Hx; subst; reflexivity.
Qed.

Lemma cancelScanning_when_idle_witness :
  App.isScanning idle_page = false
  /\ App.step App.last_declaration idle_page App.CancelButton
     = App.set_toast (App.toast idle_page ++ [(Dom.info, "Cancelled.")])
         (App.set_layerGroup ∅ (App.set_scanning_overlay Dom.none idle_page)).
Proof.
  split; [reflexivity|].
  apply (cancelScanning_when_idle zeros
           [App.MapClick (Js.lit 1) (Js.lit 2);
            App.Settle 0 (ok_response example_with_capacity);
            App.Timeout 0]).
  reflexivity.
Defined.

(** What is shown in the metric elements stays through the statements
    that follow [updateMetrics]. *)
Lemma toggleLayer_shows m layers k active isChecked :
  preserves (shows m) (App.toggleLayer layers k active isChecked).
Proof.
  unfold App.toggleLayer, App.on_overlayLayerGroup,
         App.addTo_overlayLayerGroup.
  destruct isChecked, active; preserves_struct;
    try (intros s Hs; destruct (App.overlayLayerGroup s); exact Hs).
Qed.

Lemma updateLayerControl_shows m layers :
  preserves (shows m) (App.updateLayerControl layers).
Proof.
  unfold App.updateLayerControl, App.createToggle. preserves_struct;
    auto using toggleLayer_shows; frame_assignment.
Qed.

Lemma updateCharts_shows m vol seasonal :
  preserves (shows m) (App.updateCharts vol seasonal).
Proof.
  unfold App.updateCharts. preserves_struct;
    try (intros s Hs; exact Hs); frame_assignment.
Qed.

(** The rest of [startScanning] never asks whether its scan is still the
    current one: whenever a request without a signal settles with a 2xx
    response and a body without error, the metrics of that body are
    shown, whatever [isScanning] is and whatever was requested since. *)
Lemma settle_ok_shows_metrics (s : App.State) r rq st data :
  App.fetches s !! r = Some rq -> App.signal rq = None ->
  Js.truthy_str (Api.error data) = false ->
  shows (Dom.mkMetrics (Api.area data) (Api.volume data)
           (App.fillPct data) (App.fillBar_className (App.fillPct data))
           (Api.avg_elevation data))
    (App.step App.last_declaration s
       (App.Settle r (Api.Response true st (Api.Json data)))).
Proof.
  intros Hr Hsig Herr.
  unfold App.step, App.handle.
  cbv [mbind Stmt.M_bind Stmt.gets Stmt.modify]. rewrite Hr.
  unfold App.settled. rewrite Hsig.
  cbn [App.startScanning_rest_of]. unfold App.startScanning_rest.
  apply ends_in_try_catch_finally.
  - unfold App.await_data. cbn [negb]. rewrite Herr.
    apply ends_in_after_ret, ends_in_bind.
    + unfold App.apply_result.
      do 3 apply ends_in_after_modify.
      apply ends_in_bind; [intros s1; reflexivity|]. intros _.
      apply preserves_bind; [apply updateCharts_shows|]. intros _.
      apply updateLayerControl_shows.
    + intros _. unfold App.showToast. preserves_struct; frame_assignment.
  - intros e. unfold App.report_failure, App.showToast.
    preserves_struct; frame_assignment.
  - unfold App.setTimeout. preserves_struct; frame_assignment.
Qed.

(** On a page where [startScanning] is the first declaration, a result that
    arrives for a cancelled scan is dropped: the request was given the
    signal that [cancelScanning] aborts. *)
Lemma first_declaration_drops_cancelled_result :
  let s' := App.step App.first_declaration cancelled_page_1
              (App.Settle 0 (ok_response example_with_capacity)) in
  App.metrics s' = None
  /\ App.layerControl s' = []
  /\ App.toast s'
     = App.toast cancelled_page_1 ++ [(Dom.info, "Analysis Cancelled")].
Proof. repeat split; vm_compute; reflexivity. Qed.

(** C1: the scripts do not discard the result of a scan that is no longer
    current.  After click, cancel, and the late arrival of the response,
    the metrics, the trend chart and the layer control show the result of
    the cancelled scan; after click, cancel, second click and the arrival of
    the first response, they show the result for the first point while
    the second request is still in flight. *)
Theorem stale_result_is_applied :
  (App.isScanning cancelled_page = false
   /\ App.metrics cancelled_page = None
   /\ App.layerControl cancelled_page = []
   /\ let s' := App.step App.last_declaration cancelled_page
                  (App.Settle 0 (ok_response example_with_capacity)) in
      Dom.fillPct <$> App.metrics s' = Some (Js.lit 85)
      /\ App.key <$> App.layerControl s' = [analytics; depth]
      /\ App.charts_trend s' <> App.charts_trend cancelled_page)
  /\ (App.body_lat <$> App.fetches superseded_page !! 0%nat = Some (Js.lit 1)
      /\ App.body_lat <$> App.fetches superseded_page !! 1%nat = Some (Js.lit 3)
      /\ let s' := App.step App.last_declaration superseded_page
                     (App.Settle 0 (ok_response example_with_capacity)) in
         App.currentLat s' = Js.lit 3
         /\ App.body_lat <$> App.fetches s' !! 1%nat = Some (Js.lit 3)
         /\ Dom.fillPct <$> App.metrics s' = Some (Js.lit 85)
         /\ App.key <$> App.layerControl s' = [analytics; depth]).
Proof.
  repeat split; try (vm_compute; reflexivity).
  intros H. vm_compute in H. discriminate.
Qed.

(** C2: [cancelScanning] hides the overlay at once, resets [isScanning],
    empties the marker group and shows the notification "Cancelled.", but
    no cancellation reaches the request: no controller exists, the request
    stays in flight without a signal, and when it settles the page reacts
    as if the scan were current, with the error notification and the red
    status line for a failure and with the new metrics for a success. *)
Theorem cancelScanning_does_not_reach_the_request :
  (App.scanning_overlay scanning_page = Dom.flex
   /\ App.isScanning scanning_page = true
   /\ App.scanController scanning_page = None)
  /\ (App.scanning_overlay cancelled_page = Dom.none
      /\ App.isScanning cancelled_page = false
      /\ App.layerGroup cancelled_page = ∅
      /\ last (App.toast cancelled_page) = Some (Dom.info, "Cancelled."))
  /\ (App.fetches cancelled_page !! 0%nat = Some (App.mkRequest (Js.lit 1) (Js.lit 2) None)
      /\ App.aborted cancelled_page = ∅)
  /\ (let s' := App.step App.last_declaration cancelled_page
                  (App.Settle 0 http_500) in
      last (App.toast s')
        = Some (Dom.error, "Analysis Failed: Analysis Service Failed")
      /\ App.scan_status s' = "Error."
      /\ App.scan_status_red s' = true)
  /\ (let s' := App.step App.last_declaration cancelled_page
                  (App.Settle 0 (ok_response example_with_capacity)) in
      Dom.fillPct <$> App.metrics s' = Some (Js.lit 85)
      /\ last (App.toast s') = Some (Dom.success, "Analysis Complete.")).
Proof. repeat split; vm_compute; reflexivity. Qed.
(** ** The charts *)

Lemma Array_from_random (f : Js.number -> Js.number) (n : nat)
    (s : App.State) :
  Stmt.Array_from n (r ← App.Math_random; mret (f r)) s
  = (Stmt.Normal
       ((λ i, f (App.random s (App.randomCalls s + i)%nat)) <$> seq 0 n),
     App.set_randomCalls (App.randomCalls s + n)%nat s).
Proof.
  revert s. induction n as [|n IH]; intros s.
  - cbn. rewrite Nat.add_0_r. destruct s; reflexivity.
  - cbn [Stmt.Array_from]. unfold mbind at 1 2, Stmt.M_bind at 1 2.
    unfold mbind at 1, Stmt.M_bind at 1, App.Math_random at 1.
    cbn [mret Stmt.M_ret]. rewrite IH.
    cbn [App.random App.randomCalls App.set_randomCalls].
    unfold mret, Stmt.M_ret.
    replace (S (App.randomCalls s) + n)%nat
      with (App.randomCalls s + S n)%nat by lia.
    do 2 f_equal. cbn [seq fmap list_fmap]. rewrite Nat.add_0_r. f_equal.
    rewrite <- seq_shift, <- list_fmap_compose.
    apply list_fmap_ext. intros _ i _. cbn. do 2 f_equal. lia.
Qed.

(** The page after [updateCharts]. *)
Lemma updateCharts_page (v : Js.number) (seasonal : option Api.Seasonal)
    (s : App.State) :
  let trend :=
    (λ i, Some (Js.mul (Js.parseFloat v)
                  (Js.add (Js.lit 0.8)
                     (Js.mul (App.random s (App.randomCalls s + i)%nat)
                        (Js.lit 0.4)))))
      <$> seq 0 12 in
  let s1 := App.set_charts_trend trend
              (App.set_randomCalls (App.randomCalls s + 12)%nat s) in
  App.updateCharts v seasonal s
  = (Stmt.Normal tt,
     match seasonal with
     | Some se =>
         App.set_charts_seasonal
           [Api.summer se; Api.monsoon se; Api.winter se] s1
     | None => s1
     end).
Proof.
  intros trend s1. unfold App.updateCharts.
  unfold mbind at 1, Stmt.M_bind at 1.
  rewrite (Array_from_random
             (λ r, Js.mul (Js.parseFloat v)
                     (Js.add (Js.lit 0.8) (Js.mul r (Js.lit 0.4))))).
  rewrite <- list_fmap_compose.
  destruct seasonal; reflexivity.
Qed.






(** ** The layer control *)

Section Owned.
Implicit Types (g : gmap nat Leaflet.TileLayer) (c : list App.Toggle).

Lemma owned_empty c : owned ∅ c.
Proof. intros i l Hi. rewrite lookup_empty in Hi. discriminate. Qed.

Lemma owned_app g c t : owned g c -> owned g (c ++ [t]).
Proof.
  intros Ho i l Hi. destruct (Ho i l Hi) as (t0 & Ht0 & Hk & Ha).
  exists t0. split; [apply elem_of_app; left; exact Ht0 | auto].
Qed.

Lemma owned_app_active g c k lbl col layers new tile :
  Leaflet.made_for tile = k -> owned g c ->
  owned (Leaflet.addLayer new tile g)
    (c ++ [App.mkToggle k lbl col true (Some new) layers]).
Proof.
  intros Hk Ho i l. unfold Leaflet.addLayer. rewrite lookup_insert.
  case_decide as Hi.
  - intros [= <-]. eexists. split; [apply elem_of_app; right; left|].
    subst; split; reflexivity.
  - intros Hl. exact (owned_app g c _ Ho i l Hl).
Qed.

Lemma owned_without g c n t t' :
  c !! n = Some t -> owned g c ->
  owned (without (App.activeLayer t) g) (<[n := t']> c)
  /\ forall i l, without (App.activeLayer t) g !! i = Some l ->
       exists t0, t0 ∈ <[n := t']> c /\ t0 ∈ c /\ t0 <> t
         /\ App.key t0 = Leaflet.made_for l /\ App.activeLayer t0 = Some i.
Proof.
  intros Hn Ho.
  assert (H : forall i l, without (App.activeLayer t) g !! i = Some l ->
       exists t0, t0 ∈ <[n := t']> c /\ t0 ∈ c /\ t0 <> t
         /\ App.key t0 = Leaflet.made_for l /\ App.activeLayer t0 = Some i).
  { intros i l Hi.
    assert (Hg : g !! i = Some l /\ App.activeLayer t <> Some i).
    { unfold without, Leaflet.removeLayer in Hi.
      destruct (App.activeLayer t) as [old|].
      - apply lookup_delete_Some in Hi as [Hne Hi].
        split; [exact Hi | congruence].
      - split; [exact Hi | discriminate]. }
    destruct Hg as [Hg Hne].
    destruct (Ho i l Hg) as (t0 & Ht0 & Hk & Ha).
    exists t0. apply list_elem_of_lookup in Ht0 as Hm.
    destruct Hm as [m Hm].
    assert (t0 <> t) by congruence.
    assert (m <> n) by congruence.
    split; [|auto].
    apply list_elem_of_lookup. exists m.
    rewrite list_lookup_insert_ne by congruence. exact Hm. }
  split; [|exact H].
  intros i l Hi. destruct (H i l Hi) as (t0 & Ht0 & _ & _ & Hk & Ha).
  exists t0. auto.
Qed.

Lemma owned_toggle_off g c n t lbl col layers :
  c !! n = Some t -> owned g c ->
  owned (without (App.activeLayer t) g)
    (<[n := App.mkToggle (App.key t) lbl col false None layers]> c).
Proof. intros Hn Ho. apply (owned_without g c n t _ Hn Ho). Qed.

Lemma owned_toggle_on g c n t lbl col layers new tile :
  c !! n = Some t -> owned g c -> Leaflet.made_for tile = App.key t ->
  owned (Leaflet.addLayer new tile (without (App.activeLayer t) g))
    (<[n := App.mkToggle (App.key t) lbl col true (Some new) layers]> c).
Proof.
  intros Hn Ho Hk i l. unfold Leaflet.addLayer. rewrite lookup_insert.
  case_decide as Hi.
  - intros [= <-]. eexists. split.
    + apply list_elem_of_lookup. exists n.
      apply list_lookup_insert_eq. eapply lookup_lt_Some, Hn.
    + subst. split; [symmetry; exact Hk | reflexivity].
  - intros Hl. exact (proj1 (owned_without g c n t _ Hn Ho) i l Hl).
Qed.

Lemma keys_insert c n t t' :
  c !! n = Some t -> App.key t' = App.key t ->
  App.key <$> <[n := t']> c = App.key <$> c.
Proof.
  intros Hn Hk. rewrite list_fmap_insert, Hk.
  apply list_insert_id. rewrite list_lookup_fmap, Hn. reflexivity.
Qed.

(** Two overlays of one key are the active layer of one toggle. *)
Lemma owned_one_overlay_per_key g c :
  owned g c -> NoDup (App.key <$> c) -> one_overlay_per_key g.
Proof.
  intros Ho Hnd i j li lj Hi Hj Hk.
  destruct (Ho i li Hi) as (ti & Hti & Hki & Hai).
  destruct (Ho j lj Hj) as (tj & Htj & Hkj & Haj).
  apply list_elem_of_lookup in Hti as [m Hm].
  apply list_elem_of_lookup in Htj as [n Hn].
  assert (m = n).
  { eapply NoDup_lookup; [exact Hnd | |];
      rewrite list_lookup_fmap; [rewrite Hm | rewrite Hn]; cbn;
      [reflexivity | congruence]. }
  subst. congruence.
Qed.

End Owned.

(** [createToggle], case by case. *)
Lemma createToggle_page layers k lbl col dflt (s : App.State) :
  App.createToggle (Some layers) k lbl col dflt s
  = if negb (Js.truthy_str (layers !! key_name k)) then (Stmt.Normal tt, s)
    else if dflt then
      match App.overlayLayerGroup s with
      | Some g =>
          (Stmt.Normal tt,
           App.set_layerControl
             (App.layerControl s
                ++ [App.mkToggle k lbl col true (Some (S (App.lastId s)))
                      layers])
             (App.set_overlayLayerGroup
                (Some (Leaflet.addLayer (S (App.lastId s))
                         (overlay_of layers k) g))
                (App.set_lastId (S (App.lastId s)) s)))
      | None => (Stmt.Throw (Stmt.TypeError "overlayLayerGroup is null"), s)
      end
    else
      (Stmt.Normal tt,
       App.set_layerControl
         (App.layerControl s ++ [App.mkToggle k lbl col false None layers]) s).
Proof.
  unfold App.createToggle, App.toggleLayer.
  destruct (negb _); [reflexivity|]. destruct dflt; [|reflexivity].
  cbv [mbind Stmt.M_bind Stmt.skip mret Stmt.M_ret App.addTo_overlayLayerGroup
       Stmt.modify].
  destruct (App.overlayLayerGroup s); reflexivity.
Qed.

Lemma createToggle_building ks layers k lbl col dflt (s : App.State) :
  k ∉ ks -> (dflt = true <-> k = analytics \/ k = depth) ->
  building layers ks s ->
  exists s',
    App.createToggle (Some layers) k lbl col dflt s = (Stmt.Normal tt, s')
    /\ building layers (k :: ks) s'.
Proof.
  intros Hk Hd [[Hown Hnd Hgrp Hst] [g Hg] Hks Hpres Hchk].
  rewrite createToggle_page.
  destruct (negb _) eqn:Hpresent.
  { eexists; split; [reflexivity|].
    split; [split; assumption | eauto | | assumption | assumption].
    intros t Ht. right. apply Hks, Ht. }
  apply negb_false_iff in Hpresent.
  assert (Hfresh : k ∉ App.key <$> App.layerControl s).
  { intros Hin. apply list_elem_of_fmap in Hin as (t & -> & Ht).
    apply Hk, Hks, Ht. }
  destruct dflt.
  - rewrite Hg. eexists; split; [reflexivity|].
    split; [split| | | |]; cbn.
    + intros g' [= <-]. apply owned_app_active; [reflexivity|].
      apply Hown, Hg.
    + rewrite fmap_app. apply NoDup_app. split; [exact Hnd|]. split.
      * intros x Hx Hx'. cbn in Hx'. apply list_elem_of_singleton in Hx'.
        subst. contradiction.
      * cbn. apply NoDup_singleton.
    + discriminate.
    + intros t i Ht Ha. apply elem_of_app in Ht as [Ht|Ht].
      * specialize (Hst t i Ht Ha). lia.
      * apply list_elem_of_singleton in Ht. subst. cbn in Ha.
        injection Ha as <-. lia.
    + eauto.
    + intros t Ht. apply elem_of_app in Ht as [Ht|Ht].
      * right. apply Hks, Ht.
      * apply list_elem_of_singleton in Ht. subst. left.
    + intros t Ht. apply elem_of_app in Ht as [Ht|Ht]; [apply Hpres, Ht|].
      apply list_elem_of_singleton in Ht. subst. cbn. auto.
    + intros t Ht. apply elem_of_app in Ht as [Ht|Ht]; [apply Hchk, Ht|].
      apply list_elem_of_singleton in Ht. subst. cbn.
      split; [exact Hd | split; eauto].
  - eexists; split; [reflexivity|].
    split; [split| | | |]; cbn.
    + intros g' Hg'. apply owned_app, Hown, Hg'.
    + rewrite fmap_app. apply NoDup_app. split; [exact Hnd|]. split.
      * intros x Hx Hx'. cbn in Hx'. apply list_elem_of_singleton in Hx'.
        subst. contradiction.
      * cbn. apply NoDup_singleton.
    + rewrite Hg. discriminate.
    + intros t i Ht Ha. apply elem_of_app in Ht as [Ht|Ht].
      * exact (Hst t i Ht Ha).
      * apply list_elem_of_singleton in Ht. subst. discriminate.
    + eauto.
    + intros t Ht. apply elem_of_app in Ht as [Ht|Ht].
      * right. apply Hks, Ht.
      * apply list_elem_of_singleton in Ht. subst. left.
    + intros t Ht. apply elem_of_app in Ht as [Ht|Ht]; [apply Hpres, Ht|].
      apply list_elem_of_singleton in Ht. subst. cbn. auto.
    + intros t Ht. apply elem_of_app in Ht as [Ht|Ht]; [apply Hchk, Ht|].
      apply list_elem_of_singleton in Ht. subst. cbn.
      split; [exact Hd|]. split; [discriminate | intros [? [=]]].
Qed.

(** A key that is none of the keys of a list written out. *)
Ltac not_in_keys :=
  let H := fresh in
  intros H;
  repeat (apply elem_of_cons in H as [H|H]; [discriminate H|]);
  apply elem_of_nil in H; exact H.

(** Sequencing after a statement whose outcome is known. *)
Lemma then_normal {S : Type} (m rest : Stmt.M S unit) (s s' : S) :
  m s = (Stmt.Normal tt, s') -> (m;; rest) s = rest s'.
Proof. intros H. unfold mbind, Stmt.M_bind. rewrite H. reflexivity. Qed.

(** [updateLayerControl] completes and leaves a control that [building]
    describes, whatever the page was. *)
Lemma updateLayerControl_building layers (s : App.State) :
  exists s',
    App.updateLayerControl (Some layers) s = (Stmt.Normal tt, s')
    /\ building layers
         [monsoon; summer; winter; water_mask; depth; analytics] s'.
Proof.
  unfold App.updateLayerControl.
  rewrite (then_normal (Stmt.modify _) _ s _ eq_refl).
  rewrite (then_normal (Stmt.modify _) _ _ _ eq_refl).
  assert (B0 : building layers []
                 (App.set_layerControl []
                    (App.set_overlayLayerGroup (Some ∅) s))).
  { split; [split| | | |]; cbn.
    - intros g [= <-]. apply owned_empty.
    - apply NoDup_nil_2.
    - discriminate.
    - intros t i Ht. apply elem_of_nil in Ht. contradiction.
    - eauto.
    - intros t Ht. apply elem_of_nil in Ht. contradiction.
    - intros t Ht. apply elem_of_nil in Ht. contradiction.
    - intros t Ht. apply elem_of_nil in Ht. contradiction. }
  destruct (createToggle_building [] layers analytics
              "Depth Contours" "#ffffff" true _
              ltac:(not_in_keys) ltac:(split; [intros _; auto | intros _; reflexivity]) B0)
    as (s1 & E1 & B1).
  rewrite (then_normal _ _ _ _ E1).
  destruct (createToggle_building [analytics] layers depth
              "Bathymetry" "#0077b6" true _
              ltac:(not_in_keys) ltac:(split; [intros _; auto | intros _; reflexivity]) B1)
    as (s2 & E2 & B2).
  rewrite (then_normal _ _ _ _ E2).
  destruct (createToggle_building [depth; analytics] layers water_mask
              "Water Extent" "#00FFFF" false _
              ltac:(not_in_keys) ltac:(split; [intros [=] | intros [[=]|[=]]]) B2)
    as (s3 & E3 & B3).
  rewrite (then_normal _ _ _ _ E3).
  destruct (createToggle_building [water_mask; depth; analytics] layers winter
              "Winter Spread" "#0891b2" false _
              ltac:(not_in_keys) ltac:(split; [intros [=] | intros [[=]|[=]]]) B3)
    as (s4 & E4 & B4).
  rewrite (then_normal _ _ _ _ E4).
  destruct (createToggle_building [winter; water_mask; depth; analytics] layers summer
              "Summer Spread" "#fb923c" false _
              ltac:(not_in_keys) ltac:(split; [intros [=] | intros [[=]|[=]]]) B4)
    as (s5 & E5 & B5).
  rewrite (then_normal _ _ _ _ E5).
  destruct (createToggle_building [summer; winter; water_mask; depth; analytics] layers monsoon
              "Monsoon Spread" "#16a34a" false _
              ltac:(not_in_keys) ltac:(split; [intros [=] | intros [[=]|[=]]]) B5)
    as (s6 & E6 & B6).
  rewrite (then_normal _ _ _ _ E6).
  eexists; split; [reflexivity|].
  destruct B6 as [[? ? ? ?] ? ? ? ?]. split; [split|..]; assumption.
Qed.

Lemma updateLayerControl_layer_invariant layers :
  preserves layer_invariant (App.updateLayerControl layers).
Proof.
  intros s _. destruct layers as [layers|].
  - destruct (updateLayerControl_building layers s)
      as (s' & -> & [H _ _ _ _]).
    exact H.
  - split; cbn.
    + intros g [= <-]. apply owned_empty.
    + apply NoDup_nil_2.
    + discriminate.
    + intros t i Ht. apply elem_of_nil in Ht. contradiction.
Qed.

(** [onChange] on a control that has a toggle for the key. *)
Lemma onChange_page k isChecked (s : App.State) n t g :
  list_find (λ t, App.key t = k) (App.layerControl s) = Some (n, t) ->
  App.overlayLayerGroup s = Some g ->
  App.onChange k isChecked s
  = (Stmt.Normal tt,
     if isChecked then
       App.set_layerControl
         (<[n := App.mkToggle (App.key t) (App.label t) (App.color t) true
                   (Some (S (App.lastId s))) (App.closure_layers t)]>
            (App.layerControl s))
         (App.set_overlayLayerGroup
            (Some (Leaflet.addLayer (S (App.lastId s))
                     (overlay_of (App.closure_layers t) (App.key t))
                     (without (App.activeLayer t) g)))
            (App.set_lastId (S (App.lastId s)) s))
     else
       App.set_layerControl
         (<[n := App.mkToggle (App.key t) (App.label t) (App.color t) false
                   None (App.closure_layers t)]> (App.layerControl s))
         (App.set_overlayLayerGroup
            (Some (without (App.activeLayer t) g)) s)).
Proof.
  intros Hfind Hg. unfold App.onChange.
  cbv [mbind Stmt.M_bind Stmt.gets]. rewrite Hfind.
  unfold App.toggleLayer, without.
  destruct isChecked, (App.activeLayer t) as [old|];
    cbv [mbind Stmt.M_bind Stmt.skip mret Stmt.M_ret Stmt.modify
         App.on_overlayLayerGroup App.addTo_overlayLayerGroup];
    cbn [App.overlayLayerGroup App.set_overlayLayerGroup App.set_lastId
         App.lastId App.layerControl App.set_layerControl];
    rewrite ?Hg; first [reflexivity | destruct s; cbn in *; subst; reflexivity].
Qed.

Lemma elem_of_insert_inv {A : Type} (l : list A) n x y :
  y ∈ <[n := x]> l -> y = x \/ y ∈ l.
Proof.
  intros Hy. apply list_elem_of_lookup in Hy as [m Hm].
  apply list_lookup_insert_Some in Hm as [(_ & -> & _)|[_ Hm]].
  - left; reflexivity.
  - right. apply list_elem_of_lookup. eauto.
Qed.

Lemma onChange_layer_invariant k isChecked :
  preserves layer_invariant (App.onChange k isChecked).
Proof.
  intros s Hinv. pose proof Hinv as [Hown Hnd Hgrp Hst].
  destruct (list_find (λ t, App.key t = k) (App.layerControl s))
    as [[n t]|] eqn:Hfind.
  2:{ unfold App.onChange. cbv [mbind Stmt.M_bind Stmt.gets].
      rewrite Hfind. exact Hinv. }
  pose proof Hfind as Hfind'.
  apply list_find_Some in Hfind' as (Hn & _ & _).
  destruct (App.overlayLayerGroup s) as [g|] eqn:Hg.
  2:{ rewrite Hgrp in Hn by reflexivity. discriminate. }
  rewrite (onChange_page k isChecked s n t g Hfind Hg).
  destruct isChecked; cbn [snd]; split; cbn.
  - intros g' [= <-]. apply owned_toggle_on; [exact Hn | auto | reflexivity].
  - rewrite (keys_insert _ n t) by (exact Hn || reflexivity). exact Hnd.
  - discriminate.
  - intros t' i Ht' Ha. apply elem_of_insert_inv in Ht' as [->|Ht'].
    + cbn in Ha. injection Ha as <-. lia.
    + specialize (Hst t' i Ht' Ha). lia.
  - intros g' [= <-]. apply owned_toggle_off; [exact Hn | auto].
  - rewrite (keys_insert _ n t) by (exact Hn || reflexivity). exact Hnd.
  - discriminate.
  - intros t' i Ht' Ha. apply elem_of_insert_inv in Ht' as [->|Ht'].
    + discriminate.
    + exact (Hst t' i Ht' Ha).
Qed.

(** An assignment to a field the invariant of the layer control does not
    read. *)
Ltac frame_layer :=
  lazymatch goal with
  | H : layer_invariant _ |- layer_invariant _ =>
      destruct H; constructor; assumption
  end.

Lemma stamp_layer_invariant : preserves layer_invariant App.stamp.
Proof.
  intros s [Hown Hnd Hgrp Hst]. split; try assumption.
  intros t i Ht Ha. specialize (Hst t i Ht Ha). cbn. lia.
Qed.

Lemma Math_random_layer_invariant : preserves layer_invariant App.Math_random.
Proof. intros s H. cbn. frame_layer. Qed.

Lemma new_AbortController_layer_invariant :
  preserves layer_invariant App.new_AbortController.
Proof. intros s H. cbn. frame_layer. Qed.

Lemma updateCharts_layer_invariant vol seasonal :
  preserves layer_invariant (App.updateCharts vol seasonal).
Proof.
  unfold App.updateCharts. preserves_struct;
    auto using Math_random_layer_invariant; frame_layer.
Qed.

Lemma apply_result_layer_invariant data :
  preserves layer_invariant (App.apply_result data).
Proof.
  unfold App.apply_result, App.updateMetrics. preserves_struct;
    auto using updateCharts_layer_invariant,
               updateLayerControl_layer_invariant;
    frame_layer.
Qed.

Lemma await_data_layer_invariant f r :
  preserves layer_invariant (App.await_data f r).
Proof. unfold App.await_data. preserves_struct. Qed.

Lemma startScanning_rest_layer_invariant b r :
  preserves layer_invariant (App.startScanning_rest_of b r).
Proof.
  destruct b; cbn [App.startScanning_rest_of];
    unfold App.startScanning_rest, App.startScanning_1_rest,
           App.report_failure, App.showToast, App.setTimeout;
    preserves_struct;
    auto using await_data_layer_invariant, apply_result_layer_invariant;
    frame_layer.
Qed.

Lemma startScanning_layer_invariant b :
  preserves layer_invariant (App.startScanning_of b).
Proof.
  destruct b; cbn [App.startScanning_of];
    unfold App.startScanning, App.startScanning_1, App.fetch, App.abort;
    preserves_struct;
    auto using new_AbortController_layer_invariant; frame_layer.
Qed.

Lemma onMapClick_layer_invariant b e :
  preserves layer_invariant
    (App.onMapClick_calling (App.startScanning_of b) e).
Proof.
  unfold App.onMapClick_calling. preserves_struct;
    auto using stamp_layer_invariant, startScanning_layer_invariant;
    frame_layer.
Qed.

Lemma handle_layer_invariant b ev :
  preserves layer_invariant (App.handle b ev).
Proof.
  destruct ev; cbn [App.handle];
    unfold App.setMode, App.cancelScanning, App.triggerAI, App.hideOverlay,
           App.showToast, App.setTimeout, App.abort;
    preserves_struct;
    auto using stamp_layer_invariant, onMapClick_layer_invariant,
               onChange_layer_invariant, startScanning_rest_layer_invariant;
    frame_layer.
Qed.

Lemma loaded_layer_invariant rnd : layer_invariant (App.loaded rnd).
Proof.
  split; cbn.
  - discriminate.
  - apply NoDup_nil_2.
  - reflexivity.
  - intros t i Ht. apply elem_of_nil in Ht. contradiction.
Qed.

Lemma run_layer_invariant b evs s :
  layer_invariant s -> layer_invariant (App.run b s evs).
Proof.
  revert s. induction evs as [|ev evs IH]; intros s Hs; [exact Hs|].
  apply IH. apply (handle_layer_invariant b ev s Hs).
Qed.

(** ** The layer control of the exported script *)

Ltac frame_export_layer :=
  lazymatch goal with
  | H : export_layer_invariant _ |- export_layer_invariant _ =>
      destruct H; constructor; assumption
  end.

Lemma export_stamp_invariant :
  preserves export_layer_invariant FrontendExport.stamp.
Proof. intros s H. cbn. frame_export_layer. Qed.

Lemma export_owned_marker g c new m :
  export_owned g c ->
  export_owned (Leaflet.addLayer new (FrontendExport.marker m) g) c.
Proof.
  intros Ho i l. unfold Leaflet.addLayer. rewrite lookup_insert.
  case_decide; [discriminate | apply Ho].
Qed.

Lemma export_owned_empty c : export_owned ∅ c.
Proof. intros i l Hi. rewrite lookup_empty in Hi. discriminate. Qed.

Lemma export_add_marker_invariant :
  preserves export_layer_invariant FrontendExport.add_marker.
Proof.
  unfold FrontendExport.add_marker. preserves_struct.
  - apply export_stamp_invariant.
  - destruct H as [Hown Hnd]. split; [|exact Hnd]. cbn.
    apply export_owned_marker, Hown.
Qed.

Lemma export_clearLayers_invariant :
  preserves export_layer_invariant
    (Stmt.modify (λ s, FrontendExport.set_layerGroup
                         (Leaflet.clearLayers (FrontendExport.layerGroup s)) s)).
Proof.
  intros s [Hown Hnd]. split; [|exact Hnd]. cbn. apply export_owned_empty.
Qed.

Lemma export_addLayerToggle_building ks layers k i nm col
    (s : FrontendExport.State) :
  k ∉ ks -> export_building ks s ->
  exists s',
    FrontendExport.addLayerToggle layers k i nm col s = (Stmt.Normal tt, s')
    /\ export_building (k :: ks) s'.
Proof.
  intros Hk [[Hown Hnd] Hks]. unfold FrontendExport.addLayerToggle.
  destruct (negb _).
  { eexists; split; [reflexivity|]. split; [split; assumption|].
    intros t Ht. right. apply Hks, Ht. }
  eexists; split; [reflexivity|]. split; [split|]; cbn.
  - intros j l Hj. destruct (Hown j l Hj) as (t & Ht & Hs & Hl).
    exists t. split; [apply elem_of_app; left; exact Ht | auto].
  - rewrite fmap_app. apply NoDup_app. split; [exact Hnd|]. split.
    + intros x Hx Hx'. cbn in Hx'. apply list_elem_of_singleton in Hx'.
      subst. apply list_elem_of_fmap in Hx as (t & Ht1 & Ht2).
      apply Hk. rewrite Ht1. apply Hks, Ht2.
    + cbn. apply NoDup_singleton.
  - intros t Ht. apply elem_of_app in Ht as [Ht|Ht].
    + right. apply Hks, Ht.
    + apply list_elem_of_singleton in Ht. subst. left.
Qed.

Lemma export_updateLayers_invariant layers :
  preserves export_layer_invariant (FrontendExport.updateLayers layers).
Proof.
  intros s Hs. destruct layers as [layers|]; [|exact Hs]. clear Hs.
  unfold FrontendExport.updateLayers.
  rewrite (then_normal (Stmt.modify _) _ s _ eq_refl).
  rewrite (then_normal FrontendExport.add_marker _ _ _ eq_refl).
  rewrite (then_normal (Stmt.modify _) _ _ _ eq_refl).
  match goal with
  | |- context [(_ ;; _) ?s0] =>
      assert (B0 : export_building [] s0)
  end.
  { split; [split|]; cbn.
    - apply export_owned_marker, export_owned_empty.
    - apply NoDup_nil_2.
    - intros t Ht. apply elem_of_nil in Ht. contradiction. }
  destruct (export_addLayerToggle_building [] layers water_mask
              "water" "Current Water Extent" "#00FFFF" _
              ltac:(not_in_keys) B0) as (s1 & E1 & B1).
  rewrite (then_normal _ _ _ _ E1).
  destruct (export_addLayerToggle_building [water_mask] layers depth
              "depth" "Bathymetry (Depth)" "#08519c" _
              ltac:(not_in_keys) B1) as (s2 & E2 & B2).
  rewrite (then_normal _ _ _ _ E2).
  destruct (export_addLayerToggle_building [depth; water_mask] layers
              analytics "contour" "Depth Contours" "#ffffff" _
              ltac:(not_in_keys) B2) as (s3 & E3 & B3).
  rewrite (then_normal _ _ _ _ E3).
  destruct (export_addLayerToggle_building [analytics; depth; water_mask]
              layers winter "winter" "Winter Extent" "#0891b2" _
              ltac:(not_in_keys) B3) as (s4 & E4 & B4).
  rewrite (then_normal _ _ _ _ E4).
  destruct (export_addLayerToggle_building
              [winter; analytics; depth; water_mask]
              layers summer "summer" "Summer Extent" "#ea580c" _
              ltac:(not_in_keys) B4) as (s5 & E5 & B5).
  rewrite (then_normal _ _ _ _ E5).
  destruct (export_addLayerToggle_building
              [summer; winter; analytics; depth; water_mask]
              layers monsoon "monsoon" "Monsoon Extent" "#16a34a" _
              ltac:(not_in_keys) B5) as (s6 & E6 & B6).
  rewrite (then_normal _ _ _ _ E6).
  destruct B6 as [[? ?] _]. split; assumption.
Qed.

Lemma export_onChange_invariant i isChecked :
  preserves export_layer_invariant (FrontendExport.onChange i isChecked).
Proof.
  intros s Hinv. pose proof Hinv as [Hown Hnd].
  unfold FrontendExport.onChange. cbv [mbind Stmt.M_bind Stmt.gets].
  destruct (list_find _ _) as [[n t]|] eqn:Hfind; [|exact Hinv].
  apply list_find_Some in Hfind as (Hn & _ & _).
  assert (Hkeys :
    (λ t, Leaflet.made_for (FrontendExport.layer t))
      <$> <[n := FrontendExport.mkToggle (FrontendExport.id t)
                   (FrontendExport.name t) (FrontendExport.color t)
                   isChecked (FrontendExport.layer_stamp t)
                   (FrontendExport.layer t)]> (FrontendExport.layerControl s)
    = (λ t, Leaflet.made_for (FrontendExport.layer t))
        <$> FrontendExport.layerControl s).
  { rewrite list_fmap_insert. apply list_insert_id.
    rewrite list_lookup_fmap, Hn. reflexivity. }
  assert (Hkept : forall j l,
    FrontendExport.layerGroup s !! j = Some (FrontendExport.tile l) ->
    exists t0,
      t0 ∈ <[n := FrontendExport.mkToggle (FrontendExport.id t)
                     (FrontendExport.name t) (FrontendExport.color t)
                     isChecked (FrontendExport.layer_stamp t)
                     (FrontendExport.layer t)]> (FrontendExport.layerControl s)
      /\ FrontendExport.layer_stamp t0 = j /\ FrontendExport.layer t0 = l).
  { intros j l Hj. destruct (Hown j l Hj) as (t0 & Ht0 & Hs & Hl).
    apply list_elem_of_lookup in Ht0 as [m Hm].
    destruct (decide (m = n)) as [->|Hne].
    - assert (t0 = t) by congruence. subst t0.
      eexists. split.
      + apply list_elem_of_lookup. exists n.
        apply list_lookup_insert_eq. eapply lookup_lt_Some, Hn.
      + split; [exact Hs | exact Hl].
    - exists t0. split; [|auto].
      apply list_elem_of_lookup. exists m.
      rewrite list_lookup_insert_ne by congruence. exact Hm. }
  destruct isChecked; cbv [Stmt.modify]; cbn [snd]; split; cbn;
    try (rewrite Hkeys; exact Hnd).
  - intros j l. unfold Leaflet.addLayer. rewrite lookup_insert.
    case_decide as Hj.
    + intros [= <-]. eexists. split.
      * apply list_elem_of_lookup. exists n.
        apply list_lookup_insert_eq. eapply lookup_lt_Some, Hn.
      * split; [exact Hj | reflexivity].
    + apply Hkept.
  - intros j l Hj. unfold Leaflet.removeLayer in Hj.
    apply lookup_delete_Some in Hj as [_ Hj]. apply Hkept, Hj.
Qed.

Lemma export_onMapClick_invariant e :
  preserves export_layer_invariant (FrontendExport.onMapClick e).
Proof.
  unfold FrontendExport.onMapClick, FrontendExport.startAnalysis,
         FrontendExport.fetch.
  repeat first
    [ apply export_clearLayers_invariant
    | apply export_add_marker_invariant
    | preserves_step ];
    frame_export_layer.
Qed.

Lemma export_handle_invariant ev :
  preserves export_layer_invariant (FrontendExport.handle ev).
Proof.
  destruct ev; cbn [FrontendExport.handle];
    unfold FrontendExport.setMode, FrontendExport.cancelScanning,
           FrontendExport.hideOverlay, FrontendExport.startAnalysis_rest,
           FrontendExport.updateMetrics, FrontendExport.showToast;
    repeat first
      [ apply export_onMapClick_invariant
      | apply export_onChange_invariant
      | apply export_updateLayers_invariant
      | apply export_stamp_invariant
      | preserves_step ];
    frame_export_layer.
Qed.

Lemma export_loaded_invariant : export_layer_invariant FrontendExport.loaded.
Proof. split; cbn; [apply export_owned_empty | apply NoDup_nil_2]. Qed.

Lemma export_run_invariant evs s :
  export_layer_invariant s ->
  export_layer_invariant (FrontendExport.run s evs).
Proof.
  revert s. induction evs as [|ev evs IH]; intros s Hs; [exact Hs|].
  apply IH. apply (export_handle_invariant ev s Hs).
Qed.

Lemma export_owned_one_overlay_per_key g c :
  export_owned g c ->
  NoDup ((λ t, Leaflet.made_for (FrontendExport.layer t)) <$> c) ->
  export_one_overlay_per_key g.
Proof.
  intros Ho Hnd i j li lj Hi Hj Hk.
  destruct (Ho i li Hi) as (ti & Hti & Hsi & Hli).
  destruct (Ho j lj Hj) as (tj & Htj & Hsj & Hlj).
  apply list_elem_of_lookup in Hti as [m Hm].
  apply list_elem_of_lookup in Htj as [n Hn].
  assert (m = n).
  { eapply NoDup_lookup; [exact Hnd | |].
    - rewrite list_lookup_fmap, Hm. reflexivity.
    - rewrite list_lookup_fmap, Hn. cbn. rewrite Hli, Hlj, Hk. reflexivity. }
  subst. congruence.
Qed.

(** With distinct keys, the toggle of a key is the one the listener
    finds. *)
Lemma list_find_toggle (c : list App.Toggle) t :
  NoDup (App.key <$> c) -> t ∈ c ->
  exists n, list_find (λ t', App.key t' = App.key t) c = Some (n, t).
Proof.
  intros Hnd Ht. apply list_elem_of_lookup in Ht as [n Hn].
  exists n. apply list_find_Some. split; [exact Hn|]. split; [reflexivity|].
  intros j y Hj Hlt Hk.
  assert (j = n); [|lia].
  eapply NoDup_lookup; [exact Hnd | |].
  - rewrite list_lookup_fmap, Hj. cbn. rewrite Hk. reflexivity.
  - rewrite list_lookup_fmap, Hn. reflexivity.
Qed.

(** C7: rebuilding the layer control from a layers object that has URLs
    for analytics and depth and for no other of the six keys creates
    exactly two toggles, analytics then depth, both checked and both with
    their tile layer in the new overlay group, which holds nothing else.
    Whatever the layers object is, a toggle exists only for keys that have
    a URL, and a toggle is checked, and its layer on the map, exactly when
    its key is analytics or depth. *)
Theorem updateLayerControl_two_default_toggles
    (s : App.State) (layers : gmap string string) (u1 u2 : string) :
  layers !! "analytics" = Some u1 -> u1 <> "" ->
  layers !! "depth" = Some u2 -> u2 <> "" ->
  (forall k, k <> analytics -> k <> depth -> layers !! key_name k = None) ->
  let s' := (App.updateLayerControl (Some layers) s).2 in
  let i1 := S (App.lastId s) in
  let i2 := S (S (App.lastId s)) in
  App.layerControl s'
  = [App.mkToggle analytics "Depth Contours" "#ffffff" true (Some i1) layers;
     App.mkToggle depth "Bathymetry" "#0077b6" true (Some i2) layers]
  /\ App.overlayLayerGroup s'
     = Some (<[i2 := Leaflet.mkTileLayer u2 (Js.lit 0.9) (Some 5) depth]>
               (<[i1 := Leaflet.mkTileLayer u1 (Js.lit 0.9) (Some 10) analytics]> ∅))
  /\ (forall (layers' : gmap string string) (x : App.State) t,
        t ∈ App.layerControl (App.updateLayerControl (Some layers') x).2 ->
        Js.truthy_str (layers' !! key_name (App.key t)) = true
        /\ (App.checked t = true <->
            App.key t = analytics \/ App.key t = depth)
        /\ (App.checked t = true <-> is_Some (App.activeLayer t))).
Proof.
  intros H1 Hu1 H2 Hu2 Hnone s' i1 i2.
  assert (Hs' : s' = App.set_layerControlPanel_hidden false
    (App.set_layerControl
       [App.mkToggle analytics "Depth Contours" "#ffffff" true (Some i1) layers;
        App.mkToggle depth "Bathymetry" "#0077b6" true (Some i2) layers]
       (App.set_overlayLayerGroup
          (Some (<[i2 := Leaflet.mkTileLayer u2 (Js.lit 0.9) (Some 5) depth]>
                   (<[i1 := Leaflet.mkTileLayer u1 (Js.lit 0.9) (Some 10) analytics]>
                      ∅)))
          (App.set_lastId i2 s)))).
  { subst s'. unfold App.updateLayerControl.
    rewrite (then_normal (Stmt.modify _) _ s _ eq_refl).
    rewrite (then_normal (Stmt.modify _) _ _ _ eq_refl).
    erewrite then_normal.
    2:{ rewrite createToggle_page. cbn [key_name].
        rewrite H1, (truthy_str_Some u1 Hu1). reflexivity. }
    erewrite then_normal.
    2:{ rewrite createToggle_page. cbn [key_name].
        rewrite H2, (truthy_str_Some u2 Hu2). reflexivity. }
    erewrite then_normal.
    2:{ rewrite createToggle_page, Hnone by discriminate. reflexivity. }
    erewrite then_normal.
    2:{ rewrite createToggle_page, Hnone by discriminate. reflexivity. }
    erewrite then_normal.
    2:{ rewrite createToggle_page, Hnone by discriminate. reflexivity. }
    erewrite then_normal.
    2:{ rewrite createToggle_page, Hnone by discriminate. reflexivity. }
    unfold overlay_of, Leaflet.addLayer. cbn [key_name].
    rewrite H1, H2. reflexivity. }
  rewrite Hs'. split; [reflexivity|]. split; [reflexivity|].
  intros layers' x t Ht.
  destruct (updateLayerControl_building layers' x)
    as (x' & E & [_ _ _ Hpres Hchk]).
  rewrite E in Ht. cbn [snd] in Ht.
  destruct (Hpres t Ht) as [_ Hp]. destruct (Hchk t Ht) as [Hc Ha].
  split; [exact Hp|]. split; assumption.
Qed.

Lemma updateLayerControl_two_default_toggles_witness :
  App.key <$> App.layerControl
    (App.updateLayerControl (Some example_layers) (App.loaded zeros)).2
  = [analytics; depth].
Proof.
  pose proof (updateLayerControl_two_default_toggles (App.loaded zeros)
                example_layers
                "https://tiles/analytics" "https://tiles/depth") as H.
  cbv zeta in H.
  destruct H as (Hc & _).
  - reflexivity.
  - discriminate.
  - reflexivity.
  - discriminate.
  - intros [] Ha Hd; try reflexivity; congruence.
  - rewrite Hc. reflexivity.
Defined.

(** C6: on every page the dashboard reaches, whatever the events were, the
    overlay group on the map holds at most one tile layer made for any one
    key.  In particular, a change event that checks a toggle whose layer is
    already on the map removes that layer from the group and adds one new
    layer, and the group again holds at most one layer for the key.  The
    layer group of the exported script, where a toggle adds and removes
    one and the same layer, also holds at most one overlay per key. *)
Theorem at_most_one_overlay_per_key
    (b : App.Binding) (rnd : nat -> Js.number) (evs : list App.Event) :
  let s := App.run b (App.loaded rnd) evs in
  (forall g, App.overlayLayerGroup s = Some g -> one_overlay_per_key g)
  /\ (forall t old g,
        t ∈ App.layerControl s -> App.activeLayer t = Some old ->
        App.overlayLayerGroup s = Some g ->
        let g' := Leaflet.addLayer (S (App.lastId s))
                    (overlay_of (App.closure_layers t) (App.key t))
                    (Leaflet.removeLayer old g) in
        App.overlayLayerGroup (App.step b s (App.Change (App.key t) true))
          = Some g'
        /\ g' !! old = None
        /\ g' !! S (App.lastId s)
           = Some (overlay_of (App.closure_layers t) (App.key t))
        /\ one_overlay_per_key g')
  /\ (forall evs' : list FrontendExport.Event,
        export_one_overlay_per_key
          (FrontendExport.layerGroup
             (FrontendExport.run FrontendExport.loaded evs'))).
Proof.
  intros s.
  assert (Hinv : layer_invariant s)
    by apply run_layer_invariant, loaded_layer_invariant.
  split; [|split].
  - intros g Hg. destruct Hinv as [Hown Hnd _ _].
    eapply owned_one_overlay_per_key; [apply Hown, Hg | exact Hnd].
  - intros t old g Ht Ha Hg g'.
    pose proof Hinv as [Hown Hnd _ Hst].
    destruct (list_find_toggle _ t Hnd Ht) as [n Hfind].
    assert (Hstep : App.overlayLayerGroup
                      (App.step b s (App.Change (App.key t) true))
                    = Some g').
    { unfold App.step, App.handle.
      rewrite (onChange_page _ true s n t g Hfind Hg).
      cbn [snd App.overlayLayerGroup App.set_layerControl
           App.set_overlayLayerGroup].
      rewrite Ha. reflexivity. }
    split; [exact Hstep|]. split; [|split].
    + subst g'. unfold Leaflet.addLayer, Leaflet.removeLayer.
      specialize (Hst t old Ht Ha).
      rewrite lookup_insert_ne by lia. apply lookup_delete_eq.
    + subst g'. unfold Leaflet.addLayer. apply lookup_insert_eq.
    + pose proof (handle_layer_invariant b (App.Change (App.key t) true)
                    s Hinv) as [Hown' Hnd' _ _].
      eapply owned_one_overlay_per_key; [apply Hown', Hstep | exact Hnd'].
  - intros evs'.
    destruct (export_run_invariant evs' _ export_loaded_invariant)
      as [Hown Hnd].
    eapply export_owned_one_overlay_per_key; eassumption.
Qed.

Lemma at_most_one_overlay_per_key_witness :
  exists g',
    App.overlayLayerGroup
      (App.step App.last_declaration idle_page (App.Change analytics true))
    = Some g'
    /\ g' !! 2%nat = None
    /\ one_overlay_per_key g'.
Proof.
  pose proof (at_most_one_overlay_per_key App.last_declaration zeros
                [App.MapClick (Js.lit 1) (Js.lit 2);
                 App.Settle 0 (ok_response example_with_capacity);
                 App.Timeout 0]) as H.
  cbv zeta in H. destruct H as (_ & H & _).
  edestruct (H (App.mkToggle analytics "Depth Contours" "#ffffff" true
                  (Some 2%nat) example_layers)
               2%nat) as (H1 & H2 & _ & H4).
  - vm_compute. left.
  - reflexivity.
  - vm_compute. reflexivity.
  - eexists. split; [exact H1|]. split; [exact H2 | exact H4].
Defined.
(** * Further properties *)

(** ** More on the fill percentage *)

(** Without a usable capacity from the backend, [app.js] shows 0%, in
    red, for every volume that is not positive.  For a positive volume
    the capacity is the binary64 product [volume * 1.5]: the bar shows
    67% for volume 4.52, in both scripts, but 0% for volume 1.5e308,
    where the product overflows to Infinity, and 50% for volume 5e-324,
    where the product is rounded to twice the volume. *)
Theorem fillPct_without_capacity (data : Api.AnalysisData) :
  (Js.opt_gt0 (Api.max_volume data) = false ->
   Js.leb (Api.volume data) Js.zero = true ->
   App.fillPct data = Js.zero
   /\ App.fillBar_className (App.fillPct data) = Dom.bg_red_500)
  /\ (App.fillPct example_without_capacity = Js.lit 67
      /\ FrontendExport.fillPct example_without_capacity = Js.lit 67
      /\ App.capacity huge_volume = Js.Infinity
      /\ App.fillPct huge_volume = Js.zero
      /\ App.capacity tiny_volume = Js.lit 1e-323
      /\ App.fillPct tiny_volume = Js.lit 50).
Proof.
  split; [|vm_compute; repeat split].
  intros Hm Hv.
  assert (Hf : App.fillPct data = Js.zero).
  { unfold App.fillPct, App.capacity. rewrite Hm.
    assert (Hc : Js.gtb (Js.mul (Api.volume data) (Js.lit 1.5)) Js.zero
                 = false).
    { lits. destruct (Api.volume data) as [s|[]| |[] m e];
        try discriminate; try reflexivity.
      pose proof (binary_round_aux_sign true
                    (Z.pos (m * 6755399441055744)) (e + -52) loc_Exact
                    ltac:(lia)) as H.
      unfold Js.mul, SFmul. cbn [xorb].
      destruct (binary_round_aux _ _ _ _ _ _) as [[]|[]| |[] ? ?];
        cbn in H; try discriminate; try contradiction; reflexivity. }
    rewrite Hc. reflexivity. }
  rewrite Hf. split; reflexivity.
Qed.

Lemma fillPct_without_capacity_witness :
  App.fillPct negative_without_capacity = Js.zero.
Proof.
  destruct (fillPct_without_capacity negative_without_capacity) as [H _].
  apply H; reflexivity.
Defined.

(** The exported script divides without looking at the capacity: a result
    with volume 0 and [max_volume] missing or 0 is shown as [NaN%], with
    the class of the middle bucket.  [app.js] shows 0% there. *)
Theorem export_fillPct_NaN (data : Api.AnalysisData) :
  Js.strict_eq (Api.volume data) Js.zero = true ->
  Js.truthy_num (Api.max_volume data) = false ->
  FrontendExport.fillPct data = Js.NaN
  /\ FrontendExport.fillBar_className (FrontendExport.fillPct data)
     = Dom.bg_cyan_500
  /\ (Js.opt_gt0 (Api.max_volume data) = false ->
      App.fillPct data = Js.zero).
Proof.
  intros Hv Hm.
  assert (Hz : exists s, Api.volume data = S754_zero s).
  { destruct (Api.volume data) as [s|[]| |[] m e]; try discriminate.
    exists s. reflexivity. }
  destruct Hz as [s Hz].
  assert (Hnan : FrontendExport.fillPct data = Js.NaN).
  { unfold FrontendExport.fillPct, FrontendExport.capacity.
    rewrite Hm, Hz. destruct s; reflexivity. }
  rewrite Hnan. split; [reflexivity|]. split; [reflexivity|].
  intros Hm'. unfold App.fillPct, App.capacity. rewrite Hm', Hz.
  destruct s; reflexivity.
Qed.

Lemma export_fillPct_NaN_witness :
  FrontendExport.fillPct error_body = Js.NaN
  /\ App.fillPct error_body = Js.zero.
Proof.
  destruct (export_fillPct_NaN error_body) as (Hnan & _ & Happ);
    [reflexivity | reflexivity |].
  split; [exact Hnan | apply Happ; reflexivity].
Defined.

(** The percentage is rounded from the binary64 value of
    [volume / capacity * 100], not from the exact quotient: for volume
    0.145 and max_volume 1 that value is 14.499999999999998 and the bar
    shows 14%, where exact arithmetic would give 14.5 and 15%.  A
    negative value above -0.5 is rounded to the negative zero, which is
    shown as 0%: so it is for volume -0.001 and max_volume 10, in both
    scripts. *)
Theorem fillPct_rounds_binary64_value :
  Js.mul (Js.div (Js.lit 0.145) (Js.lit 1)) (Js.lit 100)
  = Js.lit 14.499999999999998
  /\ App.fillPct just_below_half = Js.lit 14
  /\ FrontendExport.fillPct just_below_half = Js.lit 14
  /\ App.fillPct slightly_negative = S754_zero true
  /\ FrontendExport.fillPct slightly_negative = S754_zero true
  /\ Js.same_text (App.fillPct slightly_negative) Js.zero
  /\ App.fillBar_className (App.fillPct slightly_negative) = Dom.bg_red_500.
Proof.
  vm_compute. repeat split. right. exists true, false. split; reflexivity.
Qed.

(** ** Invariants of the event loop *)

Section Primitives.
Variable P : App.State -> Prop.

Lemma preserves_stamp :
  (forall s, P s -> P (App.set_lastId (S (App.lastId s)) s)) ->
  preserves P App.stamp.
Proof. intros H s Hs. apply H, Hs. Qed.

Lemma preserves_Math_random :
  (forall s, P s -> P (App.set_randomCalls (S (App.randomCalls s)) s)) ->
  preserves P App.Math_random.
Proof. intros H s Hs. apply H, Hs. Qed.

Lemma preserves_new_AbortController :
  (forall s v, P s -> P (App.set_aborted v s)) ->
  preserves P App.new_AbortController.
Proof. intros H s Hs. apply H, Hs. Qed.

Lemma preserves_on_overlayLayerGroup m :
  (forall s v, P s -> P (App.set_overlayLayerGroup v s)) ->
  preserves P (App.on_overlayLayerGroup m).
Proof.
  intros H s Hs. unfold App.on_overlayLayerGroup.
  destruct (App.overlayLayerGroup s); [apply H, Hs | exact Hs].
Qed.

Lemma preserves_addTo_overlayLayerGroup l :
  (forall s v w, P s ->
     P (App.set_overlayLayerGroup v (App.set_lastId w s))) ->
  preserves P (App.addTo_overlayLayerGroup l).
Proof.
  intros H s Hs. unfold App.addTo_overlayLayerGroup.
  destruct (App.overlayLayerGroup s); [apply H, Hs | exact Hs].
Qed.

End Primitives.

(** One step of breaking [preserves P m] down for a statement of
    [app.js]: along its structure, through its definition, or to the
    assignment of a primitive. *)
Ltac app_step :=
  first
    [ preserves_step
    | apply preserves_stamp; intros ? ?
    | apply preserves_Math_random; intros ? ?
    | apply preserves_new_AbortController; intros ? ? ?
    | apply preserves_on_overlayLayerGroup; intros ? ? ?
    | apply preserves_addTo_overlayLayerGroup; intros ? ? ? ?
    | progress
        unfold App.setMode, App.showToast, App.setTimeout, App.fetch,
               App.abort, App.updateMetrics, App.updateCharts,
               App.updateLayerControl, App.createToggle, App.toggleLayer,
               App.onChange, App.apply_result, App.await_data,
               App.report_failure, App.startScanning_rest,
               App.startScanning_1_rest, App.startScanning,
               App.startScanning_1, App.hideOverlay, App.cancelScanning,
               App.triggerAI, App.onMapClick_calling
    | progress cbn [App.handle App.startScanning_of
                    App.startScanning_rest_of]
    | lazymatch goal with
      | |- preserves _ (App.startScanning_of ?b) => destruct b
      | |- preserves _ (App.startScanning_rest_of ?b _) => destruct b
      end ].

(** The assignments that are left do not touch what the invariant reads. *)
Ltac app_frame := lazymatch goal with H : ?P ?s |- ?P _ => exact H end.

Lemma run_invariant (P : App.State -> Prop) b :
  (forall ev, preserves P (App.handle b ev)) ->
  forall evs s, P s -> P (App.run b s evs).
Proof.
  intros Hstep evs. induction evs as [|ev evs IH]; intros s Hs; [exact Hs|].
  apply IH. apply (Hstep ev s Hs).
Qed.

(** *** The red status line *)

Lemma handle_status_red ev :
  preserves status_red (App.handle App.last_declaration ev).
Proof.
  destruct ev; repeat app_step; first [app_frame | reflexivity].
Qed.

(** Once a scan has failed, the status line stays red: the function that
    [startScanning] names never removes the class, so the status reads
    "Complete." in red after every later scan that succeeds. *)
Theorem status_stays_red (s : App.State) (evs : list App.Event) :
  status_red s -> status_red (App.run App.last_declaration s evs).
Proof. intros Hs. apply run_invariant; [apply handle_status_red | exact Hs]. Qed.

Lemma status_stays_red_witness :
  let failed := App.step App.last_declaration scanning_page
                  (App.Settle 0 http_500) in
  let later := App.run App.last_declaration failed
                 [App.Timeout 0; App.MapClick (Js.lit 3) (Js.lit 4);
                  App.Settle 1 (ok_response example_with_capacity)] in
  status_red failed
  /\ App.scan_status later = "Complete." /\ status_red later.
Proof.
  assert (H : status_red (App.step App.last_declaration scanning_page
                            (App.Settle 0 http_500)))
    by (vm_compute; reflexivity).
  split; [exact H|]. split; [vm_compute; reflexivity|].
  apply (status_stays_red _ _ H).
Defined.

(** *** The overlay and [isScanning] *)

Lemma startScanning_overlay b :
  preserves overlay_follows_flag (App.startScanning_of b).
Proof.
  intros s _. destruct b; cbn [App.startScanning_of].
  - unfold App.startScanning_1.
    cbv [mbind Stmt.M_bind Stmt.modify Stmt.gets Stmt.skip mret Stmt.M_ret
         App.abort App.new_AbortController App.fetch].
    cbn [App.scanController App.set_isScanning App.set_scanning_overlay
         App.set_scan_status App.set_scan_status_red].
    destruct (App.scanController s); split; intros _; reflexivity.
  - split; intros _; reflexivity.
Qed.

Lemma hideOverlay_overlay : preserves overlay_follows_flag App.hideOverlay.
Proof. intros s _. split; discriminate. Qed.

Lemma cancelScanning_overlay :
  preserves overlay_follows_flag App.cancelScanning.
Proof.
  intros s _. unfold App.cancelScanning.
  cbv [mbind Stmt.M_bind Stmt.modify Stmt.gets Stmt.skip mret Stmt.M_ret
       App.abort App.showToast].
  destruct (App.scanController s); split; discriminate.
Qed.

Lemma handle_overlay b ev :
  preserves overlay_follows_flag (App.handle b ev).
Proof.
  destruct ev;
    repeat first
      [ lazymatch goal with
        | |- preserves _ (App.startScanning_of _) =>
            apply startScanning_overlay
        | |- preserves _ App.hideOverlay => apply hideOverlay_overlay
        | |- preserves _ App.cancelScanning => apply cancelScanning_overlay
        end
      | app_step ];
    app_frame.
Qed.

Lemma export_handle_overlay ev :
  preserves export_overlay_follows_flag (FrontendExport.handle ev).
Proof.
  assert (Hstart : preserves export_overlay_follows_flag
                     FrontendExport.startAnalysis)
    by (intros s _; split; intros _; reflexivity).
  assert (Hhide : preserves export_overlay_follows_flag
                    FrontendExport.hideOverlay)
    by (intros s _; split; discriminate).
  assert (Hcancel : preserves export_overlay_follows_flag
                      FrontendExport.cancelScanning)
    by (intros s _; split; discriminate).
  destruct ev; cbn [FrontendExport.handle];
    repeat first
      [ apply Hstart | apply Hhide | apply Hcancel
      | preserves_step
      | intros ? ?; lazymatch goal with
                    | H : ?P ?s |- ?P _ => exact H
                    end
      | progress
          unfold FrontendExport.onMapClick, FrontendExport.add_marker,
                 FrontendExport.setMode, FrontendExport.onChange,
                 FrontendExport.startAnalysis_rest,
                 FrontendExport.updateMetrics, FrontendExport.updateLayers,
                 FrontendExport.addLayerToggle, FrontendExport.showToast ];
    lazymatch goal with H : ?P ?s |- ?P _ => exact H end.
Qed.

(** The scanning overlay is on screen exactly while [isScanning] is set,
    on every page either script reaches and whichever declaration of
    [startScanning] is bound: the two are only ever changed together. *)
Theorem overlay_shown_iff_scanning
    (b : App.Binding) (rnd : nat -> Js.number) (evs : list App.Event)
    (evs' : list FrontendExport.Event) :
  overlay_follows_flag (App.run b (App.loaded rnd) evs)
  /\ export_overlay_follows_flag
       (FrontendExport.run FrontendExport.loaded evs').
Proof.
  split.
  - apply run_invariant; [apply handle_overlay|]. split; discriminate.
  - assert (H : export_overlay_follows_flag FrontendExport.loaded)
      by (split; discriminate).
    revert H. generalize FrontendExport.loaded.
    induction evs' as [|ev evs' IH]; intros s Hs; [exact Hs|].
    apply IH, (export_handle_overlay ev s Hs).
Qed.

(** *** The selection marker *)

Lemma startScanning_marker b :
  preserves marker_at_point (App.startScanning_of b).
Proof. destruct b; repeat app_step; app_frame. Qed.

Lemma onMapClick_marker b e :
  preserves marker_at_point
    (App.onMapClick_calling (App.startScanning_of b) e).
Proof.
  intros s Hs. unfold App.onMapClick_calling.
  cbv [mbind Stmt.M_bind Stmt.gets Stmt.modify Stmt.skip mret Stmt.M_ret
       App.stamp].
  destruct (App.isScanning s); [exact Hs|].
  destruct (_ && _); [exact Hs|].
  apply startScanning_marker. right. eexists. reflexivity.
Qed.

Lemma cancelScanning_marker : preserves marker_at_point App.cancelScanning.
Proof.
  intros s _. unfold App.cancelScanning.
  cbv [mbind Stmt.M_bind Stmt.modify Stmt.gets Stmt.skip mret Stmt.M_ret
       App.abort App.showToast].
  destruct (App.scanController s); left; reflexivity.
Qed.

Lemma handle_marker b ev : preserves marker_at_point (App.handle b ev).
Proof.
  destruct ev;
    repeat first
      [ lazymatch goal with
        | |- preserves _ (App.onMapClick_calling _ _) =>
            apply onMapClick_marker
        | |- preserves _ App.cancelScanning => apply cancelScanning_marker
        end
      | app_step ];
    app_frame.
Qed.

(** The marker group of the dashboard never holds more than the one
    selection marker, and that marker sits at the current coordinates:
    on every page reached, the group is empty or is one marker at
    [(currentLat, currentLng)]. *)
Theorem one_marker_at_current_point
    (b : App.Binding) (rnd : nat -> Js.number) (evs : list App.Event) :
  marker_at_point (App.run b (App.loaded rnd) evs).
Proof.
  apply run_invariant; [apply handle_marker|]. left. reflexivity.
Qed.

(** *** The draw control *)

Lemma setMode_control m : preserves control_follows_mode (App.setMode m).
Proof. intros s _. destruct m; split; (discriminate || reflexivity). Qed.

Lemma handle_control b ev : preserves control_follows_mode (App.handle b ev).
Proof.
  destruct ev;
    repeat first
      [ lazymatch goal with
        | |- preserves _ (App.setMode _) => apply setMode_control
        end
      | app_step ];
    app_frame.
Qed.

(** The draw control is on the map exactly when the page is in draw mode,
    on every page reached. *)
Theorem draw_control_iff_draw_mode
    (b : App.Binding) (rnd : nat -> Js.number) (evs : list App.Event) :
  control_follows_mode (App.run b (App.loaded rnd) evs).
Proof.
  apply run_invariant; [apply handle_control|]. split; discriminate.
Qed.

(** ** Starting a scan *)

(** A click on the map of a page that is not scanning and is in click
    mode starts a scan at the clicked point: the coordinates are set to
    it and their display to its [toFixed(5)], the marker group is
    replaced by one marker there, one request with the point as body is
    issued, the overlay is shown with the status "Analyzing Satellite
    Data...", and the metrics, charts, layer control and notifications
    stay as they were. *)
Theorem map_click_starts_scan (s : App.State) (lat lng : Js.number) :
  App.isScanning s = false -> App.mode s = click ->
  let s' := App.step App.last_declaration s (App.MapClick lat lng) in
  s' = scan_started lat lng s
  /\ App.currentLat s' = lat /\ App.currentLng s' = lng
  /\ App.dispLat s' = Some (Js.toFixed 5 lat)
  /\ App.dispLon s' = Some (Js.toFixed 5 lng)
  /\ App.layerGroup s' = {[ S (App.lastId s) := Leaflet.mkMarker lat lng ]}
  /\ App.fetches s'
     = <[App.nextFetch s := App.mkRequest lat lng None]> (App.fetches s)
  /\ App.isScanning s' = true /\ App.scanning_overlay s' = Dom.flex
  /\ App.scan_status s' = "Analyzing Satellite Data..."
  /\ App.metrics s' = App.metrics s
  /\ App.charts_trend s' = App.charts_trend s
  /\ App.layerControl s' = App.layerControl s
  /\ App.overlayLayerGroup s' = App.overlayLayerGroup s
  /\ App.toast s' = App.toast s.
Proof.
  intros Hs Hm s'.
  assert (H : s' = scan_started lat lng s).
  { subst s'. unfold App.step, App.handle. cbn [App.startScanning_of].
    rewrite onMapClick_starts; [reflexivity | exact Hs | left; exact Hm]. }
  rewrite H. repeat split; reflexivity.
Qed.

Lemma map_click_starts_scan_witness :
  let s' := App.step App.last_declaration (App.loaded zeros)
              (App.MapClick (Js.lit 12.3456789) (Js.lit 76.5761)) in
  App.dispLat s' = Some (Js.text "12.34568")
  /\ App.dispLon s' = Some (Js.text "76.57610")
  /\ App.currentLat s' = Js.lit 12.3456789.
Proof.
  pose proof (map_click_starts_scan (App.loaded zeros)
                (Js.lit 12.3456789) (Js.lit 76.5761) eq_refl eq_refl) as H.
  cbv zeta in H. destruct H as (_ & Hlat & _ & Hd & Hd' & _).
  cbv zeta. rewrite Hd, Hd', Hlat. vm_compute. repeat split.
Defined.

(** In draw mode a plain click on the map does nothing at all, in both
    scripts.  A finished drawing always replaces the drawn items by the
    new shape; when no scan is active it then starts a scan at the centre
    of the bounds of the shape, whatever the mode, and during a scan it
    does nothing more. *)
Theorem draw_mode_gestures (b : App.Binding) (s : App.State) :
  (App.mode s = draw ->
   forall lat lng, App.step b s (App.MapClick lat lng) = s)
  /\ (forall layer,
        App.drawnItems (App.step App.last_declaration s
                          (App.DrawCreated layer))
        = {[ S (App.lastId s) := layer ]})
  /\ (App.isScanning s = false ->
      forall layer,
        App.step App.last_declaration s (App.DrawCreated layer)
        = scan_started (Leaflet.center_lat layer) (Leaflet.center_lng layer)
            (App.set_drawnItems {[ S (App.lastId s) := layer ]}
               (App.set_lastId (S (App.lastId s)) s)))
  /\ (App.isScanning s = true ->
      forall layer,
        App.step App.last_declaration s (App.DrawCreated layer)
        = App.set_drawnItems {[ S (App.lastId s) := layer ]}
            (App.set_lastId (S (App.lastId s)) s))
  /\ (forall x : FrontendExport.State,
        (FrontendExport.mode x = draw ->
         forall lat lng,
           FrontendExport.step x (FrontendExport.MapClick lat lng) = x)
        /\ forall layer,
             FrontendExport.drawnItems
               (FrontendExport.step x (FrontendExport.DrawCreated layer))
             = {[ S (FrontendExport.lastId x) := layer ]}).
Proof.
  assert (Hoff : App.isScanning s = false ->
            forall layer,
              App.step App.last_declaration s (App.DrawCreated layer)
              = scan_started (Leaflet.center_lat layer)
                  (Leaflet.center_lng layer)
                  (App.set_drawnItems {[ S (App.lastId s) := layer ]}
                     (App.set_lastId (S (App.lastId s)) s))).
  { intros Hs layer. unfold App.step, App.handle.
    cbn [App.startScanning_of].
    cbv [mbind Stmt.M_bind Stmt.modify App.stamp].
    rewrite onMapClick_starts; [|exact Hs | right; reflexivity].
    cbn [snd]. unfold Leaflet.addLayer, Leaflet.clearLayers.
    cbn [Leaflet.latlng_lat Leaflet.latlng_lng].
    destruct s; reflexivity. }
  assert (Hon : App.isScanning s = true ->
            forall layer,
              App.step App.last_declaration s (App.DrawCreated layer)
              = App.set_drawnItems {[ S (App.lastId s) := layer ]}
                  (App.set_lastId (S (App.lastId s)) s)).
  { intros Hs layer. unfold App.step, App.handle.
    cbv [mbind Stmt.M_bind Stmt.modify App.stamp].
    rewrite onMapClick_returns by exact Hs.
    cbn [snd]. unfold Leaflet.addLayer, Leaflet.clearLayers.
    cbn [App.drawnItems App.set_drawnItems App.set_lastId App.lastId].
    destruct s; reflexivity. }
  split; [|split; [|split; [exact Hoff|split; [exact Hon|]]]].
  - intros Hm lat lng. unfold App.step, App.handle, App.onMapClick_calling.
    cbv [mbind Stmt.M_bind Stmt.gets].
    destruct (App.isScanning s); [reflexivity|]. rewrite Hm. reflexivity.
  - intros layer. destruct (App.isScanning s) eqn:Hs.
    + rewrite (Hon eq_refl). reflexivity.
    + rewrite (Hoff eq_refl). reflexivity.
  - intros x. split.
    + intros Hm lat lng.
      unfold FrontendExport.step, FrontendExport.handle,
             FrontendExport.onMapClick.
      cbv [mbind Stmt.M_bind Stmt.gets].
      destruct (FrontendExport.isScanning x); [reflexivity|].
      rewrite Hm. reflexivity.
    + intros layer.
      unfold FrontendExport.step, FrontendExport.handle,
             FrontendExport.onMapClick.
      cbv [mbind Stmt.M_bind Stmt.gets Stmt.modify FrontendExport.stamp].
      unfold Leaflet.addLayer, Leaflet.clearLayers.
      cbn [FrontendExport.isScanning FrontendExport.mode
           FrontendExport.set_drawnItems FrontendExport.set_lastId].
      destruct (FrontendExport.isScanning x); [reflexivity|].
      cbn [Leaflet.isDraw negb]. rewrite andb_false_r.
      unfold FrontendExport.startAnalysis, FrontendExport.add_marker,
        FrontendExport.fetch, FrontendExport.stamp.
      cbv [mbind Stmt.M_bind Stmt.gets Stmt.modify].
      reflexivity.
Qed.

Lemma draw_mode_gestures_witness :
  let drawing := App.step App.last_declaration (App.loaded zeros)
                   (App.ModeButton draw) in
  let shape := Leaflet.mkShape (Js.lit 1) (Js.lit 2) in
  App.step App.last_declaration drawing
    (App.MapClick (Js.lit 1) (Js.lit 2)) = drawing
  /\ App.isScanning
       (App.step App.last_declaration drawing (App.DrawCreated shape))
     = true
  /\ App.step App.last_declaration scanning_page (App.DrawCreated shape)
     = App.set_drawnItems {[ S (App.lastId scanning_page) := shape ]}
         (App.set_lastId (S (App.lastId scanning_page)) scanning_page).
Proof.
  destruct (draw_mode_gestures App.last_declaration
              (App.step App.last_declaration (App.loaded zeros)
                 (App.ModeButton draw))) as (Hclick & _ & Hdraw & _).
  destruct (draw_mode_gestures App.last_declaration scanning_page)
    as (_ & _ & _ & Hon & _).
  assert (Hs : App.isScanning scanning_page = true)
    by (vm_compute; reflexivity).
  cbv zeta. split; [|split].
  - apply Hclick. reflexivity.
  - rewrite Hdraw by reflexivity. reflexivity.
  - exact (Hon Hs (Leaflet.mkShape (Js.lit 1) (Js.lit 2))).
Defined.

(** ** A request settles *)

(** Every way a request can fail ends on the same page: a network error, a
    status that is not 2xx, a body that is not JSON and a body with an
    error field all remove the request, show one error notification
    "Analysis Failed: " followed by the message ("Unknown Error" when the
    message is empty), set the status to "Error." in red and queue one
    timer that hides the overlay; nothing else changes. *)
Theorem every_failure_is_reported
    (s : App.State) (r : nat) (rq : App.Request) (o : Api.Outcome)
    (msg : string) :
  App.fetches s !! r = Some rq -> App.signal rq = None ->
  failure_message o = Some msg ->
  App.step App.last_declaration s (App.Settle r o)
  = failure_page ("Analysis Failed: " +:+ reported msg)
      (App.set_fetches (delete r (App.fetches s)) s).
Proof.
  intros Hr Hsig Hmsg.
  unfold App.step, App.handle.
  cbv [mbind Stmt.M_bind Stmt.gets Stmt.modify]. rewrite Hr.
  unfold App.settled. rewrite Hsig.
  cbn [App.startScanning_rest_of].
  unfold failure_message in Hmsg.
  destruct o as [m|[] st body]; [|destruct body as [m|data]|].
  - injection Hmsg as <-.
    apply (startScanning_rest_failure _ (Stmt.TypeError m)). reflexivity.
  - injection Hmsg as <-.
    apply (startScanning_rest_failure _ (Stmt.SyntaxError m)). reflexivity.
  - destruct (Js.truthy_str (Api.error data)) eqn:Herr; [|discriminate].
    injection Hmsg as <-.
    apply (startScanning_rest_failure _
             (Stmt.Error (default "" (Api.error data)))).
    cbn [App.await_data negb]. rewrite Herr. reflexivity.
  - injection Hmsg as <-.
    apply (startScanning_rest_failure _
             (Stmt.Error "Analysis Service Failed")). reflexivity.
Qed.

Lemma every_failure_is_reported_witness :
  App.step App.last_declaration scanning_page
    (App.Settle 0 (Api.NetworkError ""))
  = failure_page ("Analysis Failed: " +:+ reported "")
      (App.set_fetches (delete 0%nat (App.fetches scanning_page))
         scanning_page).
Proof.
  assert (Hr : App.fetches scanning_page !! 0%nat
               = Some (App.mkRequest (Js.lit 1) (Js.lit 2) None))
    by (vm_compute; reflexivity).
  exact (every_failure_is_reported scanning_page 0%nat
           (App.mkRequest (Js.lit 1) (Js.lit 2) None) (Api.NetworkError "") ""
           Hr eq_refl eq_refl).
Defined.

(** [updateLayerControl] writes the layer control, the overlay group, the
    stamp counter and the class of the layer panel, and nothing else. *)
Lemma updateLayerControl_frame layers (s : App.State) :
  same_outside_layer_control s (App.updateLayerControl layers s).2.
Proof.
  assert (H : preserves (same_outside_layer_control s)
                (App.updateLayerControl layers))
    by (repeat app_step; app_frame).
  apply H. repeat split.
Qed.

Lemma createToggle_then layers ks k lbl col d
    (rest : Stmt.M App.State unit) (Q : App.State -> Prop) (x : App.State) :
  k ∉ ks -> (d = true <-> k = analytics \/ k = depth) ->
  building layers ks x ->
  (forall y, building layers (k :: ks) y -> Q (rest y).2) ->
  Q ((App.createToggle (Some layers) k lbl col d;; rest) x).2.
Proof.
  intros Hk Hd Bx Hrest.
  destruct (createToggle_building ks layers k lbl col d x Hk Hd Bx)
    as (y & E & By).
  rewrite (then_normal _ _ _ _ E). apply Hrest, By.
Qed.

Lemma updateLayerControl_shows_panel layers (s : App.State) :
  App.layerControlPanel_hidden (App.updateLayerControl (Some layers) s).2
  = false.
Proof.
  unfold App.updateLayerControl.
  rewrite (then_normal (Stmt.modify _) _ s _ eq_refl).
  rewrite (then_normal (Stmt.modify _) _ _ _ eq_refl).
  assert (B0 : building layers []
                 (App.set_layerControl []
                    (App.set_overlayLayerGroup (Some ∅) s))).
  { split; [split| | | |]; cbn.
    - intros g [= <-]. apply owned_empty.
    - apply NoDup_nil_2.
    - discriminate.
    - intros t i Ht. apply elem_of_nil in Ht. contradiction.
    - eauto.
    - intros t Ht. apply elem_of_nil in Ht. contradiction.
    - intros t Ht. apply elem_of_nil in Ht. contradiction.
    - intros t Ht. apply elem_of_nil in Ht. contradiction. }
  revert B0. generalize (App.set_layerControl []
                           (App.set_overlayLayerGroup (Some ∅) s)).
  intros x B.
  eapply createToggle_then; [ | | exact B | ];
    [not_in_keys | split; [intros _; auto | reflexivity] |].
  clear x B. intros x B.
  eapply createToggle_then; [ | | exact B | ];
    [not_in_keys | split; [intros _; auto | reflexivity] |].
  clear x B. intros x B.
  eapply createToggle_then; [ | | exact B | ];
    [not_in_keys | split; [intros [=] | intros [[=]|[=]]] |].
  clear x B. intros x B.
  eapply createToggle_then; [ | | exact B | ];
    [not_in_keys | split; [intros [=] | intros [[=]|[=]]] |].
  clear x B. intros x B.
  eapply createToggle_then; [ | | exact B | ];
    [not_in_keys | split; [intros [=] | intros [[=]|[=]]] |].
  clear x B. intros x B.
  eapply createToggle_then; [ | | exact B | ];
    [not_in_keys | split; [intros [=] | intros [[=]|[=]]] |].
  clear x B. intros x B. reflexivity.
Qed.

(** A good response whose body has a layers object is applied whole: the
    stored result, the metrics, a fresh trend and the rebuilt layer
    control are all written, the layer panel is made visible, the status
    reads "Complete." and the success notification is shown; no step of
    the application throws.  The overlay stays up and [isScanning] set
    until the timer queued by the [finally] block runs. *)
Theorem good_response_is_applied
    (s : App.State) (r : nat) (rq : App.Request) (st : string)
    (data : Api.AnalysisData) (layers : gmap string string) :
  App.fetches s !! r = Some rq -> App.signal rq = None ->
  Js.truthy_str (Api.error data) = false ->
  Api.layers data = Some layers ->
  let s' := App.step App.last_declaration s
              (App.Settle r (Api.Response true st (Api.Json data))) in
  App.currentArea s' = Api.area data
  /\ App.currentVol s' = Api.volume data
  /\ App.layers s' = Some layers
  /\ shows (Dom.mkMetrics (Api.area data) (Api.volume data)
              (App.fillPct data) (App.fillBar_className (App.fillPct data))
              (Api.avg_elevation data)) s'
  /\ App.charts_trend s'
     = (λ i, Some (Js.mul (Js.parseFloat (Api.volume data))
                     (Js.add (Js.lit 0.8)
                        (Js.mul (App.random s (App.randomCalls s + i)%nat)
                           (Js.lit 0.4)))))
         <$> seq 0 12
  /\ (forall t, t ∈ App.layerControl s' ->
        App.closure_layers t = layers
        /\ Js.truthy_str (layers !! key_name (App.key t)) = true)
  /\ App.layerControlPanel_hidden s' = false
  /\ App.scan_status s' = "Complete."
  /\ App.toast s' = App.toast s ++ [(Dom.success, "Analysis Complete.")]
  /\ App.timers s' = App.timers s ++ [App.HideOverlay]
  /\ App.fetches s' = delete r (App.fetches s)
  /\ App.isScanning s' = App.isScanning s
  /\ App.scanning_overlay s' = App.scanning_overlay s.
Proof.
  intros Hr Hsig Herr Hl s'. subst s'.
  unfold App.step, App.handle.
  cbv [mbind Stmt.M_bind Stmt.gets Stmt.modify]. rewrite Hr.
  unfold App.settled. rewrite Hsig.
  cbn [App.startScanning_rest_of].
  unfold App.startScanning_rest, Stmt.try_catch_finally, App.await_data.
  cbv [mbind Stmt.M_bind Stmt.gets Stmt.modify negb Stmt.throw].
  rewrite Herr. cbn [mret Stmt.M_ret].
  unfold App.apply_result, App.updateMetrics.
  cbv [mbind Stmt.M_bind Stmt.modify].
  rewrite updateCharts_page. cbv beta iota zeta. rewrite Hl.
  match goal with
  | |- context [App.updateLayerControl _ ?x] => remember x as s2 eqn:H2
  end.
  pose proof (updateLayerControl_frame (Some layers) s2) as Hframe.
  pose proof (updateLayerControl_shows_panel layers s2) as Hpanel.
  destruct (updateLayerControl_building layers s2)
    as (s3 & E3 & [_ _ _ Hpres _]).
  rewrite E3 in Hframe, Hpanel. cbn [snd] in Hframe, Hpanel.
  rewrite E3. cbv beta iota.
  unfold App.showToast, App.setTimeout. cbv [Stmt.modify]. cbn [fst snd].
  unfold same_outside_layer_control in Hframe.
  destruct Hframe as (_ & _ & _ & HArea & HVol & HScan & HLayers & _ & _
                      & HTrend & _ & _ & _ & HOverlay & _ & _ & _ & _
                      & HMetrics & HToast & _ & HFetches & _ & HTimers & _).
  cbn [App.currentArea App.currentVol App.layers App.metrics
       App.charts_trend App.layerControl App.layerControlPanel_hidden
       App.scan_status App.toast App.timers App.fetches App.isScanning
       App.scanning_overlay App.set_timers App.set_toast
       App.set_scan_status shows].
  unfold shows.
  cbn [App.metrics App.set_timers App.set_toast App.set_scan_status].
  rewrite HArea, HVol, HLayers, HMetrics, HTrend, HToast, HTimers,
          HFetches, HScan, HOverlay, H2.
  repeat split; try (destruct (Api.seasonal data); reflexivity).
  - apply Hpres. assumption.
  - apply Hpres. assumption.
  - exact Hpanel.
Qed.



(** ** The checkboxes and the map *)

Lemma createToggle_rendered ks layers k lbl col dflt (s : App.State) :
  k ∉ ks -> (dflt = true <-> k = analytics \/ k = depth) ->
  building layers ks s -> toggles_rendered s ->
  toggles_rendered (App.createToggle (Some layers) k lbl col dflt s).2.
Proof.
  intros Hk Hd [[Hown Hnd Hgrp Hst] [g Hg] Hks Hpres Hchk] [Hc Ha].
  rewrite createToggle_page.
  destruct (negb _); [split; assumption|].
  destruct dflt.
  - rewrite Hg. cbn [snd]. split; cbn.
    + intros t Ht. apply elem_of_app in Ht as [Ht|Ht]; [apply Hc, Ht|].
      apply list_elem_of_singleton in Ht. subst. cbn. split; eauto.
    + intros t i Ht Hi. eexists; split; [reflexivity|].
      unfold Leaflet.addLayer.
      apply elem_of_app in Ht as [Ht|Ht].
      * destruct (Ha t i Ht Hi) as (g' & Hg' & Hl).
        rewrite Hg in Hg'. injection Hg' as <-.
        specialize (Hst t i Ht Hi).
        rewrite lookup_insert_ne by lia. exact Hl.
      * apply list_elem_of_singleton in Ht. subst. cbn in Hi.
        injection Hi as <-. apply lookup_insert_eq.
  - cbn [snd]. split; cbn.
    + intros t Ht. apply elem_of_app in Ht as [Ht|Ht]; [apply Hc, Ht|].
      apply list_elem_of_singleton in Ht. subst. cbn.
      split; [discriminate | intros [? [=]]].
    + intros t i Ht Hi. apply elem_of_app in Ht as [Ht|Ht].
      * exact (Ha t i Ht Hi).
      * apply list_elem_of_singleton in Ht. subst. discriminate.
Qed.

Lemma createToggle_then_rendered layers ks k lbl col d
    (rest : Stmt.M App.State unit) (Q : App.State -> Prop) (x : App.State) :
  k ∉ ks -> (d = true <-> k = analytics \/ k = depth) ->
  building layers ks x /\ toggles_rendered x ->
  (forall y, building layers (k :: ks) y /\ toggles_rendered y ->
     Q (rest y).2) ->
  Q ((App.createToggle (Some layers) k lbl col d;; rest) x).2.
Proof.
  intros Hk Hd [Bx Rx] Hrest.
  pose proof (createToggle_rendered ks layers k lbl col d x Hk Hd Bx Rx)
    as Ry.
  destruct (createToggle_building ks layers k lbl col d x Hk Hd Bx)
    as (y & E & By).
  rewrite E in Ry. rewrite (then_normal _ _ _ _ E). apply Hrest. auto.
Qed.

Lemma updateLayerControl_rendered layers (s : App.State) :
  toggles_rendered (App.updateLayerControl layers s).2.
Proof.
  destruct layers as [layers|].
  2:{ split; cbn.
      - intros t Ht. apply elem_of_nil in Ht. contradiction.
      - intros t i Ht. apply elem_of_nil in Ht. contradiction. }
  unfold App.updateLayerControl.
  rewrite (then_normal (Stmt.modify _) _ s _ eq_refl).
  rewrite (then_normal (Stmt.modify _) _ _ _ eq_refl).
  assert (B0 : building layers []
                 (App.set_layerControl []
                    (App.set_overlayLayerGroup (Some ∅) s))
               /\ toggles_rendered
                    (App.set_layerControl []
                       (App.set_overlayLayerGroup (Some ∅) s))).
  { split; [split; [split| | | |]|split]; cbn;
      try (intros t Ht; apply elem_of_nil in Ht; contradiction);
      try (intros t i Ht; apply elem_of_nil in Ht; contradiction).
    - intros g [= <-]. apply owned_empty.
    - apply NoDup_nil_2.
    - discriminate.
    - eauto. }
  revert B0. generalize (App.set_layerControl []
                           (App.set_overlayLayerGroup (Some ∅) s)).
  intros x B.
  eapply createToggle_then_rendered; [ | | exact B | ];
    [not_in_keys | split; [intros _; auto | reflexivity] |].
  clear x B. intros x B.
  eapply createToggle_then_rendered; [ | | exact B | ];
    [not_in_keys | split; [intros _; auto | reflexivity] |].
  clear x B. intros x B.
  eapply createToggle_then_rendered; [ | | exact B | ];
    [not_in_keys | split; [intros [=] | intros [[=]|[=]]] |].
  clear x B. intros x B.
  eapply createToggle_then_rendered; [ | | exact B | ];
    [not_in_keys | split; [intros [=] | intros [[=]|[=]]] |].
  clear x B. intros x B.
  eapply createToggle_then_rendered; [ | | exact B | ];
    [not_in_keys | split; [intros [=] | intros [[=]|[=]]] |].
  clear x B. intros x B.
  eapply createToggle_then_rendered; [ | | exact B | ];
    [not_in_keys | split; [intros [=] | intros [[=]|[=]]] |].
  clear x B. intros x [_ [Hc Ha]]. split; assumption.
Qed.

Lemma updateLayerControl_agree layers :
  preserves control_and_map_agree (App.updateLayerControl layers).
Proof.
  intros s [Hinv _]. split.
  - apply updateLayerControl_layer_invariant, Hinv.
  - apply updateLayerControl_rendered.
Qed.

Lemma onChange_agree k isChecked :
  preserves control_and_map_agree (App.onChange k isChecked).
Proof.
  intros s [Hinv Hren]. split; [apply onChange_layer_invariant, Hinv|].
  pose proof Hinv as [Hown Hnd Hgrp Hst]. pose proof Hren as [Hc Ha].
  destruct (list_find (λ t, App.key t = k) (App.layerControl s))
    as [[n t]|] eqn:Hfind.
  2:{ unfold App.onChange. cbv [mbind Stmt.M_bind Stmt.gets].
      rewrite Hfind. exact Hren. }
  pose proof Hfind as Hfind'.
  apply list_find_Some in Hfind' as (Hn & _ & _).
  destruct (App.overlayLayerGroup s) as [g|] eqn:Hg.
  2:{ rewrite Hgrp in Hn by reflexivity. discriminate. }
  rewrite (onChange_page k isChecked s n t g Hfind Hg).
  (* a toggle other than the one changed keeps its layer *)
  assert (Hother : forall m t0 i,
            App.layerControl s !! m = Some t0 -> m <> n ->
            App.activeLayer t0 = Some i ->
            without (App.activeLayer t) g !! i
            = Some (overlay_of (App.closure_layers t0) (App.key t0))
            /\ (i <= App.lastId s)%nat).
  { intros m t0 i Hm Hmn Hi.
    assert (Ht0 : t0 ∈ App.layerControl s)
      by (apply list_elem_of_lookup; eauto).
    destruct (Ha t0 i Ht0 Hi) as (g' & Hg' & Hl).
    injection Hg' as <-.
    split; [|exact (Hst t0 i Ht0 Hi)].
    unfold without, Leaflet.removeLayer.
    destruct (App.activeLayer t) as [old|] eqn:Hold; [|exact Hl].
    rewrite lookup_delete_ne; [exact Hl|]. intros <-.
    assert (Ht : t ∈ App.layerControl s)
      by (apply list_elem_of_lookup; eauto).
    destruct (Ha t old Ht Hold) as (g' & Hg' & Hl').
    injection Hg' as <-. rewrite Hl in Hl'. apply (inj Some) in Hl'.
    apply (f_equal Leaflet.made_for) in Hl'. cbn in Hl'.
    apply Hmn. eapply NoDup_lookup; [exact Hnd | |].
    - rewrite list_lookup_fmap, Hm. reflexivity.
    - rewrite list_lookup_fmap, Hn. cbn. rewrite Hl'. reflexivity. }
  destruct isChecked; cbn [snd]; split; cbn.
  - intros t0 Ht0. apply list_elem_of_lookup in Ht0 as [m Hm].
    apply list_lookup_insert_Some in Hm as [(_ & <- & _)|[Hmn Hm]].
    + cbn. split; eauto.
    + apply Hc. apply list_elem_of_lookup. eauto.
  - intros t0 i Ht0 Hi. eexists; split; [reflexivity|].
    unfold Leaflet.addLayer.
    apply list_elem_of_lookup in Ht0 as [m Hm].
    apply list_lookup_insert_Some in Hm as [(_ & <- & _)|[Hmn Hm]].
    + cbn in Hi. injection Hi as <-. apply lookup_insert_eq.
    + destruct (Hother m t0 i Hm ltac:(congruence) Hi) as [Hl Hle].
      rewrite lookup_insert_ne by lia. exact Hl.
  - intros t0 Ht0. apply list_elem_of_lookup in Ht0 as [m Hm].
    apply list_lookup_insert_Some in Hm as [(_ & <- & _)|[Hmn Hm]].
    + cbn. split; [discriminate | intros [? [=]]].
    + apply Hc. apply list_elem_of_lookup. eauto.
  - intros t0 i Ht0 Hi. eexists; split; [reflexivity|].
    apply list_elem_of_lookup in Ht0 as [m Hm].
    apply list_lookup_insert_Some in Hm as [(_ & <- & _)|[Hmn Hm]].
    + discriminate.
    + apply (Hother m t0 i Hm ltac:(congruence) Hi).
Qed.

(** An assignment that the agreement of control and map does not read,
    or that only moves the stamp counter up. *)
Ltac agree_frame :=
  lazymatch goal with
  | H : control_and_map_agree _ |- control_and_map_agree _ =>
      let Hown := fresh in let Hnd := fresh in let Hgrp := fresh in
      let Hst := fresh in let Hc := fresh in let Ha := fresh in
      destruct H as [[Hown Hnd Hgrp Hst] [Hc Ha]];
      split; constructor;
      first [ assumption
            | intros ? ? ? ?; eapply Nat.le_trans;
              [eapply Hst; eassumption | cbn; lia] ]
  end.

Lemma handle_agree b ev : preserves control_and_map_agree (App.handle b ev).
Proof.
  destruct ev;
    repeat first
      [ lazymatch goal with
        | |- preserves _ (App.updateLayerControl _) =>
            apply updateLayerControl_agree
        | |- preserves _ (App.onChange _ _) => apply onChange_agree
        end
      | app_step ];
    agree_frame.
Qed.

(** On every page the dashboard reaches, the checkboxes of the layer
    control and the map agree: a toggle is checked exactly when its tile
    layer, built from the URL of its key with opacity 0.9 and z-index 10
    for analytics and 5 otherwise, is in the overlay group; and no layer
    made for the key of an unchecked toggle is in the group. *)
Theorem checkboxes_agree_with_map
    (b : App.Binding) (rnd : nat -> Js.number) (evs : list App.Event) :
  let s := App.run b (App.loaded rnd) evs in
  forall t, t ∈ App.layerControl s ->
    (App.checked t = true ->
     exists g i,
       App.overlayLayerGroup s = Some g
       /\ g !! i = Some (overlay_of (App.closure_layers t) (App.key t)))
    /\ (App.checked t = false ->
        forall g i l,
          App.overlayLayerGroup s = Some g -> g !! i = Some l ->
          Leaflet.made_for l <> App.key t).
Proof.
  intros s.
  assert (H : control_and_map_agree s).
  { apply run_invariant; [apply handle_agree|].
    split; [apply loaded_layer_invariant|].
    split; cbn; intros t; intros; exfalso; eapply elem_of_nil; eassumption. }
  destruct H as [[Hown Hnd _ _] [Hc Ha]].
  intros t Ht. split.
  - intros Hchk. apply Hc in Hchk as [i Hi]; [|exact Ht].
    destruct (Ha t i Ht Hi) as (g & Hg & Hl). eauto.
  - intros Hchk g i l Hg Hl Hkey.
    destruct (Hown g Hg i l Hl) as (t1 & Ht1 & Hk1 & Ha1).
    apply list_elem_of_lookup in Ht as [n Hn].
    apply list_elem_of_lookup in Ht1 as [m Hm].
    assert (m = n).
    { eapply NoDup_lookup; [exact Hnd | |].
      - rewrite list_lookup_fmap, Hm. reflexivity.
      - rewrite list_lookup_fmap, Hn. cbn. congruence. }
    subst m. assert (t1 = t) by congruence. subst t1.
    assert (App.checked t = true).
    { apply Hc; [apply list_elem_of_lookup; eauto | eauto]. }
    congruence.
Qed.

Lemma checkboxes_agree_with_map_witness :
  exists g i,
    App.overlayLayerGroup idle_page = Some g
    /\ g !! i
       = Some (overlay_of example_layers analytics).
Proof.
  pose proof (checkboxes_agree_with_map App.last_declaration zeros
                [App.MapClick (Js.lit 1) (Js.lit 2);
                 App.Settle 0 (ok_response example_with_capacity);
                 App.Timeout 0]) as H.
  cbv zeta in H.
  destruct (H (App.mkToggle analytics "Depth Contours" "#ffffff" true
                 (Some 2%nat) example_layers))
    as [Hon _].
  - vm_compute. left.
  - apply Hon. reflexivity.
Defined.

(** A change event on a layer checkbox writes the layer control, the
    overlay group and the stamp counter and nothing else: no request is
    issued and the metrics, charts, notifications and scan state stay. *)
Theorem layer_toggle_touches_only_layers
    (b : App.Binding) (s : App.State) (k : LayerKey) (isChecked : bool) :
  same_outside_layer_control s (App.step b s (App.Change k isChecked)).
Proof.
  assert (H : preserves (same_outside_layer_control s)
                (App.handle b (App.Change k isChecked)))
    by (repeat app_step; app_frame).
  apply H. repeat split.
Qed.

(** ** The overlay is released *)

Lemma timeout_hides_overlay b (s : App.State) (i : nat) :
  App.timers s !! i = Some App.HideOverlay ->
  App.step b s (App.Timeout i)
  = App.set_isScanning false
      (App.set_scanning_overlay Dom.none
         (App.set_timers (delete i (App.timers s)) s)).
Proof.
  intros Hi. unfold App.step, App.handle.
  cbv [mbind Stmt.M_bind Stmt.gets Stmt.modify App.hideOverlay].
  rewrite Hi. reflexivity.
Qed.

Lemma settle_queues_timer (s : App.State) r rq o :
  App.fetches s !! r = Some rq -> App.signal rq = None ->
  App.timers (App.step App.last_declaration s (App.Settle r o))
  = App.timers s ++ [App.HideOverlay].
Proof.
  intros Hr Hsig. unfold App.step, App.handle.
  cbv [mbind Stmt.M_bind Stmt.gets Stmt.modify]. rewrite Hr.
  unfold App.settled. rewrite Hsig. cbn [App.startScanning_rest_of].
  unfold App.startScanning_rest.
  set (l := App.timers s).
  assert (Hbody : forall m : Stmt.M App.State unit,
            preserves (timers_are l) m ->
            forall x, timers_are l x ->
              App.timers
                (Stmt.try_catch_finally m App.report_failure
                   (App.setTimeout App.HideOverlay) x).2
              = l ++ [App.HideOverlay]).
  { intros m Hm x Hx.
    assert (Hh : forall e, preserves (timers_are l) (App.report_failure e))
      by (intros e; repeat app_step; app_frame).
    unfold Stmt.try_catch_finally.
    specialize (Hm x Hx). destruct (m x) as [[[]|e] x']; cbn [fst snd] in *.
    - unfold App.setTimeout, Stmt.modify. cbn. rewrite Hm. reflexivity.
    - specialize (Hh e x' Hm).
      destruct (App.report_failure e x') as [c x'']; cbn [fst snd] in *.
      unfold App.setTimeout, Stmt.modify. cbn. rewrite Hh. reflexivity. }
  apply Hbody; [|reflexivity].
  repeat app_step; app_frame.
Qed.

(** However a request settles, the [finally] block queues exactly one
    timer, and when that timer runs the overlay is hidden and
    [isScanning] reset: a response, good or bad, never leaves the page
    blocked. *)
Theorem overlay_is_released
    (s : App.State) (r : nat) (rq : App.Request) (o : Api.Outcome) :
  App.fetches s !! r = Some rq -> App.signal rq = None ->
  let s' := App.step App.last_declaration s (App.Settle r o) in
  App.timers s' = App.timers s ++ [App.HideOverlay]
  /\ let s'' := App.step App.last_declaration s'
                  (App.Timeout (length (App.timers s))) in
     App.isScanning s'' = false
     /\ App.scanning_overlay s'' = Dom.none
     /\ App.timers s'' = App.timers s.
Proof.
  intros Hr Hsig s'.
  assert (Ht : App.timers s' = App.timers s ++ [App.HideOverlay])
    by (apply (settle_queues_timer s r rq o Hr Hsig)).
  split; [exact Ht|]. intros s''. subst s''.
  assert (Hdue : App.timers s' !! length (App.timers s)
                 = Some App.HideOverlay)
    by (rewrite Ht; apply list_lookup_middle; reflexivity).
  rewrite (timeout_hides_overlay _ _ _ Hdue).
  cbn [App.isScanning App.scanning_overlay App.timers
       App.set_timers App.set_isScanning App.set_scanning_overlay].
  split; [reflexivity|]. split; [reflexivity|].
  rewrite Ht, delete_middle. apply app_nil_r.
Qed.

Lemma overlay_is_released_witness :
  let s' := App.step App.last_declaration scanning_page
              (App.Settle 0 http_500) in
  App.isScanning
    (App.step App.last_declaration s'
       (App.Timeout (length (App.timers scanning_page)))) = false.
Proof.
  assert (Hr : App.fetches scanning_page !! 0%nat
               = Some (App.mkRequest (Js.lit 1) (Js.lit 2) None))
    by (vm_compute; reflexivity).
  pose proof (overlay_is_released scanning_page 0%nat
                (App.mkRequest (Js.lit 1) (Js.lit 2) None) http_500 Hr eq_refl) as H.
  cbv zeta in H. cbv zeta. destruct H as (_ & H & _). exact H.
Defined.

(** ** [triggerAI] *)

(** [triggerAI] queues one timer; when it runs on a page in click mode
    with no scan active, a scan starts at the current point with 0.005
    added to each coordinate in binary64, the default 12.4244 or 76.5761
    standing in for a coordinate that is 0 or NaN; the panel shows the
    new coordinates with five decimals.  In draw mode the simulated click
    is dropped like any plain click. *)
Theorem triggerAI_simulates_click (s : App.State) :
  App.isScanning s = false ->
  let s1 := App.step App.last_declaration s App.AiButton in
  let s2 := App.step App.last_declaration s1
              (App.Timeout (length (App.timers s))) in
  App.timers s1 = App.timers s ++ [App.SimulatedClick]
  /\ (App.mode s = click ->
      s2 = scan_started
             (Js.add (App.or_default (App.currentLat s) (Js.lit 12.4244))
                (Js.lit 0.005))
             (Js.add (App.or_default (App.currentLng s) (Js.lit 76.5761))
                (Js.lit 0.005)) s)
  /\ (App.mode s = draw -> s2 = s).
Proof.
  intros Hs s1 s2.
  assert (H1 : s1 = App.set_timers (App.timers s ++ [App.SimulatedClick]) s)
    by reflexivity.
  split; [rewrite H1; reflexivity|].
  assert (H2 : s2 = (App.onMapClick_calling App.startScanning
                       (Leaflet.mkClick
                          (Js.add (App.or_default (App.currentLat s)
                                     (Js.lit 12.4244)) (Js.lit 0.005))
                          (Js.add (App.or_default (App.currentLng s)
                                     (Js.lit 76.5761)) (Js.lit 0.005))
                          false) s).2).
  { subst s2. rewrite H1. unfold App.step at 1, App.handle.
    cbv [mbind Stmt.M_bind Stmt.gets Stmt.modify].
    cbn [App.timers App.set_timers App.startScanning_of].
    rewrite list_lookup_middle by reflexivity.
    cbn [App.timers App.set_timers App.currentLat App.currentLng].
    rewrite delete_middle, app_nil_r.
    replace (App.set_timers (App.timers s)
               (App.set_timers (App.timers s ++ [App.SimulatedClick]) s))
      with s by (destruct s; reflexivity).
    reflexivity. }
  rewrite H2. split; intros Hm.
  - rewrite onMapClick_starts; [reflexivity | exact Hs | left; exact Hm].
  - unfold App.onMapClick_calling. cbv [mbind Stmt.M_bind Stmt.gets].
    rewrite Hs, Hm. reflexivity.
Qed.

Lemma triggerAI_simulates_click_witness :
  let s2 := App.run App.last_declaration (App.loaded zeros)
              [App.AiButton; App.Timeout 0] in
  App.isScanning s2 = true
  /\ App.currentLat s2 = Js.lit 12.429400000000001
  /\ App.currentLng s2 = Js.lit 76.58109999999999
  /\ Js.strict_eq (App.currentLat s2) (Js.lit 12.4294) = false
  /\ Js.strict_eq (App.currentLng s2) (Js.lit 76.5811) = false
  /\ App.dispLat s2 = Some (Js.text "12.42940")
  /\ App.dispLon s2 = Some (Js.text "76.58110").
Proof.
  destruct (triggerAI_simulates_click (App.loaded zeros) eq_refl)
    as (_ & Hclick & _).
  cbn [App.run foldl]. cbn [length App.timers App.loaded] in Hclick.
  rewrite Hclick by reflexivity.
  repeat split; vm_compute; reflexivity.
Defined.

Lemma good_response_is_applied_witness :
  let s' := App.step App.last_declaration scanning_page
              (App.Settle 0 (Api.Response true "OK"
                               (Api.Json example_with_capacity))) in
  App.currentVol s' = Api.volume example_with_capacity
  /\ App.scan_status s' = "Complete.".
Proof.
  assert (Hr : App.fetches scanning_page !! 0%nat
               = Some (App.mkRequest (Js.lit 1) (Js.lit 2) None))
    by (vm_compute; reflexivity).
  pose proof (good_response_is_applied scanning_page 0
                (App.mkRequest (Js.lit 1) (Js.lit 2) None) "OK"
                example_with_capacity example_layers
                Hr eq_refl eq_refl eq_refl) as H.
  cbv zeta in H. cbv zeta.
  destruct H as (_ & Hvol & _ & _ & _ & _ & _ & Hst & _).
  split; [exact Hvol | exact Hst].
Defined.

(** ** The layers of the exported script *)

Lemma export_addLayerToggle_built layers m0 mk handled k i nm col
    (rest : Stmt.M FrontendExport.State unit)
    (Q : FrontendExport.State -> Prop) (x : FrontendExport.State) :
  export_built layers m0 mk handled x ->
  (forall y, export_built layers m0 mk (handled ++ [k]) y -> Q (rest y).2) ->
  Q ((FrontendExport.addLayerToggle layers k i nm col;; rest) x).2.
Proof.
  intros [Hg Hs Hk Ht] Hrest.
  unfold FrontendExport.addLayerToggle.
  destruct (Js.truthy_str (layers !! key_name k)) eqn:Hp; cbn [negb].
  - erewrite then_normal; [|reflexivity]. apply Hrest. split; cbn.
    + exact Hg.
    + lia.
    + rewrite fmap_app, filter_app, Hk. cbn [fmap list_fmap].
      rewrite filter_cons_True by exact Hp. reflexivity.
    + intros t Hin. apply elem_of_app in Hin as [Hin|Hin].
      * destruct (Ht t Hin) as (? & ? & ?). auto.
      * apply list_elem_of_singleton in Hin. subst. cbn.
        split; [reflexivity|]. split; [lia | reflexivity].
  - erewrite then_normal; [|reflexivity]. apply Hrest. split.
    + exact Hg.
    + exact Hs.
    + rewrite filter_app, Hk.
      rewrite filter_cons_False by (rewrite Hp; discriminate).
      rewrite filter_nil, app_nil_r. reflexivity.
    + exact Ht.
Qed.

(** In the exported script every layer starts switched off: given a
    layers object, [updateLayers] leaves the group with the selection
    marker alone, at the current coordinates, and builds one unchecked
    toggle for each of water_mask, depth, analytics, winter, summer,
    monsoon that has a URL, in this order, none of whose layers is on the
    map; the panel is made visible.  Without a layers object
    [updateLayers] returns at once and changes nothing. *)
Theorem export_updateLayers_all_off
    (layers : gmap string string) (s : FrontendExport.State) :
  let s' := (FrontendExport.updateLayers (Some layers) s).2 in
  FrontendExport.updateLayers None s = (Stmt.Normal tt, s)
  /\ FrontendExport.layerGroup s'
  = {[ S (FrontendExport.lastId s)
       := FrontendExport.marker
            (Leaflet.mkMarker (FrontendExport.currentLat s)
               (FrontendExport.currentLng s)) ]}
  /\ (λ t, Leaflet.made_for (FrontendExport.layer t))
       <$> FrontendExport.layerControl s'
     = filter (λ k, Js.truthy_str (layers !! key_name k) = true)
         [water_mask; depth; analytics; winter; summer; monsoon]
  /\ (forall t, t ∈ FrontendExport.layerControl s' ->
        FrontendExport.checked t = false
        /\ FrontendExport.layerGroup s' !! FrontendExport.layer_stamp t = None
        /\ Leaflet.url (FrontendExport.layer t)
           = default ""
               (layers
                  !! key_name (Leaflet.made_for (FrontendExport.layer t))))
  /\ FrontendExport.layerControlPanel_hidden s' = false.
Proof.
  intros s'. subst s'. split; [reflexivity|].
  unfold FrontendExport.updateLayers.
  rewrite (then_normal (Stmt.modify _) _ s _ eq_refl).
  rewrite (then_normal FrontendExport.add_marker _ _ _ eq_refl).
  rewrite (then_normal (Stmt.modify _) _ _ _ eq_refl).
  match goal with
  | |- context [(_ ;; _) ?s0] =>
      assert (B : export_built layers (S (FrontendExport.lastId s))
                    (FrontendExport.marker
                       (Leaflet.mkMarker (FrontendExport.currentLat s)
                          (FrontendExport.currentLng s))) [] s0);
      [|revert B; generalize s0; intros x B]
  end.
  { split; cbn.
    - reflexivity.
    - lia.
    - reflexivity.
    - intros t Ht. apply elem_of_nil in Ht. contradiction. }
  do 6 (eapply export_addLayerToggle_built; [exact B|];
        clear x B; intros x B; cbn [app] in B).
  destruct B as [Hg Hs Hk Ht].
  cbn [snd FrontendExport.layerGroup FrontendExport.layerControl
       FrontendExport.layerControlPanel_hidden
       FrontendExport.set_layerControlPanel_hidden Stmt.modify].
  split; [exact Hg|]. split; [exact Hk|]. split; [|reflexivity].
  intros t Hin. destruct (Ht t Hin) as (Hc & Hlt & Hu).
  split; [exact Hc|]. split; [|exact Hu].
  rewrite Hg. apply lookup_singleton_ne. lia.
Qed.

Lemma export_updateLayers_all_off_witness :
  exists t,
    t ∈ FrontendExport.layerControl
          (FrontendExport.updateLayers (Some example_layers)
             FrontendExport.loaded).2
    /\ FrontendExport.checked t = false.
Proof.
  pose proof (export_updateLayers_all_off example_layers
                FrontendExport.loaded) as H.
  cbv zeta in H. destruct H as (_ & _ & _ & H & _).
  assert (Hin : exists t,
            t ∈ FrontendExport.layerControl
                  (FrontendExport.updateLayers (Some example_layers)
                     FrontendExport.loaded).2)
    by (vm_compute; eexists; left).
  destruct Hin as [t Hin]. exists t.
  split; [exact Hin | exact (proj1 (H t Hin))].
Defined.

(** [onChange] of the exported script on a control that has the toggle. *)
Lemma export_onChange_page i isChecked (s : FrontendExport.State) n t :
  list_find (λ t, FrontendExport.id t = i) (FrontendExport.layerControl s)
  = Some (n, t) ->
  FrontendExport.step s (FrontendExport.Change i isChecked)
  = FrontendExport.set_layerGroup
      (if isChecked
       then Leaflet.addLayer (FrontendExport.layer_stamp t)
              (FrontendExport.tile (FrontendExport.layer t))
              (FrontendExport.layerGroup s)
       else Leaflet.removeLayer (FrontendExport.layer_stamp t)
              (FrontendExport.layerGroup s))
      (FrontendExport.set_layerControl
         (<[n := FrontendExport.mkToggle (FrontendExport.id t)
                   (FrontendExport.name t) (FrontendExport.color t)
                   isChecked (FrontendExport.layer_stamp t)
                   (FrontendExport.layer t)]>
            (FrontendExport.layerControl s)) s).
Proof.
  intros Hfind.
  unfold FrontendExport.step, FrontendExport.handle, FrontendExport.onChange.
  cbv [mbind Stmt.M_bind Stmt.gets]. rewrite Hfind.
  destruct isChecked; reflexivity.
Qed.

Lemma export_list_find_after i isChecked
    (c : list FrontendExport.Toggle) n t :
  list_find (λ t, FrontendExport.id t = i) c = Some (n, t) ->
  list_find (λ t, FrontendExport.id t = i)
    (<[n := FrontendExport.mkToggle (FrontendExport.id t)
              (FrontendExport.name t) (FrontendExport.color t)
              isChecked (FrontendExport.layer_stamp t)
              (FrontendExport.layer t)]> c)
  = Some (n, FrontendExport.mkToggle (FrontendExport.id t)
               (FrontendExport.name t) (FrontendExport.color t)
               isChecked (FrontendExport.layer_stamp t)
               (FrontendExport.layer t)).
Proof.
  intros Hfind. apply list_find_Some in Hfind as (Hn & Hi & Hbefore).
  apply list_find_Some. split; [|split].
  - apply list_lookup_insert_eq. eapply lookup_lt_Some, Hn.
  - exact Hi.
  - intros j y Hj Hlt. rewrite list_lookup_insert_ne in Hj by lia.
    exact (Hbefore j y Hj Hlt).
Qed.

(** In the exported script a toggle holds one layer for good: checking it
    puts that layer on the map under its stamp, checking it again changes
    nothing, and unchecking it takes the layer off again, which restores
    the group when the layer was not on the map before. *)
Theorem export_toggle_round_trip
    (s : FrontendExport.State) (i : string) (n : nat)
    (t : FrontendExport.Toggle) :
  list_find (λ t, FrontendExport.id t = i) (FrontendExport.layerControl s)
  = Some (n, t) ->
  let on := FrontendExport.step s (FrontendExport.Change i true) in
  FrontendExport.layerGroup on !! FrontendExport.layer_stamp t
  = Some (FrontendExport.tile (FrontendExport.layer t))
  /\ FrontendExport.step on (FrontendExport.Change i true) = on
  /\ (FrontendExport.layerGroup s !! FrontendExport.layer_stamp t = None ->
      FrontendExport.layerGroup
        (FrontendExport.step on (FrontendExport.Change i false))
      = FrontendExport.layerGroup s).
Proof.
  intros Hfind on.
  assert (Hon : on = FrontendExport.set_layerGroup
                  (Leaflet.addLayer (FrontendExport.layer_stamp t)
                     (FrontendExport.tile (FrontendExport.layer t))
                     (FrontendExport.layerGroup s))
                  (FrontendExport.set_layerControl
                     (<[n := FrontendExport.mkToggle (FrontendExport.id t)
                               (FrontendExport.name t) (FrontendExport.color t)
                               true (FrontendExport.layer_stamp t)
                               (FrontendExport.layer t)]>
                        (FrontendExport.layerControl s)) s))
    by (subst on; apply (export_onChange_page i true s n t Hfind)).
  assert (Hfind' :
    list_find (λ t, FrontendExport.id t = i) (FrontendExport.layerControl on)
    = Some (n, FrontendExport.mkToggle (FrontendExport.id t)
                 (FrontendExport.name t) (FrontendExport.color t)
                 true (FrontendExport.layer_stamp t)
                 (FrontendExport.layer t)))
    by (rewrite Hon; apply export_list_find_after, Hfind).
  split; [|split].
  - rewrite Hon. apply lookup_insert_eq.
  - rewrite (export_onChange_page i true on n _ Hfind').
    rewrite Hon. cbn. unfold Leaflet.addLayer.
    rewrite insert_insert_eq, list_insert_insert_eq. reflexivity.
  - intros Hfree.
    rewrite (export_onChange_page i false on n _ Hfind').
    rewrite Hon. cbn. unfold Leaflet.addLayer, Leaflet.removeLayer.
    rewrite delete_insert_eq. apply delete_id, Hfree.
Qed.

Lemma export_toggle_round_trip_witness :
  let s := FrontendExport.run FrontendExport.loaded
             [FrontendExport.MapClick (Js.lit 1) (Js.lit 2);
              FrontendExport.Settle 0 (ok_response example_with_capacity)] in
  FrontendExport.layerGroup
    (FrontendExport.run s
       [FrontendExport.Change "depth" true;
        FrontendExport.Change "depth" false])
  = FrontendExport.layerGroup s.
Proof.
  cbv zeta. cbn [FrontendExport.run foldl].
  eapply (export_toggle_round_trip _ "depth" 0%nat); vm_compute; reflexivity.
Defined.

(** ** The narrative summary *)

Section ReportFacts.
Variable marked_parse : Report.Json -> string + Stmt.JsError.

(** [generateAIReport] is gated on the stored volume: while it is 0, as on
  the page just loaded or after a scan that found no water, the button
  shows the notification "Select a water body first!" and does nothing
  else; otherwise it disables itself, shows "Connecting..." and issues
  one request built from the stored coordinates, area and volume,
  leaving the dashboard as it is. *)
Theorem report_gated_on_volume (p : Report.Page) :
let s := Report.dashboard p in
let p' := Report.step marked_parse p Report.AiButton in
(Js.strict_eq (App.currentVol s) Js.zero = true ->
 p' = Report.set_dashboard
        (App.set_toast
           (App.toast s ++ [(Dom.error, "Select a water body first!")]) s)
        p)
/\ (Js.strict_eq (App.currentVol s) Js.zero = false ->
    Report.dashboard p' = s
    /\ Report.aiBtn_disabled p' = true
    /\ Report.aiBtn_label p' = Report.connecting
    /\ Report.requests p'
       = <[Report.nextRequest p
           := Report.mkPrompt (App.currentLat s) (App.currentLng s)
                (App.currentArea s) (App.currentVol s)]>
           (Report.requests p)
    /\ Report.aiModal_hidden p' = Report.aiModal_hidden p).
Proof.
intros s p'. subst s p'.
unfold Report.step, Report.handle, Report.generateAIReport.
cbv [mbind Stmt.M_bind Stmt.gets].
split; intros Hv.
- rewrite Hv. reflexivity.
- rewrite Hv. repeat split.
Qed.

Lemma report_settle_page (p : Report.Page) r pr o :
Report.requests p !! r = Some pr ->
Report.step marked_parse p (Report.Settle r o)
= (Report.generateAIReport_rest marked_parse o
     (Report.set_requests (delete r (Report.requests p)) p)).2.
Proof.
intros Hr. unfold Report.step, Report.handle.
cbv [mbind Stmt.M_bind Stmt.gets Stmt.modify]. rewrite Hr. reflexivity.
Qed.

(** The failure of the summary is a channel of its own: however the
  request settles, and whatever the renderer does, the button is enabled
  again with its label restored, and of the dashboard only the
  notifications can have changed (by at most one, "AI Error: ..."):
  coordinates, stored result, metrics, charts, layers, requests and scan
  state are as before. *)
Theorem report_restores_button
  (p : Report.Page) (r : nat) (pr : Report.Prompt) (o : Report.Outcome) :
Report.requests p !! r = Some pr ->
let p' := Report.step marked_parse p (Report.Settle r o) in
Report.aiBtn_disabled p' = false
/\ Report.aiBtn_label p' = Report.ai_analysis
/\ Report.requests p' = delete r (Report.requests p)
/\ (Report.dashboard p' = Report.dashboard p
    \/ exists msg,
         Report.dashboard p'
         = App.set_toast
             (App.toast (Report.dashboard p)
                ++ [(Dom.error, "AI Error: " +:+ msg)])
             (Report.dashboard p)
         /\ Report.aiModal_hidden p' = Report.aiModal_hidden p
         /\ Report.aiContent p' = Report.aiContent p).
Proof.
intros Hr p'. subst p'. rewrite (report_settle_page p r pr o Hr).
unfold Report.generateAIReport_rest, Stmt.try_catch_finally,
       Report.generated_text.
cbv [mbind Stmt.M_bind Stmt.modify Stmt.throw mret Stmt.M_ret
     Report.showToast Report.on_dashboard App.showToast].
destruct o as [msg|ok [data|msg]];
  [ | destruct data; [ | destruct (marked_parse _) as [html|e] .. ] | ];
  cbn [fst snd Report.aiBtn_disabled Report.aiBtn_label Report.requests
       Report.dashboard Report.set_aiBtn_disabled Report.set_aiBtn_label
       Report.set_requests Report.set_dashboard Report.set_aiContent
       Report.set_aiModal_hidden Report.set_aiModal_flex
       Report.aiModal_hidden Report.aiContent];
  repeat (split; [reflexivity|]);
  first [ left; reflexivity | right; eexists; repeat split ].
Qed.

(** What the modal shows: when the body is not [null] and the renderer
  accepts the text, the modal is opened with the rendering of
  [candidates[0].content.parts[0].text], or of "AI Processing Error."
  when that path is missing or its value is falsy; no notification is
  shown, and the status of the response plays no part. *)
Theorem report_shows_text
  (p : Report.Page) (r : nat) (pr : Report.Prompt) (ok : bool)
  (data : Report.Json) (html : string) :
Report.requests p !! r = Some pr ->
data <> Report.JNull ->
let found :=
  Report.opt_prop
    (Report.opt_prop
       (Report.opt_prop
          (Report.opt_prop
             (Report.opt_prop
                (Report.prop data (Report.name "candidates")) Report.zero)
             (Report.name "content"))
          (Report.name "parts"))
       Report.zero)
    (Report.name "text") in
marked_parse (Report.or_fallback found) = inl html ->
let p' := Report.step marked_parse p
            (Report.Settle r (Report.Response ok (inl data))) in
Report.aiContent p' = Some html
/\ Report.aiModal_hidden p' = false /\ Report.aiModal_flex p' = true
/\ Report.dashboard p' = Report.dashboard p
/\ Report.aiBtn_disabled p' = false.
Proof.
intros Hr Hdata found Hm p'. subst p'.
rewrite (report_settle_page p r pr _ Hr).
unfold Report.generateAIReport_rest, Stmt.try_catch_finally,
       Report.generated_text.
cbv [mbind Stmt.M_bind Stmt.modify Stmt.throw mret Stmt.M_ret].
destruct data; try contradiction; fold found; rewrite Hm;
  repeat split.
Qed.

(** The path to the text on a body of the documented shape, and on bodies
  that lack it. *)
Theorem generated_text_path (text : Report.Json) (p : Report.Page) :
Report.generated_text (gemini_body text) p = (Stmt.Normal (Some text), p)
/\ (Report.truthy (Some text) = true ->
    Report.or_fallback (Some text) = text)
/\ (Report.truthy (Some text) = false ->
    Report.or_fallback (Some text) = Report.JStr "AI Processing Error.")
/\ (forall members,
      members !! "candidates" = None \/
      members !! "candidates" = Some (Report.JArr []) ->
      exists found,
        Report.generated_text (Report.JObj members) p
        = (Stmt.Normal found, p)
        /\ Report.or_fallback found = Report.JStr "AI Processing Error.")
/\ (exists e, Report.generated_text Report.JNull p = (Stmt.Throw e, p)).
Proof.
split; [reflexivity|].
split; [intros H; unfold Report.or_fallback; rewrite H; reflexivity|].
split; [intros H; unfold Report.or_fallback; rewrite H; reflexivity|].
split; [|eexists; reflexivity].
intros members [H|H]; eexists; (split; [reflexivity|]); cbn; rewrite H;
  reflexivity.
Qed.

End ReportFacts.

Lemma report_gated_on_volume_witness :
  Report.requests (Report.step plain_marked report_page Report.AiButton)
  = {[ 0%nat := Report.mkPrompt (Js.lit 1) (Js.lit 2) (Js.lit 2.5) (Js.lit 12.8) ]}
  /\ Report.dashboard
       (Report.step plain_marked (Report.loaded zeros) Report.AiButton)
     = App.set_toast
         (App.toast (App.loaded zeros)
            ++ [(Dom.error, "Select a water body first!")])
         (App.loaded zeros).
Proof.
  split.
  - destruct (report_gated_on_volume plain_marked report_page) as [_ H].
    destruct H as (_ & _ & _ & Hreq & _); [vm_compute; reflexivity|].
    rewrite Hreq. vm_compute. reflexivity.
  - destruct (report_gated_on_volume plain_marked (Report.loaded zeros))
      as [H _].
    rewrite H by reflexivity. reflexivity.
Defined.

Lemma report_restores_button_witness :
  Report.aiBtn_disabled
    (Report.run plain_marked report_page
       [Report.AiButton; Report.Settle 0 (Report.NetworkError "offline")])
  = false.
Proof.
  cbn [Report.run foldl].
  eapply (report_restores_button plain_marked _ 0%nat).
  vm_compute. reflexivity.
Defined.

Lemma report_shows_text_witness :
  Report.aiContent
    (Report.run plain_marked report_page
       [Report.AiButton;
        Report.Settle 0
          (Report.Response false
             (inl (gemini_body (Report.JStr "Keep the reservoir full."))))])
  = Some "Keep the reservoir full.".
Proof.
  cbn [Report.run foldl].
  eapply (report_shows_text plain_marked _ 0%nat);
    [vm_compute; reflexivity | discriminate | vm_compute; reflexivity].
Defined.

Lemma generated_text_path_witness :
  Report.or_fallback (Some (Report.JStr "")) = Report.JStr "AI Processing Error.".
Proof.
  apply (generated_text_path (Report.JStr "") (Report.loaded zeros)).
  reflexivity.
Defined.

(** ** Navigation *)

Section NavFacts.
Implicit Types (doc : list Nav.Element) (f g : Nav.Element -> Nav.Element).

Lemma list_find_same_ids doc doc' (i : string) n el :
Nav.id <$> doc' = Nav.id <$> doc ->
list_find (λ el, Nav.id el = Some i) doc = Some (n, el) ->
exists el', list_find (λ el, Nav.id el = Some i) doc' = Some (n, el').
Proof.
intros Hids Hfind. apply list_find_Some in Hfind as (Hn & Hi & Hbefore).
assert (Hat : forall j, Nav.id <$> doc' !! j = Nav.id <$> doc !! j).
{ intros j. rewrite <- !list_lookup_fmap, Hids. reflexivity. }
pose proof (Hat n) as Hn'. rewrite Hn in Hn'. cbn in Hn'.
destruct (doc' !! n) as [el'|] eqn:Hel'; [|discriminate].
exists el'. apply list_find_Some. split; [exact Hel'|]. split.
- cbn in Hn'. congruence.
- intros j y Hj Hlt Hy. pose proof (Hat j) as Hj'. rewrite Hj in Hj'.
  cbn in Hj'. destruct (doc !! j) as [x|] eqn:Hx; [|discriminate].
  apply (Hbefore j x Hx Hlt). cbn in Hj'. congruence.
Qed.

Lemma list_find_no_id doc doc' (i : string) :
Nav.id <$> doc' = Nav.id <$> doc ->
list_find (λ el, Nav.id el = Some i) doc = None ->
list_find (λ el, Nav.id el = Some i) doc' = None.
Proof.
intros Hids Hfind.
destruct (list_find _ doc') as [[n el']|] eqn:Hfind'; [|reflexivity].
destruct (list_find_same_ids doc' doc i n el' (eq_sym Hids) Hfind')
  as [el Hel].
congruence.
Qed.

End NavFacts.

Lemma on_element_found (i : string) f (doc : list Nav.Element) n el :
  list_find (λ el, Nav.id el = Some i) doc = Some (n, el) ->
  Nav.on_element i f doc = (Stmt.Normal tt, <[n := f el]> doc).
Proof.
  intros H. unfold Nav.on_element. cbv [mbind Stmt.M_bind Stmt.gets].
  rewrite H. reflexivity.
Qed.

Lemma on_element_missing (i : string) f (doc : list Nav.Element) :
  list_find (λ el, Nav.id el = Some i) doc = None ->
  exists e, Nav.on_element i f doc = (Stmt.Throw e, doc).
Proof.
  intros H. unfold Nav.on_element. cbv [mbind Stmt.M_bind Stmt.gets].
  rewrite H. eexists. reflexivity.
Qed.

Lemma ids_fmap f (doc : list Nav.Element) :
  (forall el, Nav.id (f el) = Nav.id el) ->
  Nav.id <$> (f <$> doc) = Nav.id <$> doc.
Proof.
  intros H. rewrite <- list_fmap_compose. apply list_fmap_ext.
  intros _ el _. apply H.
Qed.

Lemma ids_insert (doc : list Nav.Element) n el el' :
  doc !! n = Some el -> Nav.id el' = Nav.id el ->
  Nav.id <$> <[n := el']> doc = Nav.id <$> doc.
Proof.
  intros Hn H. rewrite list_fmap_insert, H. apply list_insert_id.
  rewrite list_lookup_fmap, Hn. reflexivity.
Qed.

Lemma hide_keeps_id el :
  Nav.id (if Nav.is_section el then Nav.add ["hidden"] el else el)
  = Nav.id el.
Proof. destruct (Nav.is_section el); reflexivity. Qed.

Lemma dim_keeps_id el :
  Nav.id (if Nav.is_nav_link el then Nav.remove Nav.highlight el else el)
  = Nav.id el.
Proof. destruct (Nav.is_nav_link el); reflexivity. Qed.

(** [navTo] on a document that has the section and its link. *)
Lemma navTo_page (i : string) (doc : list Nav.Element) n el m ln :
  list_find (λ el, Nav.id el = Some i) doc = Some (n, el) ->
  list_find (λ el, Nav.id el = Some ("nav-" +:+ i)) doc = Some (m, ln) ->
  Nav.navTo i doc = (Stmt.Normal tt, imap (switched n m) doc).
Proof.
  intros Hi Hnav. unfold Nav.navTo, Nav.forEach.
  rewrite (then_normal (Stmt.modify _) _ doc _ eq_refl).
  set (hide := λ el, if Nav.is_section el then Nav.add ["hidden"] el else el).
  set (dim := λ el, if Nav.is_nav_link el then Nav.remove Nav.highlight el
                    else el).
  assert (Hn : doc !! n = Some el) by (apply list_find_Some in Hi; tauto).
  assert (Hm : doc !! m = Some ln) by (apply list_find_Some in Hnav; tauto).
  assert (Hids1 : Nav.id <$> (hide <$> doc) = Nav.id <$> doc)
    by (apply ids_fmap, hide_keeps_id).
  destruct (list_find_same_ids doc (hide <$> doc) i n el Hids1 Hi)
    as [el1 Hfind1].
  assert (Hel1 : el1 = hide el).
  { apply list_find_Some in Hfind1 as (H & _).
    rewrite list_lookup_fmap, Hn in H. cbn in H. congruence. }
  subst el1.
  rewrite (then_normal _ _ _ _ (on_element_found i _ _ n _ Hfind1)).
  rewrite (then_normal (Stmt.modify _) _ _ _ eq_refl).
  set (doc2 := <[n := Nav.remove ["hidden"] (hide el)]> (hide <$> doc)).
  assert (Hids2 : Nav.id <$> doc2 = Nav.id <$> doc).
  { subst doc2. rewrite (ids_insert _ n (hide el)); [exact Hids1 | |].
    - rewrite list_lookup_fmap, Hn. reflexivity.
    - reflexivity. }
  assert (Hids3 : Nav.id <$> (dim <$> doc2) = Nav.id <$> doc)
    by (rewrite ids_fmap; [exact Hids2 | apply dim_keeps_id]).
  destruct (list_find_same_ids doc (dim <$> doc2) _ m ln Hids3 Hnav)
    as [el3 Hfind3].
  rewrite (on_element_found _ _ _ m _ Hfind3). f_equal.
  apply list_find_Some in Hfind3 as (Hel3 & _).
  apply list_eq. intros j.
  rewrite list_lookup_imap. unfold switched. fold (hide) (dim).
  destruct (decide (j = m)) as [->|Hjm].
  - rewrite list_lookup_insert_eq by (eapply lookup_lt_Some, Hel3).
    rewrite Hm. cbn. f_equal.
    rewrite list_lookup_fmap in Hel3. subst doc2.
    destruct (decide (m = n)) as [->|Hmn].
    + rewrite list_lookup_insert_eq in Hel3
        by (rewrite length_fmap; eapply lookup_lt_Some, Hn).
      cbn in Hel3. injection Hel3 as <-.
      assert (el = ln) by congruence. subst. reflexivity.
    + rewrite list_lookup_insert_ne, list_lookup_fmap, Hm in Hel3
        by congruence.
      cbn in Hel3. injection Hel3 as <-. reflexivity.
  - rewrite list_lookup_insert_ne by congruence.
    rewrite list_lookup_fmap. subst doc2.
    destruct (decide (j = n)) as [->|Hjn].
    + rewrite list_lookup_insert_eq
        by (rewrite length_fmap; eapply lookup_lt_Some, Hn).
      rewrite Hn. reflexivity.
    + rewrite list_lookup_insert_ne, list_lookup_fmap by congruence.
      destruct (doc !! j); reflexivity.
Qed.

Lemma in_highlight c :
  c ∈ Nav.highlight ->
  c = "text-cyan-400" \/ c = "border-b-2" \/ c = "border-cyan-400".
Proof.
  intros H. unfold Nav.highlight in H.
  repeat (apply elem_of_cons in H as [H|H]; [auto|]).
  apply elem_of_nil in H. contradiction.
Qed.

#[local] Set Warnings "-clear-no-such-hyp".

(** After [navTo(id)] on a document that has an element with the id and
    one with the id of its link: tags and ids are as before; the element
    with the id is not hidden and every other section is; the link has
    the three highlight classes and no other element of class [nav-link]
    has any of them. *)
Theorem navTo_switches_section
    (i : string) (doc : list Nav.Element) (n m : nat) (el ln : Nav.Element) :
  list_find (λ el, Nav.id el = Some i) doc = Some (n, el) ->
  list_find (λ el, Nav.id el = Some ("nav-" +:+ i)) doc = Some (m, ln) ->
  exists doc',
    Nav.navTo i doc = (Stmt.Normal tt, doc')
    /\ Nav.id <$> doc' = Nav.id <$> doc
    /\ Nav.tag <$> doc' = Nav.tag <$> doc
    /\ (forall j el', doc' !! j = Some el' ->
          (j = n -> "hidden" ∉ Nav.classList el')
          /\ (j <> n -> Nav.tag el' = "section" ->
              "hidden" ∈ Nav.classList el')
          /\ (j = m -> forall c, c ∈ Nav.highlight -> c ∈ Nav.classList el')
          /\ (j <> m -> "nav-link" ∈ Nav.classList el' ->
              forall c, c ∈ Nav.highlight -> c ∉ Nav.classList el')).
Proof.
  intros Hi Hnav. eexists. split; [apply (navTo_page i doc n el m ln Hi Hnav)|].
  assert (Hid : forall j el, Nav.id (switched n m j el) = Nav.id el
                           /\ Nav.tag (switched n m j el) = Nav.tag el).
  { intros j x. unfold switched.
    destruct (Nav.is_section x), (decide (j = n)), (decide (j = m));
      cbn; repeat (destruct (Nav.is_nav_link _)); split; reflexivity. }
  split; [|split].
  - apply list_eq. intros j.
    rewrite !list_lookup_fmap, list_lookup_imap.
    destruct (doc !! j) as [x|]; [|reflexivity]. cbn. f_equal. apply Hid.
  - apply list_eq. intros j.
    rewrite !list_lookup_fmap, list_lookup_imap.
    destruct (doc !! j) as [x|]; [|reflexivity]. cbn. f_equal. apply Hid.
  - intros j el' Hj. rewrite list_lookup_imap in Hj.
    destruct (doc !! j) as [x|]; [|discriminate].
    cbn in Hj. injection Hj as <-.
    assert (Htag : Nav.tag (switched n m j x) = "section" ->
                   String.eqb (Nav.tag x) "section" = true).
    { intros H. apply String.eqb_eq. rewrite <- H. symmetry. apply Hid. }
    unfold switched, Nav.is_section, Nav.is_nav_link in *.
    destruct (String.eqb (Nav.tag x) "section") eqn:Hsec,
             (decide (j = n)) as [Hjn|Hjn], (decide (j = m)) as [Hjm|Hjm];
      cbn in *; repeat case_bool_decide; cbn in *;
      (split; [|split; [|split]]);
      try (intros; congruence);
      try (intros _; set_solver);
      try (intros _ _; set_solver);
      try (intros _ H; specialize (Htag H); discriminate);
      try (intros _ Hlink c Hc; apply in_highlight in Hc; set_solver).
Qed.

Lemma navTo_switches_section_witness :
  exists doc',
    Nav.navTo "about" two_sections = (Stmt.Normal tt, doc')
    /\ Nav.id <$> doc' = Nav.id <$> two_sections.
Proof.
  destruct (navTo_switches_section "about" two_sections 1%nat 3%nat
              (Nav.mkElement "section" (Some "about") {[ "hidden" ]})
              (Nav.mkElement "a" (Some "nav-about") {[ "nav-link" ]}))
    as (doc' & H & Hids & _).
  - vm_compute. reflexivity.
  - vm_compute. reflexivity.
  - exists doc'. split; assumption.
Defined.

Lemma hide_keeps_tag el :
  Nav.tag (if Nav.is_section el then Nav.add ["hidden"] el else el)
  = Nav.tag el.
Proof. destruct (Nav.is_section el); reflexivity. Qed.

Lemma dim_keeps_tag el :
  Nav.tag (if Nav.is_nav_link el then Nav.remove Nav.highlight el else el)
  = Nav.tag el.
Proof. destruct (Nav.is_nav_link el); reflexivity. Qed.

Lemma dim_hidden el :
  "hidden" ∈ Nav.classList
               (if Nav.is_nav_link el then Nav.remove Nav.highlight el
                else el)
  <-> "hidden" ∈ Nav.classList el.
Proof.
  destruct (Nav.is_nav_link el); [|reflexivity].
  cbn. unfold Nav.highlight. set_solver.
Qed.

Lemma dim_no_highlight el :
  "nav-link" ∈ Nav.classList
                 (if Nav.is_nav_link el then Nav.remove Nav.highlight el
                  else el) ->
  forall c, c ∈ Nav.highlight ->
    c ∉ Nav.classList
          (if Nav.is_nav_link el then Nav.remove Nav.highlight el else el).
Proof.
  unfold Nav.is_nav_link. case_bool_decide as Hl.
  - intros _ c Hc. cbn. set_solver.
  - intros Hl'. contradiction.
Qed.

(** [navTo] with an id that no element has throws a [TypeError] after it
    has hidden every section: the page is left with no section visible,
    and the links as they were.  When only the link is missing, the error
    comes after the sections are switched and every link has lost its
    highlight: the element with the id is not hidden, every other section
    is, and no element of class [nav-link] has a highlight class. *)
Theorem navTo_unknown_id (i : string) (doc : list Nav.Element) :
  (list_find (λ el, Nav.id el = Some i) doc = None ->
   exists e doc',
     Nav.navTo i doc = (Stmt.Throw e, doc')
     /\ doc' = (λ el, if Nav.is_section el then Nav.add ["hidden"] el
                      else el) <$> doc
     /\ (forall el', el' ∈ doc' -> Nav.tag el' = "section" ->
           "hidden" ∈ Nav.classList el'))
  /\ (forall n el,
        list_find (λ el, Nav.id el = Some i) doc = Some (n, el) ->
        list_find (λ el, Nav.id el = Some ("nav-" +:+ i)) doc = None ->
        exists e doc',
          Nav.navTo i doc = (Stmt.Throw e, doc')
          /\ Nav.id <$> doc' = Nav.id <$> doc
          /\ Nav.tag <$> doc' = Nav.tag <$> doc
          /\ forall j el', doc' !! j = Some el' ->
               (j = n -> "hidden" ∉ Nav.classList el')
               /\ (j <> n -> Nav.tag el' = "section" ->
                   "hidden" ∈ Nav.classList el')
               /\ ("nav-link" ∈ Nav.classList el' ->
                   forall c, c ∈ Nav.highlight -> c ∉ Nav.classList el')).
Proof.
  split.
  - intros Hnone. unfold Nav.navTo, Nav.forEach.
    rewrite (then_normal (Stmt.modify _) _ doc _ eq_refl).
    set (hide := λ el, if Nav.is_section el then Nav.add ["hidden"] el
                       else el).
    assert (Hnone1 : list_find (λ el, Nav.id el = Some i) (hide <$> doc)
                     = None).
    { eapply list_find_no_id; [|exact Hnone].
      apply ids_fmap, hide_keeps_id. }
    destruct (on_element_missing i (Nav.remove ["hidden"]) _ Hnone1)
      as [e He].
    exists e, (hide <$> doc). split; [|split].
    + unfold mbind, Stmt.M_bind. unfold Stmt.modify at 1. cbn [snd].
      rewrite He. reflexivity.
    + reflexivity.
    + intros el' Hin Htag.
      apply list_elem_of_fmap in Hin as (x & -> & _).
      subst hide. cbn in *. unfold Nav.is_section in *.
      destruct (String.eqb (Nav.tag x) "section") eqn:Hsec.
      * cbn. set_solver.
      * apply String.eqb_neq in Hsec. contradiction.
  - intros n el Hi Hnone. unfold Nav.navTo, Nav.forEach.
    rewrite (then_normal (Stmt.modify _) _ doc _ eq_refl).
    set (hide := λ el, if Nav.is_section el then Nav.add ["hidden"] el
                       else el).
    set (dim := λ el, if Nav.is_nav_link el then Nav.remove Nav.highlight el
                      else el).
    assert (Hn : doc !! n = Some el) by (apply list_find_Some in Hi; tauto).
    assert (Hids1 : Nav.id <$> (hide <$> doc) = Nav.id <$> doc)
      by (apply ids_fmap, hide_keeps_id).
    destruct (list_find_same_ids doc (hide <$> doc) i n el Hids1 Hi)
      as [el1 Hfind1].
    assert (Hel1 : (hide <$> doc) !! n = Some el1)
      by (apply list_find_Some in Hfind1; tauto).
    assert (el1 = hide el).
    { rewrite list_lookup_fmap, Hn in Hel1. cbn in Hel1. congruence. }
    subst el1.
    rewrite (then_normal _ _ _ _ (on_element_found i _ _ n _ Hfind1)).
    rewrite (then_normal (Stmt.modify _) _ _ _ eq_refl).
    set (doc2 := <[n := Nav.remove ["hidden"] (hide el)]> (hide <$> doc)).
    assert (Hids3 : Nav.id <$> (dim <$> doc2) = Nav.id <$> doc).
    { rewrite ids_fmap by apply dim_keeps_id. subst doc2.
      rewrite (ids_insert _ n (hide el));
        [exact Hids1 | exact Hel1 | reflexivity]. }
    assert (Hnone3 : list_find (λ el, Nav.id el = Some ("nav-" +:+ i))
                       (dim <$> doc2) = None)
      by (eapply list_find_no_id; [exact Hids3 | exact Hnone]).
    destruct (on_element_missing _ (Nav.add Nav.highlight) _ Hnone3)
      as [e He].
    exists e, (dim <$> doc2). split; [exact He|].
    split; [exact Hids3|].
    assert (Hat : forall j,
              (dim <$> doc2) !! j
              = (λ x, dim (if decide (j = n)
                           then Nav.remove ["hidden"] (hide x)
                           else hide x)) <$> doc !! j).
    { intros j. rewrite list_lookup_fmap. subst doc2.
      destruct (decide (j = n)) as [->|Hjn].
      - rewrite list_lookup_insert_eq
          by (rewrite length_fmap; eapply lookup_lt_Some, Hn).
        rewrite Hn. reflexivity.
      - rewrite list_lookup_insert_ne, list_lookup_fmap by congruence.
        destruct (doc !! j); reflexivity. }
    split.
    + apply list_eq. intros j.
      rewrite list_lookup_fmap, Hat, list_lookup_fmap.
      destruct (doc !! j) as [x|]; [|reflexivity]. cbn. f_equal.
      subst dim hide. cbn.
      destruct (decide (j = n)), (Nav.is_section x); cbn;
        destruct (Nav.is_nav_link _); reflexivity.
    + intros j el' Hj. rewrite Hat in Hj.
      destruct (doc !! j) as [x|]; [|discriminate].
      cbn in Hj. injection Hj as <-.
      subst dim hide. cbv beta.
      split; [|split].
      * intros Hjn. rewrite decide_True by exact Hjn.
        rewrite dim_hidden. cbn. set_solver.
      * intros Hjn Htag. rewrite decide_False in * by exact Hjn.
        rewrite dim_hidden.
        rewrite dim_keeps_tag, hide_keeps_tag in Htag.
        unfold Nav.is_section. rewrite Htag. cbn. set_solver.
      * apply dim_no_highlight.
Qed.

Lemma navTo_unknown_id_witness :
  (exists e doc',
     Nav.navTo "settings" two_sections = (Stmt.Throw e, doc')
     /\ forall el', el' ∈ doc' -> Nav.tag el' = "section" ->
          "hidden" ∈ Nav.classList el')
  /\ (exists e doc',
        Nav.navTo "about" about_without_link = (Stmt.Throw e, doc')
        /\ Nav.id <$> doc' = Nav.id <$> about_without_link).
Proof.
  split.
  - destruct (navTo_unknown_id "settings" two_sections) as [H _].
    destruct H as (e & doc' & Hnav & _ & Hhidden).
    + vm_compute. reflexivity.
    + exists e, doc'. split; assumption.
  - destruct (navTo_unknown_id "about" about_without_link) as [_ H].
    destruct (H 1%nat
                (Nav.mkElement "section" (Some "about") {[ "hidden" ]}))
      as (e & doc' & Hnav & Hids & _).
    + vm_compute. reflexivity.
    + vm_compute. reflexivity.
    + exists e, doc'. split; assumption.
Defined.
